(** * osgEarth elevation layers: a shallow embedding of ElevationLayer.cpp

    The development follows src/osgEarth/ElevationLayer.cpp:
    - [NormalizeNoDataValues] and [validateHeightField] (anonymous namespace),
    - [createHeightFieldFromTileSource], [assembleHeightField] and
      [createHeightField] of [ElevationLayer],
    - [getNormal], [createNormalMap] and
      [populateHeightFieldAndNormalMap] of [ElevationLayerVector].

    C++ [float] and [double] values are IEEE-754 binary32 and binary64 numbers,
    represented by [spec_float] with the operations of SpecFloat at
    (prec, emax) = (24, 128) and (53, 1024).  [unsigned int] and [int] values
    are integers in [Z] with the 32-bit wrap-around written out. *)

From Stdlib Require Import ZArith List Bool Lia String.
From Stdlib Require Import Floats.SpecFloat.
From stdpp Require Import base list gmap strings sorting.

Local Open Scope Z_scope.

(** ** Machine numbers *)

Definition wrap32 (z : Z) : Z := z mod 2 ^ 32.

(** Conversion of an integer to C++ [int] / [short] (two's complement). *)
Definition to_int (z : Z) : Z := (z + 2 ^ 31) mod 2 ^ 32 - 2 ^ 31.
Definition to_short (z : Z) : Z := (z + 2 ^ 15) mod 2 ^ 16 - 2 ^ 15.

Definition float := spec_float.
Definition double := spec_float.

Module F32.
Definition prec : Z := 24.
Definition emax : Z := 128.
Definition isNaN (v : float) : bool :=
  match v with S754_nan => true | _ => false end.
Definition ltb : float -> float -> bool := SFltb.
Definition leb : float -> float -> bool := SFleb.
Definition gtb (a b : float) : bool := SFltb b a.
Definition eqb : float -> float -> bool := SFeqb.
(** C++ [a != b]: true as soon as one side is NaN. *)
Definition neqb (a b : float) : bool := negb (SFeqb a b).
Definition add : float -> float -> float := SFadd prec emax.
Definition sub : float -> float -> float := SFsub prec emax.
Definition mul : float -> float -> float := SFmul prec emax.
Definition div : float -> float -> float := SFdiv prec emax.
Definition sqrt : float -> float := SFsqrt prec emax.
Definition of_Z (z : Z) : float := binary_normalize prec emax z 0 false.
Definition zero : float := S754_zero false.
Definition one : float := of_Z 1.
End F32.

Module F64.
Definition prec : Z := 53.
Definition emax : Z := 1024.
Definition ltb : double -> double -> bool := SFltb.
Definition add : double -> double -> double := SFadd prec emax.
Definition sub : double -> double -> double := SFsub prec emax.
Definition mul : double -> double -> double := SFmul prec emax.
Definition div : double -> double -> double := SFdiv prec emax.
Definition opp : double -> double := SFopp.
Definition of_Z (z : Z) : double := binary_normalize prec emax z 0 false.
Definition zero : double := S754_zero false.
End F64.

(** [(double)f] is exact; [(float)d] rounds to nearest even. *)
Definition f2d (x : float) : double :=
  match x with
  | S754_finite s m e =>
      binary_normalize F64.prec F64.emax (cond_Zopp s (Zpos m)) e s
  | _ => x
  end.

Definition d2f (x : double) : float :=
  match x with
  | S754_finite s m e =>
      binary_normalize F32.prec F32.emax (cond_Zopp s (Zpos m)) e s
  | _ => x
  end.

(** ** Data model *)

(** osg::Vec3 (single precision) and osg::Vec3d (double precision). *)
Record Vec3 := mkVec3 { vx : float; vy : float; vz : float }.
Record Vec3d := mkVec3d { dvx : double; dvy : double; dvz : double }.

(** osg::HeightField: [_columns] and [_rows] are [unsigned int], the samples
    are stored row-major in [_heights], [getHeight(c,r)] reads
    [_heights[c + r*_columns]]. *)
Record HeightField := mkHeightField {
  hf_columns : Z;
  hf_rows : Z;
  hf_origin : Vec3;
  hf_dx : float;
  hf_dy : float;
  hf_heights : list float;
  hf_borderWidth : Z
}.

Definition getNumColumns (hf : HeightField) : Z := hf_columns hf.
Definition getNumRows (hf : HeightField) : Z := hf_rows hf.

Definition with_heights (hf : HeightField) (hs : list float) : HeightField :=
  mkHeightField (hf_columns hf) (hf_rows hf) (hf_origin hf) (hf_dx hf)
    (hf_dy hf) hs (hf_borderWidth hf).

(** osg::HeightField::allocate(numColumns, numRows): a zero-filled grid. *)
Definition allocate (w h : Z) : HeightField :=
  mkHeightField w h (mkVec3 F32.zero F32.zero F32.zero) F32.one F32.one
    (repeat F32.zero (Z.to_nat (wrap32 (w * h)))) 0.

(** ** Foreign constants and functions

    Code that ElevationLayer.cpp calls but that lives in other translation
    units (OpenSceneGraph, osgEarth's Common header) is taken as a parameter. *)
Class Constants := {
  (** osgEarth's global [NO_DATA_VALUE] macro. *)
  NO_DATA_VALUE : float;
  (** [osg::equivalent(float, float)] with its default epsilon. *)
  equivalent : float -> float -> bool
}.

(** ** 4.A  No-data normalizer and validator *)

Section Normalizer.
Context {K : Constants}.

(** struct NormalizeNoDataValues: the three thresholds are read from the
    layer once, by the constructor. *)
Record NormalizeNoDataValues := mkNormalizeNoDataValues {
  _noDataValue : float;
  _minValidValue : float;
  _maxValidValue : float
}.

(** The test of the loop body, line 130. *)
Definition isInvalidHeight (op : NormalizeNoDataValues) (value : float) : bool :=
  F32.isNaN value
  || equivalent value (_noDataValue op)
  || F32.ltb value (_minValidValue op)
  || F32.gtb value (_maxValidValue op).

Definition normalizeValue (op : NormalizeNoDataValues) (value : float) : float :=
  if isInvalidHeight op value then NO_DATA_VALUE else value.

(** NormalizeNoDataValues::operator(): a null grid is left alone. *)
Definition normalizeNoDataValues (op : NormalizeNoDataValues)
    (hf : option HeightField) : option HeightField :=
  match hf with
  | Some h => Some (with_heights h (map (normalizeValue op) (hf_heights h)))
  | None => None
  end.
End Normalizer.

(** validateHeightField: "perform very basic sanity-check validation on a
    heightfield".  The product of the two [unsigned int] dimensions wraps at
    32 bits before it is compared with the [size_t] length. *)
Definition validateHeightField (hf : option HeightField) : bool :=
  match hf with
  | None => false
  | Some h =>
      if (getNumRows h <? 2) || (getNumRows h >? 1024) then false
      else if (getNumColumns h <? 2) || (getNumColumns h >? 1024) then false
      else if negb (Z.of_nat (length (hf_heights h))
                    =? wrap32 (getNumColumns h * getNumRows h)) then false
      else true
  end.

(** ** Tiles, profiles and extents

    Modelled from the spec: the types TileKey, Profile, GeoExtent,
    SpatialReference, VerticalDatum, NormalMap and GeoHeightField are declared
    in headers that are not part of ElevationLayer.cpp; their fields follow
    section 3 of the specification ("TileKey: (level, x, y, profile)",
    "GeoExtent: (SRS, xmin, ymin, xmax, ymax)", ...). *)

Record VerticalDatum := mkVerticalDatum {
  vd_name : string;
  vd_geoid : option string
}.

Record SpatialReference := mkSRS {
  srs_name : string;
  srs_vdatum : option VerticalDatum;
  srs_isGeographic : bool;
  srs_radiusEquator : double
}.

Record GeoExtent := mkGeoExtent {
  ext_srs : SpatialReference;
  ext_xMin : double;
  ext_yMin : double;
  ext_xMax : double;
  ext_yMax : double
}.

Record Profile := mkProfile {
  prof_srs : SpatialReference;
  prof_pyramid : string
}.

(** A key without profile is the invalid key ([TileKey::INVALID]). *)
Record TileKey := mkTileKey {
  key_lod : N;
  key_x : N;
  key_y : N;
  key_profile : option Profile
}.

Definition TileKey_INVALID : TileKey := mkTileKey 0 0 0 None.

Definition key_valid (k : TileKey) : bool :=
  match key_profile k with Some _ => true | None => false end.

(** Modelled from the spec: TileKey's [parent()] ([createParentKey]); the
    level decreases by one and a level-0 key has no parent. *)
Definition createParentKey (k : TileKey) : TileKey :=
  if (key_lod k =? 0)%N then TileKey_INVALID
  else mkTileKey (N.pred (key_lod k)) (N.div2 (key_x k)) (N.div2 (key_y k))
         (key_profile k).

(** Modelled from the spec: NormalMap, a "rectangular array of unit
    3-vectors [...] each entry stored with a scalar curvature channel". *)
Record NormalMap := mkNormalMap {
  nm_width : Z;
  nm_height : Z;
  nm_data : list (Vec3 * float)
}.

Definition newNormalMap (w h : Z) : NormalMap :=
  mkNormalMap w h
    (repeat (mkVec3 F32.zero F32.zero F32.one, F32.zero) (Z.to_nat (wrap32 (w * h)))).

(** A valid GeoHeightField; [GeoHeightField::INVALID] is [None]. *)
Record GeoHeightField := mkGeoHeightField {
  ghf_heightField : HeightField;
  ghf_normalMap : option NormalMap;
  ghf_extent : GeoExtent
}.

Definition newGeoHeightField (hf : option HeightField) (nm : option NormalMap)
    (ext : GeoExtent) : option GeoHeightField :=
  match hf with
  | Some h => Some (mkGeoHeightField h nm ext)
  | None => None
  end.

Inductive ElevationInterpolation :=
  INTERP_AVERAGE | INTERP_NEAREST | INTERP_BILINEAR | INTERP_TRIANGULATE.

Inductive ElevationNoDataPolicy := NODATA_INTERPOLATE | NODATA_MSL.

(** The two queries of a progress callback that the core polls. *)
Record ProgressCallback := mkProgress {
  isCanceled : bool;
  needsRetry : bool
}.

Record CachePolicy := mkCachePolicy {
  isCacheOnly : bool;
  isCacheReadable : bool;
  isCacheWriteable : bool;
  isExpired : Z -> bool
}.

(** What [CacheBin::readObject] hands back when it succeeds: the stored
    object (null when it is not a height field) and its time stamp. *)
Record ReadResult := mkReadResult {
  rr_heightField : option HeightField;
  rr_lastModifiedTime : Z
}.

(** Functions of the collaborating classes, called but not defined in
    ElevationLayer.cpp. *)
Class Externals := {
  isHorizEquivalentTo : Profile -> Profile -> bool;
  isVertEquivalentTo : SpatialReference -> SpatialReference -> bool;
  getFullSignature : Profile -> string;
  getIntersectingTiles : Profile -> TileKey -> list TileKey;
  key_str : TileKey -> string;
  key_getExtent : TileKey -> GeoExtent;
  key_eqb : TileKey -> TileKey -> bool;
  mapResolution : TileKey -> Z -> Z -> TileKey;
  ext_width : GeoExtent -> double;
  ext_height : GeoExtent -> double;
  VerticalDatum_transform :
    option VerticalDatum -> option VerticalDatum -> GeoExtent ->
    HeightField -> HeightField;
  getElevation :
    GeoHeightField -> SpatialReference -> double -> double ->
    ElevationInterpolation -> SpatialReference -> option float;
  getElevationAndNormal :
    GeoHeightField -> SpatialReference -> double -> double ->
    ElevationInterpolation -> SpatialReference -> option (float * Vec3);
  sortByResolution : list GeoHeightField -> list GeoHeightField;
  resolveInvalidHeights :
    HeightField -> GeoExtent -> float -> option string -> HeightField;
  osg_PI : double;
  cosDegrees : double -> double;
  (** the time stamp a cache bin gives to an object it stores *)
  DateTime_now : Z
}.

(** ** Outcomes

    A run of the C++ code either returns, or performs an access that C++
    leaves undefined (classified by [fault]), or, in the model only, exhausts
    the recursion budget of [createHeightFieldFromTileSource]. *)
Inductive fault :=
  | FlagIndexOutOfBounds
  | SlotIndexOutOfBounds
  | HeightIndexOutOfBounds
  | DeltaLODIndexOutOfBounds
  | NormalIndexOutOfBounds
  | NullDereference.

Inductive outcome (A : Type) :=
  | Ok (a : A)
  | Fault (f : fault)
  | OutOfFuel.
Arguments Ok {A} a.
Arguments Fault {A} f.
Arguments OutOfFuel {A}.

Definition obind {A B} (f : A -> outcome B) (m : outcome A) : outcome B :=
  match m with
  | Ok a => f a
  | Fault e => Fault e
  | OutOfFuel => OutOfFuel
  end.

#[global] Instance outcome_ret : MRet outcome := fun _ a => Ok a.
#[global] Instance outcome_bind : MBind outcome := fun _ _ f m => obind f m.

(** A [for] loop over the elements of [l], threading the loop state. *)
Fixpoint forEach {A S} (l : list A) (body : A -> S -> outcome S) (s : S)
    : outcome S :=
  match l with
  | [] => Ok s
  | a :: l' => s' ← body a s; forEach l' body s'
  end.

(** [for (unsigned i = 0; i < n; ++i)]. *)
Definition upto (n : Z) : list Z := seqZ 0 n.

(** [for (int i = n-1; i >= 0; --i)]. *)
Definition downfrom (n : nat) : list nat := rev (seq 0 n).

(** Checked element access: [v[i]] and [v[i] = x]. *)
Definition readAt {A} (f : fault) (l : list A) (i : Z) : outcome A :=
  if i <? 0 then Fault f
  else match l !! Z.to_nat i with
       | Some a => Ok a
       | None => Fault f
       end.

Definition writeAt {A} (f : fault) (l : list A) (i : Z) (a : A)
    : outcome (list A) :=
  if (0 <=? i) && (i <? Z.of_nat (length l)) then Ok (<[Z.to_nat i := a]> l)
  else Fault f.

(** [hf->getHeight(c, r)] and [hf->setHeight(c, r, v)]. *)
Definition heightIndex (hf : HeightField) (c r : Z) : Z := c + r * hf_columns hf.

Definition getHeight (hf : HeightField) (c r : Z) : outcome float :=
  readAt HeightIndexOutOfBounds (hf_heights hf) (heightIndex hf c r).

Definition setHeight (hf : HeightField) (c r : Z) (v : float)
    : outcome HeightField :=
  hs ← writeAt HeightIndexOutOfBounds (hf_heights hf) (heightIndex hf c r) v;
  Ok (with_heights hf hs).

(** [normalMap->set(s, t, normal, curvature)]. *)
Definition NormalMap_set (nm : NormalMap) (s t : Z) (n : Vec3) (curv : float)
    : outcome NormalMap :=
  d ← writeAt NormalIndexOutOfBounds (nm_data nm) (t * nm_width nm + s) (n, curv);
  Ok (mkNormalMap (nm_width nm) (nm_height nm) d).

(** ** Layers and tile sources *)

(** Modelled from the spec: the TileSource driver ("createHeightField(key,
    normalizerOp, progress) -> HeightGrid | null", "getBlacklist()",
    "isOK()", "getName()").  [ts_driver] is the raw fetch; [ts_requests]
    records the keys for which the driver's createHeightField was invoked. *)
Record TileSource := mkTileSource {
  ts_isOK : bool;
  ts_name : string;
  ts_blacklist : list TileKey;
  ts_driver : TileKey -> option ProgressCallback -> option HeightField;
  ts_requests : list TileKey
}.

(** The options and the inherited TerrainLayer queries of a layer, fixed
    during a call. *)
Record LayerOptions := mkLayerOptions {
  opt_name : string;
  opt_visible : bool;
  opt_offset : bool;
  opt_noDataPolicy : ElevationNoDataPolicy;
  opt_noDataValue : float;
  opt_minValidValue : float;
  opt_maxValidValue : float;
  opt_tileSize : Z;
  opt_cachePolicy : CachePolicy;
  opt_tileSourceExpected : bool;
  opt_profile : option Profile;
  opt_isKeyInLegalRange : TileKey -> bool;
  opt_getBestAvailableTileKey : TileKey -> TileKey;
  opt_mayHaveData : TileKey -> bool
}.

(** A layer: its options and the state that calls may change.  The
    persistent cache bins are indexed by the full signature of the profile
    they serve ([getCacheBin(profile)]). *)
Record ElevationLayer := mkElevationLayer {
  el_options : LayerOptions;
  el_statusError : bool;
  el_enabled : bool;
  el_tileSource : option TileSource;
  el_preCacheOp : option NormalizeNoDataValues;
  el_memCache : option (gmap string HeightField);
  el_cacheBins : gmap string (gmap string ReadResult)
}.

Definition set_tileSource (L : ElevationLayer) (ts : option TileSource) :=
  mkElevationLayer (el_options L) (el_statusError L) (el_enabled L) ts
    (el_preCacheOp L) (el_memCache L) (el_cacheBins L).

Definition set_preCacheOp (L : ElevationLayer) (op : option NormalizeNoDataValues) :=
  mkElevationLayer (el_options L) (el_statusError L) (el_enabled L)
    (el_tileSource L) op (el_memCache L) (el_cacheBins L).

Definition set_memCache (L : ElevationLayer) (m : option (gmap string HeightField)) :=
  mkElevationLayer (el_options L) (el_statusError L) (el_enabled L)
    (el_tileSource L) (el_preCacheOp L) m (el_cacheBins L).

Definition set_cacheBins (L : ElevationLayer)
    (b : gmap string (gmap string ReadResult)) :=
  mkElevationLayer (el_options L) (el_statusError L) (el_enabled L)
    (el_tileSource L) (el_preCacheOp L) (el_memCache L) b.

(** Modelled from the spec: TerrainLayer::disable ("Layer transitions to
    Error, all further calls return Invalid"). *)
Definition disable (L : ElevationLayer) : ElevationLayer :=
  mkElevationLayer (el_options L) true (el_enabled L) (el_tileSource L)
    (el_preCacheOp L) (el_memCache L) (el_cacheBins L).

Definition getEnabled (L : ElevationLayer) : bool := el_enabled L.
Definition getVisible (L : ElevationLayer) : bool := opt_visible (el_options L).
Definition isOffset (L : ElevationLayer) : bool := opt_offset (el_options L).
Definition getTileSize (L : ElevationLayer) : Z := opt_tileSize (el_options L).
Definition getProfile (L : ElevationLayer) : option Profile :=
  opt_profile (el_options L).
Definition isKeyInLegalRange (L : ElevationLayer) (k : TileKey) : bool :=
  opt_isKeyInLegalRange (el_options L) k.
Definition getBestAvailableTileKey (L : ElevationLayer) (k : TileKey) : TileKey :=
  opt_getBestAvailableTileKey (el_options L) k.
Definition mayHaveData (L : ElevationLayer) (k : TileKey) : bool :=
  opt_mayHaveData (el_options L) k.

(** getOrCreatePreCacheOp: the operation is created on first use. *)
Definition getOrCreatePreCacheOp (L : ElevationLayer)
    : NormalizeNoDataValues * ElevationLayer :=
  match el_preCacheOp L with
  | Some op => (op, L)
  | None =>
      let op := mkNormalizeNoDataValues (opt_noDataValue (el_options L))
                  (opt_minValidValue (el_options L))
                  (opt_maxValidValue (el_options L)) in
      (op, set_preCacheOp L (Some op))
  end.

Section SingleLayer.
Context {K : Constants} {E : Externals}.

(** Modelled from the spec: the blacklist of a tile source, a "set of
    failed keys" with [contains] and [add]. *)
Definition blacklist_contains (bl : list TileKey) (key : TileKey) : bool :=
  existsb (key_eqb key) bl.

Definition blacklist_add (bl : list TileKey) (key : TileKey) : list TileKey :=
  if blacklist_contains bl key then bl else key :: bl.

Definition set_blacklist (ts : TileSource) (bl : list TileKey) : TileSource :=
  mkTileSource (ts_isOK ts) (ts_name ts) bl (ts_driver ts) (ts_requests ts).

(** Modelled from the spec: TileSource::createHeightField(key, op,
    progress), "call driver to produce a grid, piping it through (4.A)". *)
Definition TileSource_createHeightField (ts : TileSource) (key : TileKey)
    (op : NormalizeNoDataValues) (progress : option ProgressCallback)
    : option HeightField * TileSource :=
  (normalizeNoDataValues op (ts_driver ts key progress),
   mkTileSource (ts_isOK ts) (ts_name ts) (ts_blacklist ts) (ts_driver ts)
     (ts_requests ts ++ [key])).

(** The test of lines 291-292. *)
Definition mayBlacklist (progress : option ProgressCallback) : bool :=
  match progress with
  | None => true
  | Some p => negb (isCanceled p) && negb (needsRetry p)
  end.

(** The sampling loop of assembleHeightField, lines 389-401: the first
    grid with an elevation at (x, y) wins. *)
Fixpoint firstElevation (heightFields : list GeoHeightField)
    (srs : SpatialReference) (x y : double) : float * Vec3 :=
  match heightFields with
  | [] => (NO_DATA_VALUE, mkVec3 F32.zero F32.zero F32.one)
  | g :: rest =>
      match getElevationAndNormal g srs x y INTERP_BILINEAR srs with
      | Some en => en
      | None => firstElevation rest srs x y
      end
  end.

(** Lines 352-361: the largest column and row counts. *)
Definition maxDimensions (heightFields : list GeoHeightField) : Z * Z :=
  fold_left
    (fun '(width, height) g =>
       let hf := ghf_heightField g in
       ((if getNumColumns hf >? width then getNumColumns hf else width),
        (if getNumRows hf >? height then getNumRows hf else height)))
    heightFields (0, 0).

Section Assemble.
(** [createImplementation], the virtual method through which
    assembleHeightField reaches the tile source again. *)
Variable createImplementation :
  ElevationLayer -> TileKey -> option ProgressCallback ->
  outcome (option HeightField * ElevationLayer).

(** Lines 329-347. *)
Definition collectIntersecting (progress : option ProgressCallback)
    (layerKey : TileKey) (acc : list GeoHeightField * ElevationLayer)
    : outcome (list GeoHeightField * ElevationLayer) :=
  let '(heightFields, L) := acc in
  if isKeyInLegalRange L layerKey then
    '(hf, L') ← createImplementation L layerKey progress;
    match hf with
    | Some h =>
        Ok (heightFields ++ [mkGeoHeightField h None (key_getExtent layerKey)], L')
    | None => Ok (heightFields, L')
    end
  else Ok acc.

Definition assembleHeightField (L : ElevationLayer) (key : TileKey)
    (progress : option ProgressCallback)
    : outcome (option HeightField * option NormalMap * ElevationLayer) :=
  match getProfile L with
  | None => Fault NullDereference
  | Some profile =>
      let intersectingTiles := getIntersectingTiles profile key in
      '(heightFields, L') ←
        forEach intersectingTiles (collectIntersecting progress) ([], L);
      match heightFields with
      | [] => Ok (None, None, L')
      | _ =>
          let '(width, height) := maxDimensions heightFields in
          let sorted := sortByResolution heightFields in
          let ext := key_getExtent key in
          let minx := ext_xMin ext in
          let miny := ext_yMin ext in
          let dx := F64.div (F64.sub (ext_xMax ext) minx)
                      (F64.of_Z (wrap32 (width - 1))) in
          let dy := F64.div (F64.sub (ext_yMax ext) miny)
                      (F64.of_Z (wrap32 (height - 1))) in
          '(out_hf, out_nm) ←
            forEach (upto width)
              (fun c =>
                 let x := F64.add minx (F64.mul dx (F64.of_Z c)) in
                 forEach (upto height)
                   (fun r '(hf, nm) =>
                      let y := F64.add miny (F64.mul dy (F64.of_Z r)) in
                      let '(elevation, normal) :=
                        firstElevation sorted (ext_srs ext) x y in
                      hf' ← setHeight hf c r elevation;
                      nm' ← NormalMap_set nm c r normal F32.zero;
                      Ok (hf', nm')))
              (allocate width height, newNormalMap width height);
          Ok (Some out_hf, Some out_nm, L')
      end
  end.
End Assemble.

(** createHeightFieldFromTileSource.  [fuel] bounds the nesting of
    createImplementation -> assembleHeightField -> createImplementation.
    An invalid key has no profile to ask ([key.getProfile()] is null); a
    layer without profile is not horizontally equivalent to anything and
    ends in [getProfile()->getIntersectingTiles]: both are null
    dereferences. *)
Fixpoint createHeightFieldFromTileSource (fuel : nat) (L : ElevationLayer)
    (key : TileKey) (progress : option ProgressCallback)
    : outcome (option HeightField * ElevationLayer) :=
  match fuel with
  | O => OutOfFuel
  | S fuel' =>
      match el_tileSource L with
      | None => Ok (None, L)
      | Some source =>
          if blacklist_contains (ts_blacklist source) key then Ok (None, L)
          else
            match key_profile key, getProfile L with
            | Some kprofile, Some lprofile =>
                if isHorizEquivalentTo kprofile lprofile then
                  if negb (mayHaveData L key) then Ok (None, L)
                  else
                    let '(op, L1) := getOrCreatePreCacheOp L in
                    let '(fetched, source1) :=
                      TileSource_createHeightField source key op progress in
                    match fetched with
                    | Some hf =>
                        let keySRS := ext_srs (key_getExtent key) in
                        let result :=
                          if negb (isVertEquivalentTo keySRS (prof_srs lprofile))
                          then VerticalDatum_transform
                                 (srs_vdatum (prof_srs lprofile))
                                 (srs_vdatum keySRS) (key_getExtent key) hf
                          else hf in
                        Ok (Some result, set_tileSource L1 (Some source1))
                    | None =>
                        let source2 :=
                          if mayBlacklist progress
                          then set_blacklist source1
                                 (blacklist_add (ts_blacklist source1) key)
                          else source1 in
                        Ok (None, set_tileSource L1 (Some source2))
                    end
                else
                  '(result, _, L') ←
                    assembleHeightField
                      (createHeightFieldFromTileSource fuel') L key progress;
                  Ok (result, L')
            | _, _ => Fault NullDereference
            end
      end
  end.

(** ElevationLayer::createImplementation: no normal map is made here. *)
Definition createImplementation (fuel : nat) (L : ElevationLayer)
    (key : TileKey) (progress : option ProgressCallback)
    : outcome (option HeightField * ElevationLayer) :=
  createHeightFieldFromTileSource fuel L key progress.
End SingleLayer.

(** ** 4.B  createHeightField *)

Section CreateHeightField.
Context {K : Constants} {E : Externals}.

Definition getCacheBin (L : ElevationLayer) (profile : Profile)
    : option (gmap string ReadResult) :=
  el_cacheBins L !! getFullSignature profile.

Definition CacheBin_write (L : ElevationLayer) (profile : Profile)
    (cacheKey : string) (hf : HeightField) : ElevationLayer :=
  match getCacheBin L profile with
  | Some bin =>
      set_cacheBins L
        (<[getFullSignature profile :=
             <[cacheKey := mkReadResult (Some hf) DateTime_now]> bin]>
           (el_cacheBins L))
  | None => L
  end.

Definition makeCacheKey (key : TileKey) (profile : Profile) : string :=
  key_str key +:+ "_" +:+ getFullSignature profile.

(** Lines 445-457: the lookup in the memory cache, when there is one. *)
Definition memCacheRead (L : ElevationLayer) (cacheKey : string)
    : option HeightField :=
  match el_memCache L with
  | Some bin => bin !! cacheKey
  | None => None
  end.

(** Lines 492-508: what the persistent cache contributes.  The result is
    [(hf, cachedHF, fromCache)]. *)
Definition readPersistentCache (policy : CachePolicy)
    (cacheBin : option (gmap string ReadResult)) (cacheKey : string)
    : option HeightField * option HeightField * bool :=
  match cacheBin with
  | Some bin =>
      if isCacheReadable policy then
        match bin !! cacheKey with
        | Some r =>
            let expired := isExpired policy (rr_lastModifiedTime r) in
            let cachedHF := rr_heightField r in
            if validateHeightField cachedHF then
              if negb expired then (cachedHF, cachedHF, true)
              else (None, cachedHF, false)
            else (None, cachedHF, false)
        | None => (None, None, false)
        end
      else (None, None, false)
  | None => (None, None, false)
  end.

(** Lines 568-576: origin, intervals and border of a fetched grid. *)
Definition stampHeightField (key : TileKey) (hf : HeightField) : HeightField :=
  let ext := key_getExtent key in
  let minx := ext_xMin ext in
  let miny := ext_yMin ext in
  let dx := F64.div (F64.sub (ext_xMax ext) minx)
              (F64.of_Z (wrap32 (getNumColumns hf - 1))) in
  let dy := F64.div (F64.sub (ext_yMax ext) miny)
              (F64.of_Z (wrap32 (getNumRows hf - 1))) in
  mkHeightField (hf_columns hf) (hf_rows hf)
    (mkVec3 (d2f minx) (d2f miny) (d2f F64.zero)) (d2f dx) (d2f dy)
    (hf_heights hf) 0.

(** Lines 516-538: the fresh fetch.  [None] stands for the early
    [return GeoHeightField::INVALID] of line 533. *)
Definition freshFetch (fuel : nat) (L : ElevationLayer) (key : TileKey)
    (progress : option ProgressCallback)
    : outcome (option (option HeightField * ElevationLayer)) :=
  if negb (opt_tileSourceExpected (el_options L)) then
    r ← createImplementation fuel L key progress; Ok (Some r)
  else
    match el_tileSource L with
    | None => Ok None
    | Some ts =>
        if negb (ts_isOK ts) then Ok None
        else r ← createImplementation fuel L key progress; Ok (Some r)
    end.

(** Lines 459-583, entered when the memory cache had nothing.  A result
    of [None] is [GeoHeightField::INVALID], whether returned early or left
    in [result]. *)
Definition createHeightField_uncached (fuel : nat) (L : ElevationLayer)
    (key : TileKey) (kprofile : Profile) (cacheKey : string)
    (progress : option ProgressCallback)
    : outcome (option GeoHeightField * ElevationLayer) :=
  let policy := opt_cachePolicy (el_options L) in
  let cacheBin := getCacheBin L kprofile in
  let canContinue :=
    bool_decide (is_Some (el_tileSource L))
    || negb (opt_tileSourceExpected (el_options L))
    || (isCacheOnly policy && bool_decide (is_Some cacheBin)) in
  if negb canContinue then Ok (None, disable L)
  else if negb (isCacheOnly policy) && bool_decide (getProfile L = None)
  then Ok (None, disable L)
  else
    let '(hf, cachedHF, fromCache) :=
      readPersistentCache policy cacheBin cacheKey in
    match hf with
    | Some h =>
        Ok (newGeoHeightField (Some h) None (key_getExtent key), L)
    | None =>
        if isCacheOnly policy then Ok (None, L)
        else if negb (isKeyInLegalRange L key) then Ok (None, L)
        else
          fetched ← freshFetch fuel L key progress;
          match fetched with
          | None => Ok (None, L)
          | Some (hf1, L1) =>
              (* validate it to make sure it's legal. *)
              let hf2 :=
                match hf1 with
                | Some _ => if validateHeightField hf1 then hf1 else None
                | None => None
                end in
              (* cache if necessary *)
              let L2 :=
                match hf2 with
                | Some h =>
                    if bool_decide (is_Some cacheBin) && negb fromCache
                       && isCacheWriteable policy
                    then CacheBin_write L1 kprofile cacheKey h
                    else L1
                | None => L1
                end in
              (* expired heightfield from the cache, no new data *)
              let hf3 :=
                match hf2 with
                | Some _ => hf2
                | None => cachedHF
                end in
              match hf3 with
              | None => Ok (None, L2)
              | Some h =>
                  Ok (newGeoHeightField (Some (stampHeightField key h)) None
                        (key_getExtent key), L2)
              end
          end
    end.

(** Lines 592-617: the NODATA_MSL post-processing. *)
Definition postProcess (L : ElevationLayer) (key : TileKey)
    (g : GeoHeightField) : outcome GeoHeightField :=
  match opt_noDataPolicy (el_options L) with
  | NODATA_MSL =>
      let outputVDatum := srs_vdatum (ext_srs (key_getExtent key)) in
      geoid ←
        match outputVDatum with
        | None =>
            match getProfile L with
            | None => Fault NullDereference
            | Some p =>
                match srs_vdatum (prof_srs p) with
                | Some profileDatum => Ok (vd_geoid profileDatum)
                | None => Ok None
                end
            end
        | Some _ => Ok None
        end;
      Ok (mkGeoHeightField
            (resolveInvalidHeights (ghf_heightField g) (ghf_extent g)
               NO_DATA_VALUE geoid)
            (ghf_normalMap g) (ghf_extent g))
  | NODATA_INTERPOLATE => Ok g
  end.

(** ElevationLayer::createHeightField(key, progress).  The memory cache is
    handed the grid at line 589, before the post-processing; the entry
    records the grid as it is at that point. *)
Definition createHeightField (fuel : nat) (L : ElevationLayer)
    (key : TileKey) (progress : option ProgressCallback)
    : outcome (option GeoHeightField * ElevationLayer) :=
  if el_statusError L then Ok (None, L)
  else if negb (getEnabled L) then Ok (None, L)
  else
    match key_profile key with
    | None => Fault NullDereference
    | Some kprofile =>
        let cacheKey := makeCacheKey key kprofile in
        '(result, L1, fromMemCache) ←
          match memCacheRead L cacheKey with
          | Some h =>
              Ok (newGeoHeightField (Some h) None (key_getExtent key), L, true)
          | None =>
              '(r, L') ← createHeightField_uncached fuel L key kprofile
                           cacheKey progress;
              Ok (r, L', false)
          end;
        match result with
        | None => Ok (None, L1)
        | Some g =>
            (* write to mem cache if needed *)
            let L2 :=
              match el_memCache L1 with
              | Some bin =>
                  if negb fromMemCache
                  then set_memCache L1
                         (Some (<[cacheKey := ghf_heightField g]> bin))
                  else L1
              | None => L1
              end in
            g' ← postProcess L2 key g;
            Ok (Some g', L2)
        end
    end.
End CreateHeightField.

(** ** 4.E  Normal-map builder *)

(** The arithmetic of osg::Vec3d and osg::Vec3f that the builder uses. *)
Definition Vec3d_sub (a b : Vec3d) : Vec3d :=
  mkVec3d (F64.sub (dvx a) (dvx b)) (F64.sub (dvy a) (dvy b))
    (F64.sub (dvz a) (dvz b)).

(** [a ^ b], the cross product. *)
Definition Vec3d_cross (a b : Vec3d) : Vec3d :=
  mkVec3d
    (F64.sub (F64.mul (dvy a) (dvz b)) (F64.mul (dvz a) (dvy b)))
    (F64.sub (F64.mul (dvz a) (dvx b)) (F64.mul (dvx a) (dvz b)))
    (F64.sub (F64.mul (dvx a) (dvy b)) (F64.mul (dvy a) (dvx b))).

Definition Vec3d_to_Vec3 (a : Vec3d) : Vec3 :=
  mkVec3 (d2f (dvx a)) (d2f (dvy a)) (d2f (dvz a)).

Definition Vec3_add (a b : Vec3) : Vec3 :=
  mkVec3 (F32.add (vx a) (vx b)) (F32.add (vy a) (vy b)) (F32.add (vz a) (vz b)).

(** [v * (double)k]: the factor is converted to the vector's [float]. *)
Definition Vec3_scale (a : Vec3) (k : Z) : Vec3 :=
  let f := d2f (F64.of_Z k) in
  mkVec3 (F32.mul (vx a) f) (F32.mul (vy a) f) (F32.mul (vz a) f).

(** osg::Vec3f::normalize(): a vector of length zero is left as it is. *)
Definition Vec3_normalize (a : Vec3) : Vec3 :=
  let norm :=
    F32.sqrt (F32.add (F32.add (F32.mul (vx a) (vx a)) (F32.mul (vy a) (vy a)))
                (F32.mul (vz a) (vz a))) in
  if F32.gtb norm F32.zero then
    let inv := F32.div F32.one norm in
    mkVec3 (F32.mul (vx a) inv) (F32.mul (vy a) inv) (F32.mul (vz a) inv)
  else a.

Section NormalMapBuilder.
Context {E : Externals}.

(** getNormal(extent, hf, s, t). *)
Definition getNormal (extent : GeoExtent) (hf : HeightField) (s t : Z)
    : outcome Vec3 :=
  let w := to_int (getNumColumns hf) in
  let h := to_int (getNumRows hf) in
  let res_x := F64.div (ext_width extent) (F64.of_Z (w - 1)) in
  let res_y := F64.div (ext_height extent) (F64.of_Z (h - 1)) in
  e ← getHeight hf s t;
  let '(dx, dy) :=
    if srs_isGeographic (ext_srs extent) then
      let R := srs_radiusEquator (ext_srs extent) in
      let mPerDegAtEquator :=
        F64.div (F64.mul (F64.mul (F64.of_Z 2) osg_PI) R) (F64.of_Z 360) in
      let lat := F64.add (ext_yMin extent) (F64.mul res_y (F64.of_Z t)) in
      (F64.mul (F64.mul res_x mPerDegAtEquator) (cosDegrees lat),
       F64.mul res_y mPerDegAtEquator)
    else (res_x, res_y) in
  let centre := mkVec3d F64.zero F64.zero (f2d e) in
  west ← (if s >? 0 then
            v ← getHeight hf (s - 1) t;
            Ok (mkVec3d (F64.opp dx) F64.zero (f2d v))
          else Ok centre);
  east ← (if s <? w - 1 then
            v ← getHeight hf (s + 1) t;
            Ok (mkVec3d dx F64.zero (f2d v))
          else Ok centre);
  south ← (if t >? 0 then
             v ← getHeight hf s (t - 1);
             Ok (mkVec3d F64.zero (F64.opp dy) (f2d v))
           else Ok centre);
  north ← (if t <? h - 1 then
             v ← getHeight hf s (t + 1);
             Ok (mkVec3d F64.zero dy (f2d v))
           else Ok centre);
  Ok (Vec3d_to_Vec3 (Vec3d_cross (Vec3d_sub east west) (Vec3d_sub north south))).

(** The subscript of line 710, written [t*h + s]: [h] is the number of
    rows. *)
Definition normalMapDeltaIndex (w h s t : Z) : Z := t * h + s.

(** [1 << d] on [int]. *)
Definition stepOf (d : Z) : Z := to_int (Z.shiftl 1 d).

(** Line 710. *)
Definition normalMapStep (hf : HeightField) (deltaLOD : list Z) (s t : Z)
    : outcome Z :=
  let w := to_int (getNumColumns hf) in
  let h := to_int (getNumRows hf) in
  d ← readAt DeltaLODIndexOutOfBounds deltaLOD (normalMapDeltaIndex w h s t);
  Ok (stepOf d).

(** Lines 710-762: the normal of one pixel, before it is stored. *)
Definition pixelNormal (extent : GeoExtent) (hf : HeightField)
    (deltaLOD : list Z) (s t : Z) : outcome Vec3 :=
  let w := to_int (getNumColumns hf) in
  let h := to_int (getNumRows hf) in
  step ← normalMapStep hf deltaLOD s t;
  normal ←
    (if step =? 1 then getNormal extent hf s t
     else
       let s0 := Z.max (s - Z.rem s step) 0 in
       let s1 := if Z.rem s step =? 0 then s0 else Z.min (s0 + step) (w - 1) in
       let t0 := Z.max (t - Z.rem t step) 0 in
       let t1 := if Z.rem t step =? 0 then t0 else Z.min (t0 + step) (h - 1) in
       if (s0 =? s1) && (t0 =? t1) then getNormal extent hf s0 t0
       else if s0 =? s1 then
         S ← getNormal extent hf s0 t0;
         N ← getNormal extent hf s0 t1;
         Ok (Vec3_add (Vec3_scale S (t1 - t)) (Vec3_scale N (t - t0)))
       else if t0 =? t1 then
         W ← getNormal extent hf s0 t0;
         E' ← getNormal extent hf s1 t0;
         Ok (Vec3_add (Vec3_scale W (s1 - s)) (Vec3_scale E' (s - s0)))
       else
         SW ← getNormal extent hf s0 t0;
         SE ← getNormal extent hf s1 t0;
         NW ← getNormal extent hf s0 t1;
         NE ← getNormal extent hf s1 t1;
         let S := Vec3_add (Vec3_scale SW (s1 - s)) (Vec3_scale SE (s - s0)) in
         let N := Vec3_add (Vec3_scale NW (s1 - s)) (Vec3_scale NE (s - s0)) in
         Ok (Vec3_add (Vec3_scale S (t1 - t)) (Vec3_scale N (t - t0))));
  Ok (Vec3_normalize normal).

(** createNormalMap(extent, hf, deltaLOD, normalMap). *)
Definition createNormalMap (extent : GeoExtent) (hf : HeightField)
    (deltaLOD : list Z) (normalMap : NormalMap) : outcome NormalMap :=
  forEach (upto (getNumRows hf))
    (fun t =>
       forEach (upto (getNumColumns hf))
         (fun s nm =>
            normal ← pixelNormal extent hf deltaLOD s t;
            NormalMap_set nm s t normal F32.zero))
    normalMap.
End NormalMapBuilder.

(** ** 4.D  Layer stack compositor *)

(** struct LayerData.  [ld_layer] is the layer handle, the position of the
    layer in the vector; [ld_index] is the [int index] field. *)
Record LayerData := mkLayerData {
  ld_layer : nat;
  ld_key : TileKey;
  ld_index : Z
}.

(** What a run of populateHeightFieldAndNormalMap does to its surroundings,
    in program order:
    - [EvCreate off i k ok]: [createHeightField(k)] was called for entry [i]
      of [offsets] ([off = true]) or [contenders], and [ok] tells whether it
      returned a valid grid;
    - [EvSample off i fallback c r e]: the grid of entry [i] was valid when
      pixel (c, r) was visited, [fallback] is the entry's fallback flag read
      at line 1006 ([false] for an offset) and [e] what [getElevation] gave;
    - [EvWrite off i fallback c r v]: the height of pixel (c, r) was set to
      [v] (contender) or increased by [v] (offset), from the grid of entry
      [i] whose fallback flag was [fallback]. *)
Inductive event :=
  | EvCreate (off : bool) (i : Z) (k : TileKey) (ok : bool)
  | EvSample (off : bool) (i : Z) (fallback : bool) (c r : Z) (e : option float)
  | EvWrite (off : bool) (i : Z) (fallback : bool) (c r : Z) (v : float).

(** The local variables of the pixel sweep, with the layers, the output
    grid and the trace. *)
Record Sweep := mkSweep {
  sw_layers : list ElevationLayer;
  sw_contenders : list LayerData;
  sw_heightFields : list (list (option GeoHeightField));
  sw_offsetFields : list (list (option GeoHeightField));
  sw_heightFallback : list (list bool);
  sw_heightFailed : list (list bool);
  sw_offsetFailed : list (list bool);
  sw_numHeightFieldsInCache : Z;
  sw_realData : bool;
  sw_deltaLOD : list Z;
  sw_nodataCount : Z;
  sw_hf : HeightField;
  sw_trace : list event
}.

Definition set_layers st v :=
  mkSweep v (sw_contenders st) (sw_heightFields st) (sw_offsetFields st)
    (sw_heightFallback st) (sw_heightFailed st) (sw_offsetFailed st)
    (sw_numHeightFieldsInCache st) (sw_realData st) (sw_deltaLOD st)
    (sw_nodataCount st) (sw_hf st) (sw_trace st).
Definition set_contenders st v :=
  mkSweep (sw_layers st) v (sw_heightFields st) (sw_offsetFields st)
    (sw_heightFallback st) (sw_heightFailed st) (sw_offsetFailed st)
    (sw_numHeightFieldsInCache st) (sw_realData st) (sw_deltaLOD st)
    (sw_nodataCount st) (sw_hf st) (sw_trace st).
Definition set_heightFields st v :=
  mkSweep (sw_layers st) (sw_contenders st) v (sw_offsetFields st)
    (sw_heightFallback st) (sw_heightFailed st) (sw_offsetFailed st)
    (sw_numHeightFieldsInCache st) (sw_realData st) (sw_deltaLOD st)
    (sw_nodataCount st) (sw_hf st) (sw_trace st).
Definition set_offsetFields st v :=
  mkSweep (sw_layers st) (sw_contenders st) (sw_heightFields st) v
    (sw_heightFallback st) (sw_heightFailed st) (sw_offsetFailed st)
    (sw_numHeightFieldsInCache st) (sw_realData st) (sw_deltaLOD st)
    (sw_nodataCount st) (sw_hf st) (sw_trace st).
Definition set_heightFallback st v :=
  mkSweep (sw_layers st) (sw_contenders st) (sw_heightFields st)
    (sw_offsetFields st) v (sw_heightFailed st) (sw_offsetFailed st)
    (sw_numHeightFieldsInCache st) (sw_realData st) (sw_deltaLOD st)
    (sw_nodataCount st) (sw_hf st) (sw_trace st).
Definition set_heightFailed st v :=
  mkSweep (sw_layers st) (sw_contenders st) (sw_heightFields st)
    (sw_offsetFields st) (sw_heightFallback st) v (sw_offsetFailed st)
    (sw_numHeightFieldsInCache st) (sw_realData st) (sw_deltaLOD st)
    (sw_nodataCount st) (sw_hf st) (sw_trace st).
Definition set_offsetFailed st v :=
  mkSweep (sw_layers st) (sw_contenders st) (sw_heightFields st)
    (sw_offsetFields st) (sw_heightFallback st) (sw_heightFailed st) v
    (sw_numHeightFieldsInCache st) (sw_realData st) (sw_deltaLOD st)
    (sw_nodataCount st) (sw_hf st) (sw_trace st).
Definition set_numHeightFieldsInCache st v :=
  mkSweep (sw_layers st) (sw_contenders st) (sw_heightFields st)
    (sw_offsetFields st) (sw_heightFallback st) (sw_heightFailed st)
    (sw_offsetFailed st) v (sw_realData st) (sw_deltaLOD st)
    (sw_nodataCount st) (sw_hf st) (sw_trace st).
Definition set_realData st v :=
  mkSweep (sw_layers st) (sw_contenders st) (sw_heightFields st)
    (sw_offsetFields st) (sw_heightFallback st) (sw_heightFailed st)
    (sw_offsetFailed st) (sw_numHeightFieldsInCache st) v (sw_deltaLOD st)
    (sw_nodataCount st) (sw_hf st) (sw_trace st).
Definition set_deltaLOD st v :=
  mkSweep (sw_layers st) (sw_contenders st) (sw_heightFields st)
    (sw_offsetFields st) (sw_heightFallback st) (sw_heightFailed st)
    (sw_offsetFailed st) (sw_numHeightFieldsInCache st) (sw_realData st) v
    (sw_nodataCount st) (sw_hf st) (sw_trace st).
Definition set_nodataCount st v :=
  mkSweep (sw_layers st) (sw_contenders st) (sw_heightFields st)
    (sw_offsetFields st) (sw_heightFallback st) (sw_heightFailed st)
    (sw_offsetFailed st) (sw_numHeightFieldsInCache st) (sw_realData st)
    (sw_deltaLOD st) v (sw_hf st) (sw_trace st).
Definition set_hf st v :=
  mkSweep (sw_layers st) (sw_contenders st) (sw_heightFields st)
    (sw_offsetFields st) (sw_heightFallback st) (sw_heightFailed st)
    (sw_offsetFailed st) (sw_numHeightFieldsInCache st) (sw_realData st)
    (sw_deltaLOD st) (sw_nodataCount st) v (sw_trace st).
Definition log st ev :=
  mkSweep (sw_layers st) (sw_contenders st) (sw_heightFields st)
    (sw_offsetFields st) (sw_heightFallback st) (sw_heightFailed st)
    (sw_offsetFailed st) (sw_numHeightFieldsInCache st) (sw_realData st)
    (sw_deltaLOD st) (sw_nodataCount st) (sw_hf st) (sw_trace st ++ [ev]).

(** [v[n][i]] and [v[n][i] = x] on the nine-slot arrays; the inner
    subscript is the one that can leave its vector. *)
Definition read2 {A} (f : fault) (v : list (list A)) (n i : Z) : outcome A :=
  row ← readAt SlotIndexOutOfBounds v n;
  readAt f row i.

Definition write2 {A} (f : fault) (v : list (list A)) (n i : Z) (a : A)
    : outcome (list (list A)) :=
  row ← readAt SlotIndexOutOfBounds v n;
  row' ← writeAt f row i a;
  writeAt SlotIndexOutOfBounds v n row'.

(** The center slot, [int n = 4]. *)
Definition centerSlot : Z := 4.

(** [unsigned int maxHeightFields = 50]. *)
Definition maxHeightFields : Z := 50.

(** The coordinates of the pixel being visited. *)
Record Pixel := mkPixel { px_c : Z; px_r : Z; px_x : double; px_y : double }.

(** What the caller sees after the call. *)
Record World := mkWorld {
  w_hf : option HeightField;
  w_normalMap : option NormalMap;
  w_layers : list ElevationLayer;
  w_trace : list event
}.

Section Compositor.
Context {K : Constants} {E : Externals}.

Section PixelSweep.
(** Values fixed before the sweep starts. *)
Variable fuel : nat.
Variable key : TileKey.
Variable keySRS : SpatialReference.
Variable interpolation : ElevationInterpolation.
Variable progress : option ProgressCallback.
Variable numColumns : Z.
Variable offsets : list LayerData.

(** The subscript [r*numColumns + c] of lines 1027 and 1108. *)
Definition sweepDeltaIndex (c r : Z) : Z := wrap32 (r * numColumns + c).

(** [key.getLOD() - k.getLOD()], stored in a [short]. *)
Definition lodDifference (k : TileKey) : Z :=
  to_short (wrap32 (Z.of_N (key_lod key) - Z.of_N (key_lod k))).

(** Lines 982-989: fetch the grid of contender [i], walking up the
    parents of [actualKey].  [n] bounds the number of loop tests; a key
    of level [l] needs at most [l + 2] of them. *)
Fixpoint walkParents (n : nat) (i : Z) (lidx : nat) (actualKey : TileKey)
    (layers : list ElevationLayer) (trace : list event)
    : outcome (option GeoHeightField * TileKey
               * list ElevationLayer * list event) :=
  match n with
  | O => OutOfFuel
  | S n' =>
      match layers !! lidx with
      | None => Fault NullDereference
      | Some layer =>
          if key_valid actualKey && isKeyInLegalRange layer actualKey then
            '(layerHF, layer') ← createHeightField fuel layer actualKey progress;
            let layers' := <[lidx := layer']> layers in
            let trace' :=
              trace ++ [EvCreate false i actualKey (bool_decide (is_Some layerHF))] in
            match layerHF with
            | Some _ => Ok (layerHF, actualKey, layers', trace')
            | None =>
                walkParents n' i lidx (createParentKey actualKey) layers' trace'
            end
          else Ok (None, actualKey, layers, trace)
      end
  end.

(** Lines 1039-1051: empty every contender slot. *)
Definition clearHeightFieldCache (st : Sweep) : outcome Sweep :=
  st' ←
    forEach (upto 9)
      (fun j st1 =>
         row ← readAt SlotIndexOutOfBounds (sw_heightFields st1) j;
         forEach (upto (Z.of_nat (length row)))
           (fun k st2 =>
              hfs ← write2 SlotIndexOutOfBounds (sw_heightFields st2) j k None;
              fbs ← write2 FlagIndexOutOfBounds (sw_heightFallback st2) j k false;
              Ok (set_heightFallback (set_heightFields st2 hfs) fbs))
           st1)
      st;
  Ok (set_numHeightFieldsInCache st' 0).

(** Lines 978-1002: make sure the grid of contender [i] is loaded.
    [None] is the [continue] of line 1000.  [actualKey] and
    [contenderKey] are two references to [contenders[i].key], so the
    parent walk moves the stored key, and line 994 compares the key
    with itself. *)
Definition loadContender (i : Z) (ld : LayerData) (st : Sweep)
    : outcome (option GeoHeightField * Sweep) :=
  let n := centerSlot in
  layerHF ← read2 SlotIndexOutOfBounds (sw_heightFields st) n i;
  match layerHF with
  | Some g => Ok (Some g, st)
  | None =>
      '(fetched, actualKey, layers', trace') ←
        walkParents (2 + N.to_nat (key_lod (ld_key ld))) i (ld_layer ld)
          (ld_key ld) (sw_layers st) (sw_trace st);
      let contenderKey := actualKey in
      conts ← writeAt SlotIndexOutOfBounds (sw_contenders st) i
                (mkLayerData (ld_layer ld) actualKey (ld_index ld));
      hfs ← write2 SlotIndexOutOfBounds (sw_heightFields st) n i fetched;
      let st1 :=
        mkSweep layers' conts hfs (sw_offsetFields st)
          (sw_heightFallback st) (sw_heightFailed st) (sw_offsetFailed st)
          (sw_numHeightFieldsInCache st) (sw_realData st) (sw_deltaLOD st)
          (sw_nodataCount st) (sw_hf st) trace' in
      match fetched with
      | Some g =>
          fbs ← write2 FlagIndexOutOfBounds (sw_heightFallback st1) n i
                  (negb (key_eqb actualKey contenderKey));
          Ok (Some g,
              set_numHeightFieldsInCache (set_heightFallback st1 fbs)
                (wrap32 (sw_numHeightFieldsInCache st1 + 1)))
      | None =>
          fls ← write2 FlagIndexOutOfBounds (sw_heightFailed st1) n i true;
          Ok (None, set_heightFailed st1 fls)
      end
  end.

(** Lines 1004-1035: sample the loaded grid of contender [i]. *)
Definition sampleContender (px : Pixel) (i : Z) (g : GeoHeightField)
    (st : Sweep) : outcome (Sweep * Z) :=
  let n := centerSlot in
  ld ← readAt SlotIndexOutOfBounds (sw_contenders st) i;
  isFallback ← read2 FlagIndexOutOfBounds (sw_heightFallback st) n i;
  let st1 := if negb isFallback then set_realData st true else st in
  let sampled := getElevation g keySRS (px_x px) (px_y px) interpolation keySRS in
  let st2 := log st1 (EvSample false i isFallback (px_c px) (px_r px) sampled) in
  match sampled with
  | Some elevation =>
      if F32.neqb elevation NO_DATA_VALUE then
        hf' ← setHeight (sw_hf st2) (px_c px) (px_r px) elevation;
        dl ← writeAt DeltaLODIndexOutOfBounds (sw_deltaLOD st2)
               (sweepDeltaIndex (px_c px) (px_r px)) (lodDifference (ld_key ld));
        Ok (log (set_deltaLOD (set_hf st2 hf') dl)
              (EvWrite false i isFallback (px_c px) (px_r px) elevation),
            ld_index ld)
      else Ok (set_nodataCount st2 (to_int (sw_nodataCount st2 + 1)), -1)
  | None => Ok (st2, -1)
  end.

(** Lines 952-1051: the body of the contender loop, entered with
    [resolvedIndex < 0]; the result carries the new [resolvedIndex]. *)
Definition contenderBody (px : Pixel) (i : Z) (st : Sweep)
    : outcome (Sweep * Z) :=
  let n := centerSlot in
  ld ← readAt SlotIndexOutOfBounds (sw_contenders st) i;
  failed ← read2 FlagIndexOutOfBounds (sw_heightFailed st) n i;
  if (failed : bool) then Ok (st, -1)
  else
    '(layerHF, st1) ← loadContender i ld st;
    match layerHF with
    | None => Ok (st1, -1)
    | Some g =>
        '(st2, resolvedIndex) ← sampleContender px i g st1;
        if sw_numHeightFieldsInCache st2 >=? maxHeightFields then
          st3 ← clearHeightFieldCache st2; Ok (st3, resolvedIndex)
        else Ok (st2, resolvedIndex)
    end.

(** [for(int i=0; i<contenders.size() && resolvedIndex<0; ++i)]. *)
Fixpoint contenderLoop (px : Pixel) (indices : list Z) (st : Sweep)
    (resolvedIndex : Z) : outcome (Sweep * Z) :=
  match indices with
  | [] => Ok (st, resolvedIndex)
  | i :: rest =>
      if resolvedIndex <? 0 then
        '(st', resolvedIndex') ← contenderBody px i st;
        contenderLoop px rest st' resolvedIndex'
      else Ok (st, resolvedIndex)
  end.

(** Lines 1081-1092: make sure the grid of offset entry [i] is loaded (no
    parent walk for offsets).  [None] is the [continue] of line 1090. *)
Definition loadOffset (iz : Z) (ld : LayerData) (st : Sweep)
    : outcome (option GeoHeightField * Sweep) :=
  let n := centerSlot in
  let contenderKey := ld_key ld in
  layerHF ← read2 SlotIndexOutOfBounds (sw_offsetFields st) n iz;
  match layerHF with
  | Some g => Ok (Some g, st)
  | None =>
      match sw_layers st !! ld_layer ld with
      | None => Fault NullDereference
      | Some offset =>
          '(fetched, offset') ←
            createHeightField fuel offset contenderKey progress;
          ofs ← write2 SlotIndexOutOfBounds (sw_offsetFields st) n iz fetched;
          let st1 :=
            log (set_offsetFields
                   (set_layers st (<[ld_layer ld := offset']> (sw_layers st)))
                   ofs)
              (EvCreate true iz contenderKey (bool_decide (is_Some fetched))) in
          match fetched with
          | Some g => Ok (Some g, st1)
          | None =>
              fls ← write2 FlagIndexOutOfBounds (sw_offsetFailed st1) n iz true;
              Ok (None, set_offsetFailed st1 fls)
          end
      end
  end.

(** Lines 1094-1110: "If we actually got a layer then we have real data";
    the sample, when there is one, is added to the height. *)
Definition sampleOffset (px : Pixel) (iz : Z) (ld : LayerData)
    (g : GeoHeightField) (st : Sweep) : outcome Sweep :=
  let contenderKey := ld_key ld in
  let st2 := set_realData st true in
  let sampled :=
    getElevation g keySRS (px_x px) (px_y px) interpolation keySRS in
  let st3 := log st2 (EvSample true iz false (px_c px) (px_r px) sampled) in
  match sampled with
  | Some elevation =>
      if F32.neqb elevation NO_DATA_VALUE then
        old ← getHeight (sw_hf st3) (px_c px) (px_r px);
        hf' ← setHeight (sw_hf st3) (px_c px) (px_r px)
                (F32.add old elevation);
        dl ← writeAt DeltaLODIndexOutOfBounds (sw_deltaLOD st3)
               (sweepDeltaIndex (px_c px) (px_r px))
               (lodDifference contenderKey);
        Ok (log (set_deltaLOD (set_hf st3 hf') dl)
              (EvWrite true iz false (px_c px) (px_r px) elevation))
      else Ok st3
  | None => Ok st3
  end.

(** Lines 1056-1110: the body of the offset loop. *)
Definition offsetBody (px : Pixel) (resolvedIndex : Z) (i : nat) (st : Sweep)
    : outcome Sweep :=
  let n := centerSlot in
  let iz := Z.of_nat i in
  ld ← readAt SlotIndexOutOfBounds offsets iz;
  if (resolvedIndex >=? 0) && (ld_index ld <? resolvedIndex) then Ok st
  else
    failed ← read2 FlagIndexOutOfBounds (sw_offsetFailed st) n iz;
    if (failed : bool) then Ok st
    else
      '(layerHF, st1) ← loadOffset iz ld st;
      match layerHF with
      | None => Ok st1
      | Some g => sampleOffset px iz ld g st1
      end.

(** Lines 944-1111: one pixel. *)
Definition sweepPixel (px : Pixel) (st : Sweep) : outcome Sweep :=
  '(st1, resolvedIndex) ←
    contenderLoop px (upto (Z.of_nat (length (sw_contenders st)))) st (-1);
  forEach (downfrom (length offsets)) (offsetBody px resolvedIndex) st1.

(** Lines 937-1113: columns outside, rows inside. *)
Definition sweepAll (xmin ymin dx dy : double) (numRows : Z) (st : Sweep)
    : outcome Sweep :=
  forEach (upto numColumns)
    (fun c =>
       let x := F64.add xmin (F64.mul dx (F64.of_Z c)) in
       forEach (upto numRows)
         (fun r =>
            let y := F64.add ymin (F64.mul dy (F64.of_Z r)) in
            sweepPixel (mkPixel c r x y)))
    st.
End PixelSweep.

(** Lines 805-861: one step of the loop that collects the layers; the
    state is [(contenders, offsets, numFallbackLayers)]. *)
Definition collectLayer (layers : list ElevationLayer) (hf : HeightField)
    (key keyToUse : TileKey) (i : nat)
    (acc : list LayerData * list LayerData * Z)
    : outcome (list LayerData * list LayerData * Z) :=
  let '(contenders, offsets, numFallbackLayers) := acc in
  match layers !! i with
  | None => Fault NullDereference
  | Some layer =>
      if getEnabled layer && getVisible layer then
        let mappedKey :=
          mapResolution keyToUse (getNumColumns hf) (getTileSize layer) in
        if negb (isKeyInLegalRange layer key) then Ok acc
        else
          let bestKey := getBestAvailableTileKey layer mappedKey in
          if key_valid bestKey then
            let numFallbackLayers' :=
              if negb (key_eqb mappedKey bestKey)
              then wrap32 (numFallbackLayers + 1)
              else numFallbackLayers in
            let ld := mkLayerData i bestKey (Z.of_nat i) in
            if isOffset layer
            then Ok (contenders, offsets ++ [ld], numFallbackLayers')
            else Ok (contenders ++ [ld], offsets, numFallbackLayers')
          else Ok acc
      else Ok acc
  end.

(** Lines 788-862: the temporary key and the collected entries. *)
Definition keyToUseOf (key : TileKey) (haeProfile : option Profile) : TileKey :=
  match haeProfile with
  | Some p => mkTileKey (key_lod key) (key_x key) (key_y key) (Some p)
  | None => key
  end.

Definition collectLayers (layers : list ElevationLayer) (hf : HeightField)
    (key : TileKey) (haeProfile : option Profile)
    : outcome (list LayerData * list LayerData * Z) :=
  forEach (downfrom (length layers))
    (collectLayer layers hf key (keyToUseOf key haeProfile)) ([], [], 0).

(** Lines 906-919: nine slots; the grid vectors are as long as the entry
    lists, the flag vectors are given nine elements each. *)
Definition initialSweep (layers : list ElevationLayer)
    (contenders offsets : list LayerData) (hf : HeightField) : Sweep :=
  mkSweep layers contenders
    (repeat (repeat None (length contenders)) 9)
    (repeat (repeat None (length offsets)) 9)
    (repeat (repeat false 9) 9)
    (repeat (repeat false 9) 9)
    (repeat (repeat false 9) 9)
    0 false
    (repeat 0 (Z.to_nat (wrap32 (getNumColumns hf * getNumRows hf))))
    0 hf [].

(** ElevationLayerVector::populateHeightFieldAndNormalMap. *)
Definition populateHeightFieldAndNormalMap (fuel : nat)
    (layers : list ElevationLayer) (hf : option HeightField)
    (normalMap : option NormalMap) (key : TileKey)
    (haeProfile : option Profile) (interpolation : ElevationInterpolation)
    (progress : option ProgressCallback) : outcome (bool * World) :=
  let unchanged := mkWorld hf normalMap layers [] in
  match hf with
  | None => Ok (false, unchanged)
  | Some hf0 =>
      let keyToUse := keyToUseOf key haeProfile in
      '(contenders, offsets, numFallbackLayers) ←
        collectLayers layers hf0 key haeProfile;
      (* nothing? bail out. *)
      if bool_decide (contenders = []) && bool_decide (offsets = [])
      then Ok (false, unchanged)
      (* if everything is fallback data, bail out. *)
      else if Z.of_nat (length contenders) + Z.of_nat (length offsets)
              =? numFallbackLayers
      then Ok (false, unchanged)
      else
        let numColumns := getNumColumns hf0 in
        let numRows := getNumRows hf0 in
        let ext := key_getExtent key in
        let xmin := ext_xMin ext in
        let ymin := ext_yMin ext in
        let dx := F64.div (ext_width ext) (F64.of_Z (wrap32 (numColumns - 1))) in
        let dy := F64.div (ext_height ext) (F64.of_Z (wrap32 (numRows - 1))) in
        match key_profile keyToUse with
        | None => Fault NullDereference
        | Some profile =>
            let keySRS := prof_srs profile in
            st ← sweepAll fuel key keySRS interpolation progress numColumns
                   offsets xmin ymin dx dy numRows
                   (initialSweep layers contenders offsets hf0);
            normalMap' ←
              match normalMap with
              | Some nm =>
                  nm' ← createNormalMap ext (sw_hf st) (sw_deltaLOD st) nm;
                  Ok (Some nm')
              | None => Ok None
              end;
            Ok (sw_realData st,
                mkWorld (Some (sw_hf st)) normalMap' (sw_layers st) (sw_trace st))
        end
  end.
End Compositor.

(** ** A small concrete world

    Instances of the foreign functions and a few layers, used to run the
    model on concrete tiles. *)
Module Scenario.
(** [FLT_MAX] and [1e-6f] as binary32 numbers. *)
Definition FLT_MAX : float := S754_finite false 16777215 104.
Definition epsilon : float := S754_finite false 8796093 (-43).

(** osg::equivalent(float lhs, float rhs, float epsilon = 1e-6f). *)
Definition osg_equivalent (lhs rhs : float) : bool :=
  let delta := F32.sub rhs lhs in
  if F32.ltb delta F32.zero then F32.leb (SFopp epsilon) delta
  else F32.leb delta epsilon.

Definition constants : Constants :=
  {| NO_DATA_VALUE := SFopp FLT_MAX; equivalent := osg_equivalent |}.

Definition srs : SpatialReference :=
  mkSRS "spherical-mercator" None false (F64.of_Z 6378137).

Definition profile : Profile := mkProfile srs "mercator".

Definition unitExtent : GeoExtent :=
  mkGeoExtent srs F64.zero F64.zero (F64.of_Z 1) (F64.of_Z 1).

Definition profile_eqb (p q : Profile) : bool :=
  String.eqb (srs_name (prof_srs p)) (srs_name (prof_srs q))
  && String.eqb (prof_pyramid p) (prof_pyramid q).

Definition tileKey_eqb (a b : TileKey) : bool :=
  (key_lod a =? key_lod b)%N && (key_x a =? key_x b)%N
  && (key_y a =? key_y b)%N
  && match key_profile a, key_profile b with
     | Some p, Some q => profile_eqb p q
     | None, None => true
     | _, _ => false
     end.

(** Sampling reads the first stored height of the grid. *)
Definition firstSample (g : GeoHeightField) : option float :=
  head (hf_heights (ghf_heightField g)).

Definition externals : Externals :=
  {| isHorizEquivalentTo := profile_eqb;
     isVertEquivalentTo := fun _ _ => true;
     getFullSignature := fun p => srs_name (prof_srs p) +:+ prof_pyramid p;
     getIntersectingTiles := fun _ _ => [];
     key_str := fun k => "key";
     key_getExtent := fun _ => unitExtent;
     key_eqb := tileKey_eqb;
     mapResolution := fun k _ _ => k;
     ext_width := fun e => F64.sub (ext_xMax e) (ext_xMin e);
     ext_height := fun e => F64.sub (ext_yMax e) (ext_yMin e);
     VerticalDatum_transform := fun _ _ _ hf => hf;
     getElevation := fun g _ _ _ _ _ => firstSample g;
     getElevationAndNormal := fun g _ _ _ _ _ =>
       match firstSample g with
       | Some e => Some (e, mkVec3 F32.zero F32.zero F32.one)
       | None => None
       end;
     sortByResolution := fun l => l;
     resolveInvalidHeights := fun hf _ _ _ => hf;
     osg_PI := F64.of_Z 3;
     cosDegrees := fun _ => F64.of_Z 1;
     DateTime_now := 0 |}.

Definition grid (w h : Z) (hs : list float) : HeightField :=
  mkHeightField w h (mkVec3 F32.zero F32.zero F32.zero) F32.one F32.one hs 0.

Definition constGrid (v : float) : HeightField := grid 2 2 [v; v; v; v].

Definition key : TileKey := mkTileKey 1 0 0 (Some profile).

Definition neverExpires : CachePolicy := mkCachePolicy false true true (fun _ => false).
Definition alwaysExpired : CachePolicy := mkCachePolicy false true true (fun _ => true).

Definition options (offset : bool) (policy : CachePolicy) : LayerOptions :=
  mkLayerOptions "layer" true offset NODATA_INTERPOLATE
    (F32.of_Z (-32767)) (F32.of_Z (-32000)) (F32.of_Z 32000) 2 policy true
    (Some profile) (fun _ => true) (fun k => k) (fun _ => true).

Definition source (driver : option HeightField) : TileSource :=
  mkTileSource true "driver" [] (fun _ _ => driver) [].

(** A layer without caches whose driver answers every key alike. *)
Definition layer (offset : bool) (driver : option HeightField) : ElevationLayer :=
  mkElevationLayer (options offset neverExpires) false true
    (Some (source driver)) None None ∅.

Definition op : NormalizeNoDataValues :=
  mkNormalizeNoDataValues (F32.of_Z (-32767)) (F32.of_Z (-32000)) (F32.of_Z 32000).

(** A base layer whose best available key is the parent of the key it is
    asked for: it can only offer fallback data. *)
Definition fallbackLayer : ElevationLayer :=
  mkElevationLayer
    (mkLayerOptions "coarse" true false NODATA_INTERPOLATE
       (F32.of_Z (-32767)) (F32.of_Z (-32000)) (F32.of_Z 32000) 2
       neverExpires true (Some profile) (fun _ => true) createParentKey
       (fun _ => true))
    false true (Some (source (Some (constGrid (F32.of_Z 100))))) None None ∅.

Definition cacheKey : string := "key_spherical-mercatormercator".

(** Two offset layers, adding 5 and 7, and the entries that the
    collecting loop makes of them (the last layer comes first). *)
Definition fiveAndSeven : list ElevationLayer :=
  [layer true (Some (constGrid (F32.of_Z 5)));
   layer true (Some (constGrid (F32.of_Z 7)))].

Definition fiveAndSevenOffsets : list LayerData :=
  [mkLayerData 1 key 1; mkLayerData 0 key 0].

Definition firstPixel : Pixel := mkPixel 0 0 F64.zero F64.zero.

(** One offset layer whose driver has nothing but NaN samples. *)
Definition nanOffset : list ElevationLayer :=
  [layer true (Some (constGrid S754_nan))].

(** Ten base layers that share a driver. *)
Definition tenBaseLayers (driver : option HeightField) : list ElevationLayer :=
  repeat (layer false driver) 10.

(** A base layer that claims [key] as its best key but whose driver has
    data at level 0 only: the sweep finds its grid at the parent key. *)
Definition coarseOnlyLayer : ElevationLayer :=
  mkElevationLayer (options false neverExpires) false true
    (Some (mkTileSource true "driver" []
             (fun k _ => if (key_lod k =? 0)%N
                         then Some (constGrid (F32.of_Z 100)) else None)
             []))
    None None ∅.

(** A layer whose persistent cache holds an expired 2x2 grid for [key]
    and whose driver answers with [driver]. *)
Definition cachedLayer (driver : option HeightField) : ElevationLayer :=
  mkElevationLayer (options false alwaysExpired) false true
    (Some (source driver)) None None
    {[ "spherical-mercatormercator" :=
         {[ cacheKey := mkReadResult (Some (constGrid (F32.of_Z 42))) 0 ]} ]}.
End Scenario.

(** ** Vocabulary of the statements *)

(** [oWP m Q F]: if the run [m] returns, its result satisfies [Q]; if it
    faults, the fault satisfies [F]. *)
Definition oWP {A} (m : outcome A) (Q : A -> Prop) (F : fault -> Prop) : Prop :=
  match m with
  | Ok a => Q a
  | Fault f => F f
  | OutOfFuel => True
  end.

(** [oTotal m Q]: the run [m] does not exhaust the recursion budget of the
    model, and if it returns, its result satisfies [Q]. *)
Definition oTotal {A} (m : outcome A) (Q : A -> Prop) : Prop :=
  match m with
  | Ok a => Q a
  | Fault _ => True
  | OutOfFuel => False
  end.

Section IntersectingTiles.
Context {E : Externals}.

(** Profile::getIntersectingTiles answers with keys of the profile that
    was asked. *)
Definition intersectingTilesInProfile : Prop :=
  forall (p : Profile) (k k' : TileKey),
    In k' (getIntersectingTiles p k) ->
    exists kp, key_profile k' = Some kp /\ isHorizEquivalentTo kp p = true.
End IntersectingTiles.

(** A grid became available for sampling while its entry counted as real
    data: an offset entry, or a contender whose fallback flag was unset. *)
Definition realUse (ev : event) : bool :=
  match ev with
  | EvSample off _ fallback _ _ _ => off || negb fallback
  | _ => false
  end.

(** An output sample was written from a grid that is not a fallback. *)
Definition realWrite (ev : event) : bool :=
  match ev with
  | EvWrite _ _ fallback _ _ _ => negb fallback
  | _ => false
  end.

(** The stored indices of the offset entries whose samples were added, in
    the order of the additions. *)
Definition offsetApplications (evs : list event) : list Z :=
  omap (fun ev => match ev with
                  | EvWrite true i _ _ _ _ => Some i
                  | _ => None
                  end) evs.

(** The stored indices of the offset entries whose grids were sampled. *)
Definition offsetVisits (evs : list event) : list Z :=
  omap (fun ev => match ev with
                  | EvSample true i _ _ _ _ => Some i
                  | _ => None
                  end) evs.

(** A nine-slot array whose vectors all have [n] elements. *)
Definition gridRows {A} (n : nat) (v : list (list A)) : Prop :=
  length v = 9%nat /\ Forall (fun row => length row = n) v.

(** Any fault but the flag subscript. *)
Definition notFlagFault (f : fault) : Prop := f <> FlagIndexOutOfBounds.

(** The shape of the slot arrays during a sweep with [nc] contenders. *)
Definition flagShape (nc : nat) (st : Sweep) : Prop :=
  gridRows 9 (sw_heightFallback st)
  /\ gridRows 9 (sw_heightFailed st)
  /\ gridRows 9 (sw_offsetFailed st)
  /\ gridRows nc (sw_heightFields st)
  /\ length (sw_contenders st) = nc.

(** The events of the contender phase leave the offsets alone. *)
Definition contenderEvents (evs : list event) : Prop :=
  offsetVisits evs = [] /\ offsetApplications evs = [].

(** The events of the offset entry with stored index [i]. *)
Definition offsetEvents (i : Z) (evs : list event) : Prop :=
  (offsetVisits evs = [] \/ offsetVisits evs = [i])
  /\ (offsetApplications evs = [] \/ offsetApplications evs = [i]).

(** A step of the sweep extends the trace by events that satisfy [P], and
    [realData] is raised exactly by the real uses among them. *)
Definition traceExt (P : list event -> Prop) (st st' : Sweep) : Prop :=
  exists evs,
    sw_trace st' = sw_trace st ++ evs
    /\ sw_realData st' = sw_realData st || existsb realUse evs
    /\ P evs.

(** A fetch from the tile source changes nothing of a layer but its tile
    source and its lazily created normalizer. *)
Definition sameButSource (L L' : ElevationLayer) : Prop :=
  el_options L' = el_options L
  /\ el_statusError L' = el_statusError L
  /\ el_enabled L' = el_enabled L
  /\ el_memCache L' = el_memCache L
  /\ el_cacheBins L' = el_cacheBins L.

Section Vocabulary.
Context {E : Externals}.

(** An entry is a fallback when its best available key differs from the
    resolution-mapped key of its layer (line 831). *)
Definition isFallbackEntry (layers : list ElevationLayer) (hf : HeightField)
    (keyToUse : TileKey) (ld : LayerData) : bool :=
  match layers !! ld_layer ld with
  | Some layer =>
      negb (key_eqb (mapResolution keyToUse (getNumColumns hf) (getTileSize layer))
              (ld_key ld))
  | None => false
  end.

(** The number of fallback entries of a list. *)
Definition fallbackCount layers hf keyToUse (l : list LayerData) : Z :=
  Z.of_nat (length (List.filter (isFallbackEntry layers hf keyToUse) l)).

(** The counter of line 833 counts the collected entries whose best key
    differs from the mapped key, and no more entries are collected than
    layers were visited. *)
Definition collectInv layers hf keyToUse (visited : list nat)
    (acc : list LayerData * list LayerData * Z) : Prop :=
  let '(contenders, offsets, n) := acc in
  n = wrap32 (fallbackCount layers hf keyToUse contenders
              + fallbackCount layers hf keyToUse offsets)
  /\ (length contenders + length offsets <= length visited)%nat.
End Vocabulary.

(** ** Vocabulary of the further properties *)

(** What a fetch may do to the tile source of a layer: the blacklist and
    the record of driver requests only grow, the driver stays the same. *)
Definition sourceGrows (L L' : ElevationLayer) : Prop :=
  match el_tileSource L, el_tileSource L' with
  | Some ts, Some ts' =>
      (exists added, ts_blacklist ts' = added ++ ts_blacklist ts)
      /\ (exists more, ts_requests ts' = ts_requests ts ++ more)
      /\ ts_driver ts' = ts_driver ts
      /\ ts_isOK ts' = ts_isOK ts
  | None, None => True
  | _, _ => False
  end.

(** The shape that assembleHeightField gives to the grid and the normal
    map it allocates. *)
Definition assembledShape (width height : Z) (r : HeightField * NormalMap) : Prop :=
  hf_columns (fst r) = width
  /\ hf_rows (fst r) = height
  /\ length (hf_heights (fst r)) = Z.to_nat (wrap32 (width * height))
  /\ nm_width (snd r) = width
  /\ nm_height (snd r) = height
  /\ length (nm_data (snd r)) = Z.to_nat (wrap32 (width * height)).

(** What a call of createHeightField may do to the persistent cache of a
    layer: no bin appears or disappears, and no entry changes but that of
    [cacheKey] in the bin of signature [sig]. *)
Definition sameCacheBut (sig cacheKey : string)
    (b b' : gmap string (gmap string ReadResult)) : Prop :=
  forall s,
    match b !! s, b' !! s with
    | Some bin, Some bin' =>
        forall ck, (s = sig /\ ck = cacheKey) \/ bin' !! ck = bin !! ck
    | None, None => True
    | _, _ => False
    end.

Section CollectVocabulary.
Context {E : Externals}.

(** The test that lines 807-842 make of a layer before they collect it. *)
Definition isCollected (layer : ElevationLayer) (hf : HeightField)
    (key keyToUse : TileKey) : bool :=
  getEnabled layer && getVisible layer && isKeyInLegalRange layer key
  && key_valid
       (getBestAvailableTileKey layer
          (mapResolution keyToUse (getNumColumns hf) (getTileSize layer))).

(** [ld] is the entry that the collecting loop makes of a layer that
    passes the test and whose offset flag is [off]. *)
Definition entryOf (layers : list ElevationLayer) (hf : HeightField)
    (key keyToUse : TileKey) (off : bool) (ld : LayerData) : Prop :=
  exists layer,
    layers !! ld_layer ld = Some layer
    /\ isCollected layer hf key keyToUse = true
    /\ isOffset layer = off
    /\ ld_index ld = Z.of_nat (ld_layer ld)
    /\ ld_key ld
       = getBestAvailableTileKey layer
           (mapResolution keyToUse (getNumColumns hf) (getTileSize layer)).

(** The state of the collecting loop after the layers [visited]. *)
Definition collectedFrom (layers : list ElevationLayer) (hf : HeightField)
    (key keyToUse : TileKey) (visited : list nat)
    (acc : list LayerData * list LayerData * Z) : Prop :=
  let '(contenders, offsets, _) := acc in
  Forall (entryOf layers hf key keyToUse false) contenders
  /\ Forall (entryOf layers hf key keyToUse true) offsets
  /\ (ld_layer <$> contenders) `sublist_of` visited
  /\ (ld_layer <$> offsets) `sublist_of` visited
  /\ forall i layer,
       In i visited -> layers !! i = Some layer ->
       isCollected layer hf key keyToUse = true ->
       In i (ld_layer <$> (if isOffset layer then offsets else contenders)).
End CollectVocabulary.

Section SweepVocabulary.
Context {K : Constants}.

(** An elevation that the sweep takes over from a layer, as the height or
    as an addition to it, is not the no-data value. *)
Definition writesData (ev : event) : Prop :=
  match ev with
  | EvWrite _ _ _ _ _ v => F32.neqb v NO_DATA_VALUE = true
  | _ => True
  end.

(** Two grids that differ in their samples only. *)
Definition sameGridShape (hf hf' : HeightField) : Prop :=
  hf_columns hf' = hf_columns hf
  /\ hf_rows hf' = hf_rows hf
  /\ hf_origin hf' = hf_origin hf
  /\ hf_dx hf' = hf_dx hf
  /\ hf_dy hf' = hf_dy hf
  /\ hf_borderWidth hf' = hf_borderWidth hf
  /\ length (hf_heights hf') = length (hf_heights hf).

(** What a step of the pixel sweep keeps: the options of every layer, the
    shape of the output grid, the length of the deltaLOD array; and the
    heights it writes are data. *)
Definition sweepKeeps (st st' : Sweep) : Prop :=
  el_options <$> sw_layers st' = el_options <$> sw_layers st
  /\ sameGridShape (sw_hf st) (sw_hf st')
  /\ length (sw_deltaLOD st') = length (sw_deltaLOD st)
  /\ exists evs, sw_trace st' = sw_trace st ++ evs /\ Forall writesData evs.
End SweepVocabulary.


(** The events of a parent walk for contender [i] that failed at [m]
    keys, starting at [k]. *)
Definition failedCreates (i : Z) (k : TileKey) (m : nat) : list event :=
  (fun j => EvCreate false i (Nat.iter j createParentKey k) false) <$> seq 0 m.

(** The list, [offsets] or [contenders], that an event belongs to. *)
Definition isOffsetEvent (ev : event) : bool :=
  match ev with
  | EvCreate off _ _ _ => off
  | EvSample off _ _ _ _ _ => off
  | EvWrite off _ _ _ _ _ => off
  end.

(** The position, in [offsets] or [contenders], of the entry that an event
    belongs to. *)
Definition eventEntry (ev : event) : Z :=
  match ev with
  | EvCreate _ i _ _ => i
  | EvSample _ i _ _ _ _ => i
  | EvWrite _ i _ _ _ _ => i
  end.

(** An event of an offset entry that the test of line 1058 lets pass:
    no contender has set the height, or the entry's index is not below the
    resolved one. *)
Definition offsetAbove (offsets : list LayerData) (resolvedIndex : Z)
    (ev : event) : Prop :=
  isOffsetEvent ev = true
  /\ exists ld,
       0 <= eventEntry ev
       /\ offsets !! Z.to_nat (eventEntry ev) = Some ld
       /\ (resolvedIndex < 0 \/ resolvedIndex <= ld_index ld).

(** An event of an entry of [offsets] whose index is not below [index]. *)
Definition offsetNotBelow (offsets : list LayerData) (index : Z) (ev : event)
    : Prop :=
  exists ld,
    0 <= eventEntry ev
    /\ offsets !! Z.to_nat (eventEntry ev) = Some ld
    /\ index <= ld_index ld.

(** The entries of [contenders] that set the height, in program order. *)
Definition contenderWrites (evs : list event) : list Z :=
  omap (fun ev => match ev with
                  | EvWrite false i _ _ _ _ => Some i
                  | _ => None
                  end) evs.

(** Events of contenders among which none sets the height. *)
Definition quietContenders (evs : list event) : Prop :=
  Forall (fun ev => isOffsetEvent ev = false) evs /\ contenderWrites evs = [].

(** The events of the contender loop at one pixel, and the index it
    resolves: either no contender sets the height and the index stays
    negative, or the last event is the one write and the index is the one
    stored, in [indices], for the writing entry. *)
Definition contenderPhase (indices : list Z) (px : Pixel) (resolvedIndex : Z)
    (evs : list event) : Prop :=
  (resolvedIndex < 0 /\ quietContenders evs)
  \/ (0 <= resolvedIndex
      /\ exists pre i fallback v,
           evs = pre ++ [EvWrite false i fallback (px_c px) (px_r px) v]
           /\ quietContenders pre
           /\ 0 <= i
           /\ indices !! Z.to_nat i = Some resolvedIndex).

(** The [index] fields of the contender entries are positions in the
    layer vector. *)
Definition indicesNonNegative (st : Sweep) : Prop :=
  Forall (fun ld => 0 <= ld_index ld) (sw_contenders st).

(** The [index] fields of the contender entries, in the order of the
    entries. *)
Definition contenderIndices (st : Sweep) : list Z :=
  ld_index <$> sw_contenders st.

(** ** More concrete layers

    Layers with caches, a stack of a base layer under an offset layer, and
    a profile whose tiles are assembled from those of another. *)
Module Scenes.
(** The foreign functions of [Scenario], except that every key has one
    intersecting tile in any profile: the tile at the same position. *)
Definition mosaicExternals : Externals :=
  {| isHorizEquivalentTo := Scenario.profile_eqb;
     isVertEquivalentTo := fun _ _ => true;
     getFullSignature := fun p => srs_name (prof_srs p) +:+ prof_pyramid p;
     getIntersectingTiles :=
       fun p k => [mkTileKey (key_lod k) (key_x k) (key_y k) (Some p)];
     key_str := fun k => "key";
     key_getExtent := fun _ => Scenario.unitExtent;
     key_eqb := Scenario.tileKey_eqb;
     mapResolution := fun k _ _ => k;
     ext_width := fun e => F64.sub (ext_xMax e) (ext_xMin e);
     ext_height := fun e => F64.sub (ext_yMax e) (ext_yMin e);
     VerticalDatum_transform := fun _ _ _ hf => hf;
     getElevation := fun g _ _ _ _ _ => Scenario.firstSample g;
     getElevationAndNormal := fun g _ _ _ _ _ =>
       match Scenario.firstSample g with
       | Some e => Some (e, mkVec3 F32.zero F32.zero F32.one)
       | None => None
       end;
     sortByResolution := fun l => l;
     resolveInvalidHeights := fun hf _ _ _ => hf;
     osg_PI := F64.of_Z 3;
     cosDegrees := fun _ => F64.of_Z 1;
     DateTime_now := 0 |}.

(** A key of a geodetic profile, which the mercator layers of [Scenario]
    can only serve by assembly. *)
Definition geodeticKey : TileKey :=
  mkTileKey 1 0 0
    (Some (mkProfile (mkSRS "wgs84" None true (F64.of_Z 6378137)) "geodetic")).

(** A grid without samples: it has no elevation anywhere. *)
Definition emptyGrid : GeoHeightField :=
  mkGeoHeightField (Scenario.grid 0 0 []) None Scenario.unitExtent.

Definition sevens : GeoHeightField :=
  mkGeoHeightField (Scenario.constGrid (F32.of_Z 7)) None Scenario.unitExtent.

Definition cacheOnly : CachePolicy := mkCachePolicy true true true (fun _ => false).

(** A base layer with the given cache policy, tile source, memory cache
    and persistent cache. *)
Definition layerWith (policy : CachePolicy) (source : option TileSource)
    (memCache : option (gmap string HeightField))
    (bins : gmap string (gmap string ReadResult)) : ElevationLayer :=
  mkElevationLayer (Scenario.options false policy) false true source None
    memCache bins.

(** A persistent cache whose bin for the mercator profile holds [hf] for
    [Scenario.key]. *)
Definition cacheHolding (hf : HeightField) : gmap string (gmap string ReadResult) :=
  {[ "spherical-mercatormercator" :=
       {[ Scenario.cacheKey := mkReadResult (Some hf) 0 ]} ]}.

(** A base layer at 100 under an offset layer that adds 5, and the
    entries that the collecting loop makes of them. *)
Definition baseAndOffset : list ElevationLayer :=
  [Scenario.layer false (Some (Scenario.constGrid (F32.of_Z 100)));
   Scenario.layer true (Some (Scenario.constGrid (F32.of_Z 5)))].

Definition baseEntry : LayerData := mkLayerData 0 Scenario.key 0.
Definition offsetEntry : LayerData := mkLayerData 1 Scenario.key 1.

(** A base layer at 100 between an offset layer below it, which adds 5,
    and one above it, which adds 7; and the entries that the collecting loop
    makes of them. *)
Definition sandwich : list ElevationLayer :=
  [Scenario.layer true (Some (Scenario.constGrid (F32.of_Z 5)));
   Scenario.layer false (Some (Scenario.constGrid (F32.of_Z 100)));
   Scenario.layer true (Some (Scenario.constGrid (F32.of_Z 7)))].

Definition sandwichBase : LayerData := mkLayerData 1 Scenario.key 1.

Definition sandwichOffsets : list LayerData :=
  [mkLayerData 2 Scenario.key 2; mkLayerData 0 Scenario.key 0].

(** A normalizer whose minimum is not a number. *)
Definition nanMinimum : NormalizeNoDataValues :=
  mkNormalizeNoDataValues (F32.of_Z (-32767)) S754_nan (F32.of_Z 32000).
End Scenes.

(** * Properties *)

(** ** Machine numbers *)

Lemma wrap32_small z : 0 <= z < 2 ^ 32 -> wrap32 z = z.
Proof. intros H. unfold wrap32. apply Z.mod_small. exact H. Qed.

Lemma SFcompare_antisym a b :
  SFcompare b a = option_map CompOpp (SFcompare a b).
Proof.
  destruct a as [sa|sa| |sa ma ea], b as [sb|sb| |sb mb eb]; simpl;
    try reflexivity; try (destruct sa; reflexivity);
    try (destruct sb; reflexivity); try (destruct sa, sb; reflexivity).
  rewrite (Z.compare_antisym ea eb).
  assert (Hm : Pos.compare_cont Eq mb ma = CompOpp (Pos.compare_cont Eq ma mb))
    by (symmetry; apply (Pos.compare_cont_antisym ma mb Eq)).
  rewrite Hm.
  destruct sa, sb; simpl; try reflexivity;
    destruct (ea ?= eb); simpl; try reflexivity;
    destruct (Pos.compare_cont Eq ma mb); reflexivity.
Qed.

Lemma SFcompare_not_nan a b :
  F32.isNaN a = false -> F32.isNaN b = false -> exists c, SFcompare a b = Some c.
Proof.
  destruct a, b; simpl; intros Ha Hb; try discriminate; eauto.
Qed.

(** Among numbers, "not less than" is "greater or equal". *)
Lemma not_ltb_leb a b :
  F32.isNaN a = false -> F32.isNaN b = false ->
  F32.ltb a b = false -> F32.leb b a = true.
Proof.
  intros Ha Hb Hlt. unfold F32.ltb, F32.leb, SFltb, SFleb in *.
  rewrite SFcompare_antisym.
  destruct (SFcompare_not_nan a b Ha Hb) as [c Hc]. rewrite Hc in *. simpl.
  destruct c; simpl; congruence.
Qed.

(** ** 4.A  No-data normalizer and validator *)

Section NormalizerFacts.
Context {K : Constants}.

Lemma normalizeValue_valid op v :
  F32.isNaN (_minValidValue op) = false ->
  F32.isNaN (_maxValidValue op) = false ->
  normalizeValue op v = NO_DATA_VALUE
  \/ (normalizeValue op v = v
      /\ F32.isNaN v = false
      /\ F32.leb (_minValidValue op) v = true
      /\ F32.leb v (_maxValidValue op) = true
      /\ equivalent v (_noDataValue op) = false).
Proof.
  intros Hmin Hmax. unfold normalizeValue.
  destruct (isInvalidHeight op v) eqn:Hinv; [left; reflexivity|right].
  unfold isInvalidHeight in Hinv.
  apply orb_false_elim in Hinv as [Hinv Hgt].
  apply orb_false_elim in Hinv as [Hinv Hlt].
  apply orb_false_elim in Hinv as [Hnan Heq].
  repeat split; auto using not_ltb_leb.
Qed.

(** C4 (as amended).  When the thresholds minValidValue and maxValidValue
    are numbers (not NaN), then after NormalizeNoDataValues has run on a
    grid every sample is either the NO_DATA sentinel, or it is not NaN, lies
    between minValidValue and maxValidValue and is not equivalent to the
    layer's noDataValue. *)
Theorem normalizeNoDataValues_samples_valid
    (op : NormalizeNoDataValues) (hf hf' : HeightField) (v : float) :
  F32.isNaN (_minValidValue op) = false ->
  F32.isNaN (_maxValidValue op) = false ->
  normalizeNoDataValues op (Some hf) = Some hf' ->
  In v (hf_heights hf') ->
  v = NO_DATA_VALUE
  \/ (F32.isNaN v = false
      /\ F32.leb (_minValidValue op) v = true
      /\ F32.leb v (_maxValidValue op) = true
      /\ equivalent v (_noDataValue op) = false).
Proof.
  intros Hmin Hmax Hrun Hin. simpl in Hrun. injection Hrun as <-.
  simpl in Hin. apply in_map_iff in Hin as (v0 & <- & _).
  destruct (normalizeValue_valid op v0 Hmin Hmax) as [->|(-> & H)]; auto.
Qed.
End NormalizerFacts.

Lemma normalizeNoDataValues_samples_valid_witness :
  let hf := Scenario.grid 2 2
              [S754_nan; F32.of_Z 5; F32.of_Z (-32767); F32.of_Z 40000] in
  let v := F32.of_Z 5 in
  v = @NO_DATA_VALUE Scenario.constants
  \/ (F32.isNaN v = false
      /\ F32.leb (_minValidValue Scenario.op) v = true
      /\ F32.leb v (_maxValidValue Scenario.op) = true
      /\ @equivalent Scenario.constants v (_noDataValue Scenario.op) = false).
Proof.
  intros hf v.
  apply (@normalizeNoDataValues_samples_valid Scenario.constants Scenario.op hf
           (Scenario.grid 2 2
              [@NO_DATA_VALUE Scenario.constants; F32.of_Z 5;
               @NO_DATA_VALUE Scenario.constants;
               @NO_DATA_VALUE Scenario.constants]) v).
  - reflexivity.
  - reflexivity.
  - vm_compute. reflexivity.
  - simpl. right. left. reflexivity.
Defined.

(** C4, the claim as stated fails: when minValidValue is NaN the test
    [value < _minValidValue] of line 130 is false for every sample, so the
    sample 5 is kept, although it is not the NO_DATA sentinel and
    [minValidValue <= 5] does not hold. *)
Lemma nan_threshold_keeps_sample_outside_range :
  exists hf',
    @normalizeNoDataValues Scenario.constants Scenes.nanMinimum
      (Some (Scenario.constGrid (F32.of_Z 5))) = Some hf'
    /\ In (F32.of_Z 5) (hf_heights hf')
    /\ F32.of_Z 5 <> @NO_DATA_VALUE Scenario.constants
    /\ F32.leb (_minValidValue Scenes.nanMinimum) (F32.of_Z 5) = false.
Proof.
  eexists. split; [vm_compute; reflexivity|].
  split; [left; reflexivity|]. split; [discriminate|reflexivity].
Qed.

Lemma validateHeightField_iff (hf : HeightField) :
  validateHeightField (Some hf) = true
  <-> (2 <= getNumRows hf <= 1024 /\ 2 <= getNumColumns hf <= 1024
       /\ Z.of_nat (length (hf_heights hf)) = getNumColumns hf * getNumRows hf).
Proof.
  unfold validateHeightField.
  destruct (getNumRows hf <? 2) eqn:R1; [split; [discriminate|lia]|].
  destruct (getNumRows hf >? 1024) eqn:R2; [split; [discriminate|lia]|].
  destruct (getNumColumns hf <? 2) eqn:C1; [split; [discriminate|lia]|].
  destruct (getNumColumns hf >? 1024) eqn:C2; [split; [discriminate|lia]|].
  simpl.
  assert (Hw : wrap32 (getNumColumns hf * getNumRows hf)
               = getNumColumns hf * getNumRows hf).
  { apply wrap32_small. nia. }
  rewrite Hw.
  destruct (Z.of_nat (length (hf_heights hf)) =? getNumColumns hf * getNumRows hf)
    eqn:L; simpl; split; try discriminate; try lia; intros; auto.
Qed.

Lemma validateHeightField_allocate w h :
  2 <= w <= 1024 -> 2 <= h <= 1024 -> validateHeightField (Some (allocate w h)) = true.
Proof.
  intros Hw Hh. apply validateHeightField_iff. unfold allocate; simpl.
  unfold getNumRows, getNumColumns; simpl.
  rewrite repeat_length, wrap32_small by nia.
  rewrite Z2Nat.id by nia. lia.
Qed.

(** C5.  validateHeightField accepts a grid exactly when its row and column
    counts lie in [2, 1024] and its storage holds columns x rows samples; a
    2x2 and a 1024x1024 grid pass, a grid with 1 or 1025 rows or columns
    fails. *)
Theorem validateHeightField_accepts :
  (forall hf : HeightField,
     validateHeightField (Some hf) = true
     <-> (2 <= getNumRows hf <= 1024 /\ 2 <= getNumColumns hf <= 1024
          /\ Z.of_nat (length (hf_heights hf))
             = getNumColumns hf * getNumRows hf))
  /\ validateHeightField (Some (allocate 2 2)) = true
  /\ validateHeightField (Some (allocate 1024 1024)) = true
  /\ (forall hf : HeightField,
        getNumRows hf = 1 \/ getNumRows hf = 1025
        \/ getNumColumns hf = 1 \/ getNumColumns hf = 1025 ->
        validateHeightField (Some hf) = false).
Proof.
  split; [exact validateHeightField_iff|].
  split; [apply validateHeightField_allocate; lia|].
  split; [apply validateHeightField_allocate; lia|].
  intros hf H.
  destruct (validateHeightField (Some hf)) eqn:V; [|reflexivity].
  apply validateHeightField_iff in V. lia.
Qed.

Lemma validateHeightField_accepts_witness :
  validateHeightField (Some (Scenario.grid 1025 2 (repeat F32.zero 2050))) = false
  /\ validateHeightField (Some (Scenario.grid 2 1 [F32.zero; F32.zero])) = false
  /\ validateHeightField (Some (Scenario.constGrid F32.zero)) = true.
Proof.
  destruct validateHeightField_accepts as (Hiff & _ & _ & Hfail).
  split; [apply Hfail; right; right; right; reflexivity|].
  split; [apply Hfail; left; reflexivity|].
  apply Hiff. vm_compute. intuition congruence.
Defined.

(** ** 4.B  Fetching from the tile source *)

Section TileSourceFacts.
Context {K : Constants} {E : Externals}.

Lemma mayBlacklist_true progress :
  mayBlacklist progress = true
  <-> (progress = None
       \/ exists p, progress = Some p /\ isCanceled p = false
                    /\ needsRetry p = false).
Proof.
  destruct progress as [p|]; simpl.
  - rewrite andb_true_iff, !negb_true_iff. split.
    + intros [H1 H2]. right. eauto.
    + intros [H|(q & [= <-] & H1 & H2)]; [discriminate|auto].
  - split; auto.
Qed.

(** What a failed fetch on the quick route leaves behind. *)
Lemma failed_fetch_result fuel L source key progress kprofile lprofile :
  el_tileSource L = Some source ->
  blacklist_contains (ts_blacklist source) key = false ->
  key_profile key = Some kprofile ->
  getProfile L = Some lprofile ->
  isHorizEquivalentTo kprofile lprofile = true ->
  mayHaveData L key = true ->
  ts_driver source key progress = None ->
  createHeightFieldFromTileSource (S fuel) L key progress
  = Ok (None,
        set_tileSource (snd (getOrCreatePreCacheOp L))
          (Some (mkTileSource (ts_isOK source) (ts_name source)
                   (if mayBlacklist progress
                    then key :: ts_blacklist source
                    else ts_blacklist source)
                   (ts_driver source) (ts_requests source ++ [key])))).
Proof.
  intros Hsrc Hbl Hkp Hlp Heq Hdata Hdrv. simpl.
  rewrite Hsrc, Hbl, Hkp, Hlp, Heq, Hdata. simpl.
  destruct (getOrCreatePreCacheOp L) as [op L1] eqn:Hop.
  unfold TileSource_createHeightField. rewrite Hdrv. simpl.
  unfold blacklist_add, set_blacklist. simpl. rewrite Hbl.
  destruct (mayBlacklist progress); reflexivity.
Qed.

(** C6.  When the driver produces no grid for a horizontally equivalent
    key, the key is added to the blacklist exactly when there is no
    progress callback or the callback reports neither canceled nor
    needs-retry; otherwise the blacklist is left as it was. *)
Theorem failed_fetch_blacklists_unless_transient
    (fuel : nat) (L : ElevationLayer) (source : TileSource) (key : TileKey)
    (progress : option ProgressCallback) (kprofile lprofile : Profile) :
  el_tileSource L = Some source ->
  blacklist_contains (ts_blacklist source) key = false ->
  key_profile key = Some kprofile ->
  getProfile L = Some lprofile ->
  isHorizEquivalentTo kprofile lprofile = true ->
  mayHaveData L key = true ->
  ts_driver source key progress = None ->
  exists L' source',
    createHeightFieldFromTileSource (S fuel) L key progress = Ok (None, L')
    /\ el_tileSource L' = Some source'
    /\ ((progress = None
         \/ (exists p, progress = Some p /\ isCanceled p = false
                       /\ needsRetry p = false)) ->
        ts_blacklist source' = key :: ts_blacklist source)
    /\ ((exists p, progress = Some p
                   /\ (isCanceled p = true \/ needsRetry p = true)) ->
        ts_blacklist source' = ts_blacklist source).
Proof.
  intros Hsrc Hbl Hkp Hlp Heq Hdata Hdrv.
  eexists _, _. split.
  { eapply failed_fetch_result; eauto. }
  split; [reflexivity|]. simpl. split.
  - intros H. apply mayBlacklist_true in H. rewrite H. reflexivity.
  - intros (p & -> & H). simpl.
    destruct H as [-> | ->]; [reflexivity|].
    rewrite andb_false_r. reflexivity.
Qed.

(** C7.  For a key on the blacklist of the layer's tile source,
    createHeightFieldFromTileSource returns null and leaves the layer,
    and with it the record of driver requests, untouched. *)
Theorem blacklisted_key_not_requested
    (fuel : nat) (L : ElevationLayer) (source : TileSource) (key : TileKey)
    (progress : option ProgressCallback) :
  el_tileSource L = Some source ->
  blacklist_contains (ts_blacklist source) key = true ->
  createHeightFieldFromTileSource (S fuel) L key progress = Ok (None, L).
Proof.
  intros Hsrc Hbl. simpl. rewrite Hsrc, Hbl. reflexivity.
Qed.
End TileSourceFacts.

Lemma failed_fetch_blacklists_unless_transient_witness :
  let L := Scenario.layer false None in
  exists L' source',
    @createHeightFieldFromTileSource Scenario.constants Scenario.externals 1 L
      Scenario.key (Some (mkProgress true false)) = Ok (None, L')
    /\ el_tileSource L' = Some source'
    /\ ((Some (mkProgress true false) = None
         \/ (exists p, Some (mkProgress true false) = Some p
                       /\ isCanceled p = false /\ needsRetry p = false)) ->
        ts_blacklist source' = Scenario.key :: [])
    /\ ((exists p, Some (mkProgress true false) = Some p
                   /\ (isCanceled p = true \/ needsRetry p = true)) ->
        ts_blacklist source' = []).
Proof.
  intros L.
  apply (@failed_fetch_blacklists_unless_transient Scenario.constants
           Scenario.externals 0 L (Scenario.source None) Scenario.key
           (Some (mkProgress true false)) Scenario.profile Scenario.profile);
    reflexivity.
Defined.

Lemma blacklisted_key_not_requested_witness :
  let source :=
    mkTileSource true "driver" [Scenario.key]
      (fun _ _ => Some (Scenario.constGrid F32.one)) [] in
  let L :=
    mkElevationLayer (Scenario.options false Scenario.neverExpires) false true
      (Some source) None None ∅ in
  @createHeightFieldFromTileSource Scenario.constants Scenario.externals 1 L
    Scenario.key None = Ok (None, L).
Proof.
  intros source L.
  apply (@blacklisted_key_not_requested Scenario.constants Scenario.externals
           0 L source Scenario.key None); reflexivity.
Defined.

(** ** 4.E  The subscript of the normal-map builder *)

(** The builder's subscript agrees with the row-major subscript
    [t*w + s] only on the first row or on square grids. *)
Lemma normalMapDeltaIndex_row_major w h s t :
  normalMapDeltaIndex w h s t = t * w + s <-> (t = 0 \/ w = h).
Proof. unfold normalMapDeltaIndex. nia. Qed.

(** C2.  On a grid of 3 columns and 2 rows the pixel sweep stores the
    deltaLOD of pixel (c, r) = (0, 1) at subscript 1*3+0 = 3, but the
    normal-map builder reads subscript 1*2+0 = 2 for (s, t) = (0, 1): with
    deltaLOD = 2 stored for that pixel it finds step 1 instead of 4.  On a
    grid of 2 columns and 3 rows the builder's subscript for (1, 2) is 7,
    past the 6 stored entries, and a call of
    populateHeightFieldAndNormalMap with a normal map leaves the deltaLOD
    array. *)
Theorem normalMapStep_uses_row_count :
  let hf32 := Scenario.grid 3 2 (repeat F32.zero 6) in
  let hf23 := Scenario.grid 2 3 (repeat F32.zero 6) in
  let deltaLOD := [0; 0; 0; 2; 0; 0] in
  sweepDeltaIndex (getNumColumns hf32) 0 1 = 3
  /\ deltaLOD !! 3%nat = Some 2
  /\ stepOf 2 = 4
  /\ normalMapStep hf32 deltaLOD 0 1 = Ok 1
  /\ normalMapStep hf23 (repeat 0 6) 1 2 = Fault DeltaLODIndexOutOfBounds
  /\ @populateHeightFieldAndNormalMap Scenario.constants Scenario.externals 3
       [Scenario.layer false (Some (Scenario.constGrid (F32.of_Z 100)))]
       (Some (allocate 2 3)) (Some (newNormalMap 2 3)) Scenario.key None
       INTERP_BILINEAR None
     = Fault DeltaLODIndexOutOfBounds.
Proof. repeat split; vm_compute; reflexivity. Qed.

(** ** Reasoning about runs *)

Lemma oWP_bind {A B} (m : outcome A) (k : A -> outcome B) Q F :
  oWP m (fun a => oWP (k a) Q F) F -> oWP (m ≫= k) Q F.
Proof. destruct m; simpl; auto. Qed.

Lemma oWP_mono {A} (m : outcome A) (Q Q' : A -> Prop) (F F' : fault -> Prop) :
  (forall a, Q a -> Q' a) -> (forall f, F f -> F' f) ->
  oWP m Q F -> oWP m Q' F'.
Proof. destruct m; simpl; auto. Qed.

Lemma oWP_ok {A} (m : outcome A) Q F a : oWP m Q F -> m = Ok a -> Q a.
Proof. intros H ->. exact H. Qed.

Lemma oWP_fault {A} (m : outcome A) Q F f : oWP m Q F -> m = Fault f -> F f.
Proof. intros H ->. exact H. Qed.

(** A loop invariant that may mention the elements already visited. *)
Lemma oWP_forEach_prefix {A S} (I : list A -> S -> Prop) (F : fault -> Prop)
    (body : A -> S -> outcome S) (l : list A) :
  forall pre s,
    I pre s ->
    (forall pre' a s', I pre' s' -> In a l -> oWP (body a s') (I (pre' ++ [a])) F) ->
    oWP (forEach l body s) (I (pre ++ l)) F.
Proof.
  induction l as [|a l IH]; intros pre s HI Hbody; simpl.
  - rewrite app_nil_r. exact HI.
  - apply oWP_bind.
    eapply oWP_mono; [| |apply (Hbody pre a s HI); left; reflexivity]; auto.
    intros s' HI'. simpl.
    replace (pre ++ a :: l) with ((pre ++ [a]) ++ l)
      by (rewrite <- app_assoc; reflexivity).
    apply IH; [exact HI'|].
    intros pre' b s'' H Hin. apply Hbody; [exact H|right; exact Hin].
Qed.

Lemma oWP_forEach {A S} (I : S -> Prop) (F : fault -> Prop)
    (body : A -> S -> outcome S) (l : list A) (s : S) :
  I s ->
  (forall a s', I s' -> In a l -> oWP (body a s') I F) ->
  oWP (forEach l body s) I F.
Proof.
  intros HI Hbody.
  apply (oWP_forEach_prefix (fun _ => I) F body l [] s HI).
  intros _ a s' H Hin. apply Hbody; assumption.
Qed.

Lemma downfrom_length n : length (downfrom n) = n.
Proof. unfold downfrom. rewrite length_rev, length_seq. reflexivity. Qed.

Lemma downfrom_In n i : In i (downfrom n) <-> (i < n)%nat.
Proof. unfold downfrom. rewrite <- in_rev, in_seq. lia. Qed.

Lemma upto_In n i : In i (upto n) <-> 0 <= i < n.
Proof.
  unfold upto. rewrite <- list_elem_of_In, elem_of_seqZ. lia.
Qed.

(** ** Subscripts *)

Lemma readAt_fault {A} f (l : list A) i f' : readAt f l i = Fault f' -> f' = f.
Proof.
  unfold readAt. destruct (i <? 0); [congruence|].
  destruct (l !! Z.to_nat i); congruence.
Qed.

Lemma readAt_ok {A} f (l : list A) i :
  0 <= i < Z.of_nat (length l) -> exists a, readAt f l i = Ok a /\ l !! Z.to_nat i = Some a.
Proof.
  intros H. unfold readAt.
  destruct (i <? 0) eqn:Hi; [lia|].
  destruct (lookup_lt_is_Some_2 l (Z.to_nat i)) as [a Ha]; [lia|].
  rewrite Ha. eauto.
Qed.

Lemma readAt_Some {A} f (l : list A) i a :
  readAt f l i = Ok a -> 0 <= i /\ l !! Z.to_nat i = Some a.
Proof.
  unfold readAt. destruct (i <? 0) eqn:Hi; [discriminate|].
  destruct (l !! Z.to_nat i); [|discriminate]. intros [= ->]. split; [lia|reflexivity].
Qed.

Lemma readAt_out {A} f (l : list A) i :
  Z.of_nat (length l) <= i -> readAt f l i = Fault f.
Proof.
  intros H. unfold readAt.
  destruct (i <? 0) eqn:Hi; [reflexivity|].
  rewrite lookup_ge_None_2 by lia. reflexivity.
Qed.

Lemma writeAt_fault {A} f (l : list A) i a f' : writeAt f l i a = Fault f' -> f' = f.
Proof. unfold writeAt. destruct (_ && _); congruence. Qed.

Lemma writeAt_length {A} f (l l' : list A) i a :
  writeAt f l i a = Ok l' -> length l' = length l.
Proof.
  unfold writeAt. destruct (_ && _); [|discriminate].
  intros [= <-]. apply length_insert.
Qed.

Lemma writeAt_ok {A} f (l : list A) i a :
  0 <= i < Z.of_nat (length l) -> exists l', writeAt f l i a = Ok l'.
Proof.
  intros H. unfold writeAt.
  replace ((0 <=? i) && (i <? Z.of_nat (length l))) with true; [eauto|].
  symmetry. apply andb_true_iff. split; [apply Z.leb_le|apply Z.ltb_lt]; lia.
Qed.

Lemma gridRows_row {A} m (v : list (list A)) n row :
  gridRows m v -> v !! n = Some row -> length row = m.
Proof.
  intros [_ Hall] Hn. rewrite Forall_forall in Hall. apply Hall.
  eapply list_elem_of_lookup_2; eauto.
Qed.

Lemma gridRows_insert {A} m (v : list (list A)) n row :
  gridRows m v -> length row = m -> gridRows m (<[n := row]> v).
Proof.
  intros [Hlen Hall] Hrow. split; [rewrite length_insert; exact Hlen|].
  apply Forall_insert; assumption.
Qed.

Lemma gridRows_repeat {A} m (row : list A) :
  length row = m -> gridRows m (repeat row 9).
Proof.
  intros H. split; [reflexivity|].
  rewrite Forall_forall. intros r Hr.
  apply list_elem_of_In, repeat_spec in Hr. rewrite Hr. exact H.
Qed.

Lemma read2_fault {A} f (v : list (list A)) n i f' :
  read2 f v n i = Fault f' -> f' = SlotIndexOutOfBounds \/ f' = f.
Proof.
  unfold read2.
  destruct (readAt SlotIndexOutOfBounds v n) as [row|f0|] eqn:Hr; simpl.
  - intros H. right. eapply readAt_fault; eauto.
  - intros [= <-]. left. eapply readAt_fault; eauto.
  - discriminate.
Qed.

Lemma read2_ok {A} f (v : list (list A)) m n i :
  gridRows m v -> 0 <= n < 9 -> 0 <= i < Z.of_nat m ->
  exists a, read2 f v n i = Ok a.
Proof.
  intros Hv Hn Hi. unfold read2.
  destruct (readAt_ok SlotIndexOutOfBounds v n) as (row & -> & Hrow).
  { destruct Hv as [-> _]. lia. }
  simpl. destruct (readAt_ok f row i) as (a & -> & _); eauto.
  rewrite (gridRows_row m v _ row Hv Hrow). exact Hi.
Qed.

Lemma read2_out {A} f (v : list (list A)) m n i :
  gridRows m v -> 0 <= n < 9 -> Z.of_nat m <= i -> read2 f v n i = Fault f.
Proof.
  intros Hv Hn Hi. unfold read2.
  destruct (readAt_ok SlotIndexOutOfBounds v n) as (row & -> & Hrow).
  { destruct Hv as [-> _]. lia. }
  simpl. apply readAt_out.
  rewrite (gridRows_row m v _ row Hv Hrow). exact Hi.
Qed.

Lemma write2_fault {A} f (v : list (list A)) n i a f' :
  write2 f v n i a = Fault f' -> f' = SlotIndexOutOfBounds \/ f' = f.
Proof.
  unfold write2.
  destruct (readAt SlotIndexOutOfBounds v n) as [row|f0|] eqn:Hr; simpl.
  - destruct (writeAt f row i a) as [row'|f1|] eqn:Hw; simpl.
    + intros H. left. eapply writeAt_fault; eauto.
    + intros [= <-]. right. eapply writeAt_fault; eauto.
    + discriminate.
  - intros [= <-]. left. eapply readAt_fault; eauto.
  - discriminate.
Qed.

Lemma write2_shape {A} f (v v' : list (list A)) m n i a :
  gridRows m v -> write2 f v n i a = Ok v' -> gridRows m v'.
Proof.
  intros Hv. unfold write2.
  destruct (readAt SlotIndexOutOfBounds v n) as [row|f0|] eqn:Hr; simpl;
    try discriminate.
  destruct (writeAt f row i a) as [row'|f1|] eqn:Hw; simpl; try discriminate.
  unfold writeAt. destruct (_ && _); [|discriminate]. intros [= <-].
  apply gridRows_insert; [exact Hv|].
  rewrite (writeAt_length _ _ _ _ _ Hw).
  apply readAt_Some in Hr as [_ Hr]. eapply gridRows_row; eauto.
Qed.

Lemma write2_ok {A} f (v : list (list A)) m n i a :
  gridRows m v -> 0 <= n < 9 -> 0 <= i < Z.of_nat m ->
  exists v', write2 f v n i a = Ok v' /\ gridRows m v'.
Proof.
  intros Hv Hn Hi.
  assert (Hlen : length v = 9%nat) by (destruct Hv; assumption).
  destruct (readAt_ok SlotIndexOutOfBounds v n) as (row & Hr & Hrow); [lia|].
  destruct (writeAt_ok f row i a) as [row' Hw].
  { rewrite (gridRows_row m v _ row Hv Hrow). exact Hi. }
  destruct (writeAt_ok SlotIndexOutOfBounds v n row') as [v' Hv']; [lia|].
  exists v'.
  assert (Hrun : write2 f v n i a = Ok v').
  { unfold write2. rewrite Hr. simpl. rewrite Hw. simpl. exact Hv'. }
  split; [exact Hrun|]. eapply write2_shape; eauto.
Qed.

Lemma getHeight_fault hf c r f : getHeight hf c r = Fault f -> f = HeightIndexOutOfBounds.
Proof. apply readAt_fault. Qed.

Lemma setHeight_fault hf c r v f :
  setHeight hf c r v = Fault f -> f = HeightIndexOutOfBounds.
Proof.
  unfold setHeight. destruct (writeAt _ _ _ _) as [hs|f0|] eqn:H; simpl;
    try discriminate.
  intros [= <-]. eapply writeAt_fault; eauto.
Qed.

Lemma NormalMap_set_fault nm s t n c f :
  NormalMap_set nm s t n c = Fault f -> f = NormalIndexOutOfBounds.
Proof.
  unfold NormalMap_set. destruct (writeAt _ _ _ _) as [d|f0|] eqn:H; simpl;
    try discriminate.
  intros [= <-]. eapply writeAt_fault; eauto.
Qed.

(** Closes a goal about a fault that a subscript of another kind raised. *)
Ltac other_fault H :=
  first [ apply readAt_fault in H
        | apply writeAt_fault in H
        | apply getHeight_fault in H
        | apply setHeight_fault in H
        | apply NormalMap_set_fault in H
        | apply read2_fault in H; destruct H as [H|H]
        | apply write2_fault in H; destruct H as [H|H] ];
  subst; unfold notFlagFault; discriminate.

(** Runs the first step of a bind whose faults are of another kind. *)
Ltac step_as x H :=
  apply oWP_bind;
  match goal with
  | |- oWP ?m _ _ => destruct m as [x|?|] eqn:H; simpl;
                     [|solve [other_fault H]|exact I]
  end.

Lemma notFlagFault_null : notFlagFault NullDereference.
Proof. discriminate. Qed.


(** ** 4.D  Collecting the layers *)

Section CollectFacts.
Context {K : Constants} {E : Externals}.

Lemma fallbackCount_app layers hf k l1 l2 :
  fallbackCount layers hf k (l1 ++ l2)
  = fallbackCount layers hf k l1 + fallbackCount layers hf k l2.
Proof.
  unfold fallbackCount. rewrite List.filter_app, length_app. lia.
Qed.

Lemma fallbackCount_bound layers hf k l :
  0 <= fallbackCount layers hf k l <= Z.of_nat (length l).
Proof.
  unfold fallbackCount. pose proof (List.filter_length_le (isFallbackEntry layers hf k) l).
  lia.
Qed.

Lemma collectLayer_inv layers hf key keyToUse visited i acc :
  collectInv layers hf keyToUse visited acc ->
  oWP (collectLayer layers hf key keyToUse i acc)
    (collectInv layers hf keyToUse (visited ++ [i])) (fun _ => True).
Proof.
  destruct acc as [[contenders offsets] n]. intros [Hn Hlen].
  assert (Hkeep : collectInv layers hf keyToUse (visited ++ [i])
                    (contenders, offsets, n)).
  { split; [exact Hn|]. rewrite length_app. simpl. lia. }
  unfold collectLayer.
  destruct (layers !! i) as [layer|] eqn:Hl; simpl; [|exact I].
  destruct (getEnabled layer && getVisible layer); simpl; [|exact Hkeep].
  destruct (negb (isKeyInLegalRange layer key)); simpl; [exact Hkeep|].
  destruct (key_valid _); simpl; [|exact Hkeep].
  set (mapped := mapResolution keyToUse (getNumColumns hf) (getTileSize layer)).
  set (best := getBestAvailableTileKey layer mapped).
  assert (Hone : fallbackCount layers hf keyToUse [mkLayerData i best (Z.of_nat i)]
                 = if negb (key_eqb mapped best) then 1 else 0).
  { unfold fallbackCount, isFallbackEntry. simpl. rewrite Hl. fold mapped.
    destruct (negb (key_eqb mapped best)); reflexivity. }
  assert (Hstep : forall c,
    (if negb (key_eqb mapped best) then wrap32 (wrap32 c + 1) else wrap32 c)
    = wrap32 (c + (if negb (key_eqb mapped best) then 1 else 0))).
  { intros c. destruct (negb (key_eqb mapped best)).
    - unfold wrap32. rewrite Zplus_mod_idemp_l. reflexivity.
    - f_equal. lia. }
  destruct (isOffset layer); simpl; split;
    rewrite ?fallbackCount_app, ?Hone, ?length_app; simpl; try lia;
    rewrite Hn, Hstep; f_equal; lia.
Qed.

Lemma collectLayers_inv layers hf key haeProfile :
  oWP (collectLayers layers hf key haeProfile)
    (collectInv layers hf (keyToUseOf key haeProfile) (downfrom (length layers)))
    (fun _ => True).
Proof.
  unfold collectLayers.
  apply (oWP_forEach_prefix
           (collectInv layers hf (keyToUseOf key haeProfile)) (fun _ => True)
           _ (downfrom (length layers)) [] ([], [], 0)).
  - split; reflexivity.
  - intros pre a s H _. apply collectLayer_inv. exact H.
Qed.

(** C8.  populateHeightFieldAndNormalMap returns false, with the output
    grid, the normal map and the layers untouched and no event of a pixel
    sweep, whenever no entry was collected or every collected entry is a
    fallback (its best available key differs from the mapped key). *)
Theorem populate_bails_out_without_sweep
    (fuel : nat) (layers : list ElevationLayer) (hf : HeightField)
    (normalMap : option NormalMap) (key : TileKey)
    (haeProfile : option Profile) (interpolation : ElevationInterpolation)
    (progress : option ProgressCallback)
    (contenders offsets : list LayerData) (numFallbackLayers : Z) :
  Z.of_nat (length layers) < 2 ^ 32 ->
  collectLayers layers hf key haeProfile
    = Ok (contenders, offsets, numFallbackLayers) ->
  (contenders = [] /\ offsets = [])
  \/ fallbackCount layers hf (keyToUseOf key haeProfile) (contenders ++ offsets)
     = Z.of_nat (length (contenders ++ offsets)) ->
  populateHeightFieldAndNormalMap fuel layers (Some hf) normalMap key
    haeProfile interpolation progress
  = Ok (false, mkWorld (Some hf) normalMap layers []).
Proof.
  intros Hsize Hcollect Hall.
  unfold populateHeightFieldAndNormalMap. rewrite Hcollect. simpl.
  destruct Hall as [[-> ->]|Hall].
  { simpl. reflexivity. }
  pose proof (oWP_ok _ _ _ _ (collectLayers_inv layers hf key haeProfile) Hcollect)
    as [Hn Hlen].
  rewrite downfrom_length in Hlen.
  rewrite fallbackCount_app, length_app in Hall.
  rewrite wrap32_small in Hn.
  2:{ pose proof (fallbackCount_bound layers hf (keyToUseOf key haeProfile) contenders).
      pose proof (fallbackCount_bound layers hf (keyToUseOf key haeProfile) offsets).
      lia. }
  assert (Heq : (Z.of_nat (length contenders) + Z.of_nat (length offsets)
                 =? numFallbackLayers) = true) by (apply Z.eqb_eq; lia).
  rewrite Heq.
  destruct (bool_decide (contenders = []) && bool_decide (offsets = []));
    reflexivity.
Qed.
End CollectFacts.

Lemma populate_bails_out_without_sweep_witness :
  @populateHeightFieldAndNormalMap Scenario.constants Scenario.externals 3
    [Scenario.fallbackLayer] (Some (allocate 2 2)) None Scenario.key None
    INTERP_BILINEAR None
  = Ok (false, mkWorld (Some (allocate 2 2)) None [Scenario.fallbackLayer] []).
Proof.
  apply (@populate_bails_out_without_sweep Scenario.constants Scenario.externals
           3 [Scenario.fallbackLayer] (allocate 2 2) None Scenario.key None
           INTERP_BILINEAR None
           [mkLayerData 0 (createParentKey Scenario.key) 0] [] 1).
  - simpl. lia.
  - reflexivity.
  - right. reflexivity.
Defined.

(** ** 4.B  createHeightField *)

Lemma oWP_trivial {A} (m : outcome A) : oWP m (fun _ => True) (fun _ => True).
Proof. destruct m; exact I. Qed.

Lemma sameButSource_refl L : sameButSource L L.
Proof. repeat split. Qed.

Lemma sameButSource_trans L1 L2 L3 :
  sameButSource L1 L2 -> sameButSource L2 L3 -> sameButSource L1 L3.
Proof.
  intros (A1 & A2 & A3 & A4 & A5) (B1 & B2 & B3 & B4 & B5).
  repeat split; congruence.
Qed.

Section FetchFrame.
Context {K : Constants} {E : Externals}.

Lemma assembleHeightField_frame
    (ci : ElevationLayer -> TileKey -> option ProgressCallback ->
          outcome (option HeightField * ElevationLayer))
    L key progress :
  (forall L0 k p, oWP (ci L0 k p) (fun r => sameButSource L0 (snd r)) notFlagFault) ->
  oWP (assembleHeightField ci L key progress)
    (fun r => sameButSource L (snd r)) notFlagFault.
Proof.
  intros Hci. unfold assembleHeightField.
  destruct (getProfile L) as [profile|]; [|exact notFlagFault_null].
  apply oWP_bind.
  eapply oWP_mono;
    [| |apply (oWP_forEach (fun acc => sameButSource L (snd acc)) notFlagFault)].
  - intros [heightFields L'] Hsame. simpl in Hsame.
    destruct heightFields as [|g gs]; [exact Hsame|].
    destruct (maxDimensions (g :: gs)) as [width height].
    apply oWP_bind.
    eapply oWP_mono;
      [| |apply (oWP_forEach (fun _ => True) notFlagFault)]; auto.
    + intros [out_hf out_nm] _. exact Hsame.
    + intros c acc _ _.
      apply oWP_forEach; [exact I|].
      intros r [hf nm] _ _.
      destruct (firstElevation _ _ _ _) as [elevation normal].
      step_as hf' Hset. step_as nm' Hnm. exact I.
  - auto.
  - apply sameButSource_refl.
  - intros layerKey [hfs L0] Hsame _. simpl in Hsame. unfold collectIntersecting.
    destruct (isKeyInLegalRange L0 layerKey); [|exact Hsame].
    apply oWP_bind.
    eapply oWP_mono; [| |apply Hci]; auto.
    intros [hf L'] H. simpl in H.
    destruct hf; simpl; eapply sameButSource_trans; eauto.
Qed.

Lemma createHeightFieldFromTileSource_frame fuel :
  forall L key progress,
    oWP (createHeightFieldFromTileSource fuel L key progress)
      (fun r => sameButSource L (snd r)) notFlagFault.
Proof.
  induction fuel as [|fuel IH]; intros L key progress; [exact I|].
  simpl.
  destruct (el_tileSource L) as [source|]; [|apply sameButSource_refl].
  destruct (blacklist_contains _ _); [apply sameButSource_refl|].
  destruct (key_profile key) as [kprofile|]; [|exact notFlagFault_null].
  destruct (getProfile L) as [lprofile|] eqn:Hlp; [|exact notFlagFault_null].
  destruct (isHorizEquivalentTo kprofile lprofile).
  - destruct (negb (mayHaveData L key)); [apply sameButSource_refl|].
    assert (Hop : sameButSource L (snd (getOrCreatePreCacheOp L))).
    { unfold getOrCreatePreCacheOp. destruct (el_preCacheOp L); repeat split. }
    destruct (getOrCreatePreCacheOp L) as [op L1]. simpl in Hop.
    destruct Hop as (A1 & A2 & A3 & A4 & A5).
    unfold TileSource_createHeightField.
    destruct (normalizeNoDataValues op _); simpl; repeat split; simpl;
      assumption.
  - apply oWP_bind.
    eapply oWP_mono; [| |apply (assembleHeightField_frame _ L key progress IH)];
      auto.
    intros [[result nm] L'] H. exact H.
Qed.

Lemma freshFetch_frame fuel L key progress fresh L1 :
  freshFetch fuel L key progress = Ok (Some (fresh, L1)) ->
  sameButSource L L1
  /\ (opt_tileSourceExpected (el_options L) = false
      \/ is_Some (el_tileSource L)).
Proof.
  unfold freshFetch, createImplementation.
  pose proof (createHeightFieldFromTileSource_frame fuel L key progress) as Hf.
  destruct (opt_tileSourceExpected (el_options L)); simpl.
  - destruct (el_tileSource L) as [ts|]; [|discriminate].
    destruct (negb (ts_isOK ts)); [discriminate|].
    destruct (createHeightFieldFromTileSource fuel L key progress)
      as [[r L']| |]; simpl; try discriminate.
    intros [= <- <-]. split; [exact Hf|right; eauto].
  - destruct (createHeightFieldFromTileSource fuel L key progress)
      as [[r L']| |]; simpl; try discriminate.
    intros [= <- <-]. split; [exact Hf|left; reflexivity].
Qed.

Lemma postProcess_options L L' key g :
  el_options L' = el_options L -> postProcess L' key g = postProcess L key g.
Proof.
  intros H. unfold postProcess, getProfile. rewrite H. reflexivity.
Qed.

Lemma postProcess_returns L lprofile key g :
  getProfile L = Some lprofile -> exists g', postProcess L key g = Ok g'.
Proof.
  intros Hp. unfold postProcess. rewrite Hp.
  destruct (opt_noDataPolicy (el_options L)); [eauto|].
  destruct (srs_vdatum (ext_srs (key_getExtent key))); simpl; [eauto|].
  destruct (srs_vdatum (prof_srs lprofile)); simpl; eauto.
Qed.

(** C9.  When the fresh fetch yields no grid, or a grid that fails
    validation, and the persistent cache held a validated but expired
    grid for the key, createHeightField returns a GeoHeightField built
    from that cached grid (stamped with the key's origin and intervals and
    post-processed), not Invalid, and writes nothing to the persistent
    cache. *)
Theorem createHeightField_falls_back_on_expired_cache
    (fuel : nat) (L L1 : ElevationLayer) (key : TileKey)
    (kprofile lprofile : Profile) (progress : option ProgressCallback)
    (bin : gmap string ReadResult) (r : ReadResult)
    (cached : HeightField) (fresh : option HeightField) :
  el_statusError L = false ->
  getEnabled L = true ->
  key_profile key = Some kprofile ->
  memCacheRead L (makeCacheKey key kprofile) = None ->
  getProfile L = Some lprofile ->
  isCacheOnly (opt_cachePolicy (el_options L)) = false ->
  isCacheReadable (opt_cachePolicy (el_options L)) = true ->
  getCacheBin L kprofile = Some bin ->
  bin !! makeCacheKey key kprofile = Some r ->
  rr_heightField r = Some cached ->
  validateHeightField (Some cached) = true ->
  isExpired (opt_cachePolicy (el_options L)) (rr_lastModifiedTime r) = true ->
  isKeyInLegalRange L key = true ->
  freshFetch fuel L key progress = Ok (Some (fresh, L1)) ->
  fresh = None \/ validateHeightField fresh = false ->
  exists g L',
    createHeightField fuel L key progress = Ok (Some g, L')
    /\ postProcess L key
         (mkGeoHeightField (stampHeightField key cached) None (key_getExtent key))
       = Ok g
    /\ el_cacheBins L' = el_cacheBins L.
Proof.
  intros Herr Hen Hkp Hmem Hlp Honly Hread Hbin Hr Hobj Hvalid Hexp Hlegal
    Hfetch Hfresh.
  destruct (freshFetch_frame _ _ _ _ _ _ Hfetch)
    as [(S1 & S2 & S3 & S4 & S5) Hsrc].
  assert (Hinvalid : match fresh with
                     | Some _ => if validateHeightField fresh then fresh else None
                     | None => None
                     end = None).
  { destruct Hfresh as [->|Hv]; [reflexivity|].
    destruct fresh; [rewrite Hv|]; reflexivity. }
  assert (Hunc : createHeightField_uncached fuel L key kprofile
                   (makeCacheKey key kprofile) progress
                 = Ok (Some (mkGeoHeightField (stampHeightField key cached) None
                               (key_getExtent key)), L1)).
  { unfold createHeightField_uncached.
    assert (Hcan : bool_decide (is_Some (el_tileSource L))
                   || negb (opt_tileSourceExpected (el_options L)) = true).
    { destruct Hsrc as [->|Hs].
      - apply orb_true_r.
      - rewrite bool_decide_eq_true_2 by exact Hs. reflexivity. }
    rewrite Hbin, Honly. rewrite Hcan. simpl.
    rewrite Hlp. rewrite bool_decide_eq_false_2 by discriminate. simpl.
    unfold readPersistentCache. rewrite Hread, Hr, Hobj, Hvalid, Hexp. simpl.
    rewrite Hlegal. simpl. rewrite Hfetch. simpl.
    rewrite Hinvalid. reflexivity. }
  destruct (postProcess_returns L lprofile key
              (mkGeoHeightField (stampHeightField key cached) None
                 (key_getExtent key)) Hlp) as [g Hg].
  unfold createHeightField. rewrite Herr, Hen, Hkp, Hmem. simpl.
  rewrite Hunc. simpl.
  destruct (el_memCache L1) as [mem|] eqn:Hm1; simpl.
  - rewrite (postProcess_options L) by (simpl; exact S1).
    rewrite Hg. simpl. eexists _, _.
    split; [reflexivity|]. split; [reflexivity|]. simpl. exact S5.
  - rewrite (postProcess_options L) by exact S1.
    rewrite Hg. simpl. eexists _, _.
    split; [reflexivity|]. split; [reflexivity|]. exact S5.
Qed.
End FetchFrame.

Lemma createHeightField_falls_back_on_expired_cache_witness :
  let L := Scenario.cachedLayer (Some (Scenario.grid 1 1 [F32.one])) in
  exists g L',
    @createHeightField Scenario.constants Scenario.externals 3 L Scenario.key None
      = Ok (Some g, L')
    /\ @postProcess Scenario.constants Scenario.externals L Scenario.key
         (mkGeoHeightField
            (@stampHeightField Scenario.externals Scenario.key
               (Scenario.constGrid (F32.of_Z 42)))
            None (@key_getExtent Scenario.externals Scenario.key))
       = Ok g
    /\ el_cacheBins L' = el_cacheBins L.
Proof.
  intros L.
  eapply (@createHeightField_falls_back_on_expired_cache Scenario.constants
            Scenario.externals 3 L _ Scenario.key Scenario.profile
            Scenario.profile None
            {[ Scenario.cacheKey :=
                 mkReadResult (Some (Scenario.constGrid (F32.of_Z 42))) 0 ]}
            (mkReadResult (Some (Scenario.constGrid (F32.of_Z 42))) 0)
            (Scenario.constGrid (F32.of_Z 42))
            (Some (Scenario.grid 1 1 [F32.one]))).
  - reflexivity.
  - reflexivity.
  - reflexivity.
  - reflexivity.
  - reflexivity.
  - reflexivity.
  - reflexivity.
  - vm_compute. reflexivity.
  - vm_compute. reflexivity.
  - reflexivity.
  - reflexivity.
  - reflexivity.
  - reflexivity.
  - vm_compute. reflexivity.
  - right. reflexivity.
Defined.

(** ** 4.D  The pixel sweep: trace and result *)

Lemma traceExt_refl (P : list event -> Prop) st : P [] -> traceExt P st st.
Proof.
  intros H. exists []. rewrite app_nil_r, orb_false_r. auto.
Qed.

Lemma traceExt_trans (P Q R : list event -> Prop) st1 st2 st3 :
  (forall e1 e2, P e1 -> Q e2 -> R (e1 ++ e2)) ->
  traceExt P st1 st2 -> traceExt Q st2 st3 -> traceExt R st1 st3.
Proof.
  intros HR (e1 & T1 & D1 & P1) (e2 & T2 & D2 & P2).
  exists (e1 ++ e2). rewrite T2, T1, D2, D1, existsb_app, app_assoc, orb_assoc.
  auto.
Qed.

Lemma traceExt_weaken (P Q : list event -> Prop) st st' :
  (forall e, P e -> Q e) -> traceExt P st st' -> traceExt Q st st'.
Proof. intros H (e & T & D & HP). exists e. auto. Qed.

Lemma contenderEvents_nil : contenderEvents [].
Proof. split; reflexivity. Qed.

Lemma contenderEvents_app e1 e2 :
  contenderEvents e1 -> contenderEvents e2 -> contenderEvents (e1 ++ e2).
Proof.
  intros [V1 A1] [V2 A2]. unfold contenderEvents, offsetVisits, offsetApplications in *.
  rewrite !omap_app, V1, V2, A1, A2. auto.
Qed.

Section SweepTrace.
Context {K : Constants} {E : Externals}.
Variable fuel : nat.
Variable key : TileKey.
Variable keySRS : SpatialReference.
Variable interpolation : ElevationInterpolation.
Variable progress : option ProgressCallback.
Variable numColumns : Z.
Variable offsets : list LayerData.

Lemma walkParents_trace n : forall i lidx actualKey layers trace,
  oWP (walkParents fuel progress n i lidx actualKey layers trace)
    (fun r => exists evs, r.2 = trace ++ evs
                          /\ existsb realUse evs = false
                          /\ contenderEvents evs)
    (fun _ => True).
Proof.
  induction n as [|n IH]; intros i lidx actualKey layers trace; [exact I|].
  simpl.
  destruct (layers !! lidx) as [layer|]; [|exact I].
  destruct (key_valid actualKey && isKeyInLegalRange layer actualKey).
  2:{ simpl. exists []. rewrite app_nil_r. auto using contenderEvents_nil. }
  apply oWP_bind.
  destruct (createHeightField fuel layer actualKey progress) as [[layerHF layer']| |];
    simpl; try exact I.
  destruct layerHF as [g|]; simpl.
  - eexists [_]. split; [reflexivity|]. split; [reflexivity|split; reflexivity].
  - eapply oWP_mono; [| |apply IH]; auto.
    intros [[[g k] ls] tr] (evs & -> & Hr & Hc). simpl.
    eexists (_ :: evs). rewrite <- app_assoc. split; [reflexivity|].
    split; [exact Hr|]. destruct Hc as [Hv Ha]. split; assumption.
Qed.

Lemma clearHeightFieldCache_trace st :
  oWP (clearHeightFieldCache st)
    (fun st' => sw_trace st' = sw_trace st /\ sw_realData st' = sw_realData st)
    (fun _ => True).
Proof.
  unfold clearHeightFieldCache. apply oWP_bind.
  eapply oWP_mono;
    [| |apply (oWP_forEach
                 (fun s => sw_trace s = sw_trace st /\ sw_realData s = sw_realData st)
                 (fun _ => True))]; auto.
  - intros j st1 H1 _. apply oWP_bind.
    destruct (readAt SlotIndexOutOfBounds (sw_heightFields st1) j) as [row| |];
      simpl; try exact I.
    apply oWP_forEach; [exact H1|].
    intros k st2 H2 _. apply oWP_bind.
    destruct (write2 _ _ _ _ _) as [hfs| |]; simpl; try exact I.
    apply oWP_bind.
    destruct (write2 _ _ _ _ _) as [fbs| |]; simpl; try exact I.
    exact H2.
Qed.

Lemma loadContender_trace i ld st :
  oWP (loadContender fuel progress i ld st)
    (fun r => traceExt (fun evs => existsb realUse evs = false /\ contenderEvents evs)
                st r.2)
    (fun _ => True).
Proof.
  unfold loadContender.
  generalize (2 + N.to_nat (key_lod (ld_key ld)))%nat. intros n.
  apply oWP_bind.
  destruct (read2 _ _ _ _) as [layerHF| |]; simpl; try exact I.
  destruct layerHF as [g|]; simpl.
  { apply traceExt_refl. auto using contenderEvents_nil. }
  apply oWP_bind.
  eapply oWP_mono; [| |apply walkParents_trace]; auto.
  intros [[[fetched actualKey] layers'] trace'] (evs & Ht & Hr & Hc).
  simpl in Ht. subst trace'. simpl.
  apply oWP_bind. destruct (writeAt _ _ _ _) as [conts| |]; simpl; try exact I.
  apply oWP_bind. destruct (write2 _ _ _ _ _) as [hfs| |]; simpl; try exact I.
  assert (Hext : forall st', sw_trace st' = sw_trace st ++ evs ->
                             sw_realData st' = sw_realData st ->
                             traceExt (fun evs => existsb realUse evs = false
                                                  /\ contenderEvents evs) st st').
  { intros st' T D. exists evs. rewrite T, D, Hr, orb_false_r. auto. }
  destruct fetched as [g|]; simpl.
  - apply oWP_bind. destruct (write2 _ _ _ _ _) as [fbs| |]; simpl; try exact I.
    apply Hext; reflexivity.
  - apply oWP_bind. destruct (write2 _ _ _ _ _) as [fls| |]; simpl; try exact I.
    apply Hext; reflexivity.
Qed.

Lemma sampleContender_trace px i g st :
  oWP (sampleContender key keySRS interpolation numColumns px i g st)
    (fun r => traceExt contenderEvents st r.1)
    (fun _ => True).
Proof.
  unfold sampleContender. apply oWP_bind.
  destruct (readAt _ _ _) as [ld| |]; simpl; try exact I.
  apply oWP_bind.
  destruct (read2 _ _ _ _) as [isFallback| |]; simpl; try exact I.
  set (sampled := getElevation g keySRS (px_x px) (px_y px) interpolation keySRS).
  assert (Hext : forall st' tail,
            sw_trace st' = sw_trace st
                           ++ EvSample false i isFallback (px_c px) (px_r px) sampled
                              :: tail ->
            sw_realData st' = sw_realData st || negb isFallback ->
            existsb realUse tail = false -> contenderEvents tail ->
            traceExt contenderEvents st st').
  { intros st' tail T D Hr [Hv Ha]. eexists. split; [exact T|].
    split; [rewrite D; simpl; rewrite Hr, orb_false_r; reflexivity|].
    split; simpl; assumption. }
  assert (Hd : sw_realData (if negb isFallback then set_realData st true else st)
               = sw_realData st || negb isFallback).
  { destruct isFallback; simpl; [rewrite orb_false_r|rewrite orb_true_r]; reflexivity. }
  assert (Ht : sw_trace (if negb isFallback then set_realData st true else st)
               = sw_trace st).
  { destruct isFallback; reflexivity. }
  destruct sampled as [elevation|] eqn:Hs; simpl.
  - destruct (F32.neqb elevation NO_DATA_VALUE); simpl.
    + apply oWP_bind. destruct (setHeight _ _ _ _) as [hf'| |]; simpl; try exact I.
      apply oWP_bind. destruct (writeAt _ _ _ _) as [dl| |]; simpl; try exact I.
      eapply (Hext _ [_]); simpl; rewrite ?Ht, ?Hd, <- ?app_assoc; try reflexivity.
      split; reflexivity.
    + eapply (Hext _ []); simpl; rewrite ?Ht, ?Hd; try reflexivity.
      apply contenderEvents_nil.
  - eapply (Hext _ []); simpl; rewrite ?Ht, ?Hd; try reflexivity.
    apply contenderEvents_nil.
Qed.

Lemma contenderBody_trace px i st :
  oWP (contenderBody fuel key keySRS interpolation progress numColumns px i st)
    (fun r => traceExt contenderEvents st r.1)
    (fun _ => True).
Proof.
  unfold contenderBody. apply oWP_bind.
  destruct (readAt _ _ _) as [ld| |]; simpl; try exact I.
  apply oWP_bind.
  destruct (read2 _ _ _ _) as [failed| |]; simpl; try exact I.
  destruct failed; simpl.
  { apply traceExt_refl, contenderEvents_nil. }
  apply oWP_bind.
  eapply oWP_mono; [| |apply loadContender_trace]; auto.
  intros [layerHF st1] H1. simpl in H1.
  apply (traceExt_weaken _ contenderEvents) in H1; [|intros e [_ H]; exact H].
  destruct layerHF as [g|]; simpl; [|exact H1].
  apply oWP_bind.
  eapply oWP_mono; [| |apply sampleContender_trace]; auto.
  intros [st2 resolvedIndex] H2. simpl in H2.
  assert (H12 : traceExt contenderEvents st st2).
  { eapply traceExt_trans; [|exact H1|exact H2]. apply contenderEvents_app. }
  destruct (sw_numHeightFieldsInCache st2 >=? maxHeightFields); simpl; [|exact H12].
  apply oWP_bind.
  eapply oWP_mono; [| |apply clearHeightFieldCache_trace]; auto.
  intros st3 [T D]. simpl.
  destruct H12 as (evs & T2 & D2 & HP). exists evs. rewrite T, D. auto.
Qed.

Lemma contenderLoop_trace px indices : forall st resolvedIndex,
  oWP (contenderLoop fuel key keySRS interpolation progress numColumns px indices
         st resolvedIndex)
    (fun r => traceExt contenderEvents st r.1)
    (fun _ => True).
Proof.
  induction indices as [|i rest IH]; intros st resolvedIndex; simpl.
  { apply traceExt_refl, contenderEvents_nil. }
  destruct (resolvedIndex <? 0); simpl; [|apply traceExt_refl, contenderEvents_nil].
  apply oWP_bind.
  eapply oWP_mono; [| |apply contenderBody_trace]; auto.
  intros [st1 r1] H1. simpl in H1.
  eapply oWP_mono; [| |apply IH]; auto.
  intros [st2 r2] H2. simpl in *.
  eapply traceExt_trans; [|exact H1|exact H2]. apply contenderEvents_app.
Qed.

Lemma loadOffset_trace iz ld st :
  oWP (loadOffset fuel progress iz ld st)
    (fun r => exists pre,
                sw_trace r.2 = sw_trace st ++ pre
                /\ sw_realData r.2 = sw_realData st
                /\ existsb realUse pre = false /\ contenderEvents pre)
    (fun _ => True).
Proof.
  unfold loadOffset. apply oWP_bind.
  destruct (read2 _ _ _ _) as [layerHF| |]; simpl; try exact I.
  destruct layerHF as [g|]; simpl.
  { exists []. rewrite app_nil_r. auto using contenderEvents_nil. }
  destruct (sw_layers st !! ld_layer ld) as [offset|]; simpl; [|exact I].
  apply oWP_bind.
  destruct (createHeightField fuel offset (ld_key ld) progress)
    as [[fetched offset']| |]; simpl; try exact I.
  apply oWP_bind. destruct (write2 _ _ _ _ _) as [ofs| |]; simpl; try exact I.
  destruct fetched as [g|]; simpl.
  - eexists [_]. simpl. repeat split; reflexivity.
  - apply oWP_bind. destruct (write2 _ _ _ _ _) as [fls| |]; simpl; try exact I.
    eexists [_]. simpl. repeat split; reflexivity.
Qed.

Lemma sampleOffset_trace px iz ld g st :
  oWP (sampleOffset key keySRS interpolation numColumns px iz ld g st)
    (fun st' => exists tail,
                  sw_trace st' = sw_trace st ++ tail
                  /\ sw_realData st' = true
                  /\ existsb realUse tail = true
                  /\ offsetVisits tail = [iz]
                  /\ (offsetApplications tail = [] \/ offsetApplications tail = [iz]))
    (fun _ => True).
Proof.
  unfold sampleOffset.
  set (sampled := getElevation g keySRS (px_x px) (px_y px) interpolation keySRS).
  destruct sampled as [elevation|]; simpl.
  - destruct (F32.neqb elevation NO_DATA_VALUE); simpl.
    + apply oWP_bind. destruct (getHeight _ _ _) as [old| |]; simpl; try exact I.
      apply oWP_bind. destruct (setHeight _ _ _ _) as [hf'| |]; simpl; try exact I.
      apply oWP_bind. destruct (writeAt _ _ _ _) as [dl| |]; simpl; try exact I.
      eexists [_; _]. rewrite <- app_assoc. simpl. repeat split; auto.
    + eexists [_]. simpl. repeat split; auto.
  - eexists [_]. simpl. repeat split; auto.
Qed.

Lemma offsetBody_trace px resolvedIndex i st :
  oWP (offsetBody fuel key keySRS interpolation progress numColumns offsets px
         resolvedIndex i st)
    (fun st' => traceExt (offsetEvents (Z.of_nat i)) st st')
    (fun _ => True).
Proof.
  assert (Hnil : offsetEvents (Z.of_nat i) []) by (split; left; reflexivity).
  unfold offsetBody. apply oWP_bind.
  destruct (readAt _ _ _) as [ld| |]; simpl; try exact I.
  destruct ((resolvedIndex >=? 0) && (ld_index ld <? resolvedIndex)); simpl.
  { apply traceExt_refl, Hnil. }
  apply oWP_bind.
  destruct (read2 _ _ _ _) as [failed| |]; simpl; try exact I.
  destruct failed; simpl.
  { apply traceExt_refl, Hnil. }
  apply oWP_bind.
  eapply oWP_mono; [| |apply loadOffset_trace]; auto.
  intros [layerHF st1] (pre & T1 & D1 & R1 & V1 & A1). simpl in *.
  destruct layerHF as [g|].
  - eapply oWP_mono; [| |apply sampleOffset_trace]; auto.
    intros st' (tail & T2 & D2 & R2 & V2 & A2). simpl in *.
    exists (pre ++ tail). rewrite T2, T1, D2, existsb_app, R2, <- app_assoc.
    rewrite !orb_true_r. repeat split.
    + unfold offsetVisits in *. rewrite omap_app, V1, V2. auto.
    + unfold offsetApplications in *. rewrite omap_app, A1. exact A2.
  - exists pre. rewrite T1, D1, R1, orb_false_r. repeat split.
    + left. exact V1.
    + left. exact A1.
Qed.

Lemma sublist_StronglySorted {A} (R : A -> A -> Prop) (l1 l2 : list A) :
  l1 `sublist_of` l2 -> StronglySorted R l2 -> StronglySorted R l1.
Proof.
  induction 1 as [|x l1 l2 Hsub IH|x l1 l2 Hsub IH]; intros Hs.
  - constructor.
  - inversion Hs as [|? ? Hs' Hall]; subst. constructor; [auto|].
    rewrite Forall_forall in *. intros y Hy. apply Hall.
    eapply sublist_subseteq; eauto.
  - inversion Hs; subst. auto.
Qed.

Lemma downfrom_descending n : StronglySorted Z.gt (Z.of_nat <$> downfrom n).
Proof.
  unfold downfrom. induction n as [|n IH]; [constructor|].
  rewrite seq_S, rev_app_distr. simpl. constructor; [exact IH|].
  rewrite Forall_fmap, Forall_forall. intros i Hi. simpl.
  apply list_elem_of_In, in_rev, in_seq in Hi. lia.
Qed.

(** What the offset loop has added after the entries [pre]. *)
Lemma offsetLoop_trace px resolvedIndex st :
  oWP (forEach (downfrom (length offsets))
         (offsetBody fuel key keySRS interpolation progress numColumns offsets px
            resolvedIndex) st)
    (traceExt (fun evs =>
                 offsetVisits evs `sublist_of` (Z.of_nat <$> downfrom (length offsets))
                 /\ offsetApplications evs
                    `sublist_of` (Z.of_nat <$> downfrom (length offsets))) st)
    (fun _ => True).
Proof.
  apply (oWP_forEach_prefix
           (fun pre => traceExt (fun evs =>
                         offsetVisits evs `sublist_of` (Z.of_nat <$> pre)
                         /\ offsetApplications evs `sublist_of` (Z.of_nat <$> pre)) st)
           (fun _ => True) _ (downfrom (length offsets)) [] st).
  - apply traceExt_refl. split; constructor.
  - intros pre i s Hs _.
    eapply oWP_mono; [| |apply offsetBody_trace]; auto.
    intros s' Hs'. simpl.
    eapply traceExt_trans; [|exact Hs|exact Hs'].
    intros e1 e2 [V1 A1] [V2 A2]. unfold offsetVisits, offsetApplications in *.
    rewrite !omap_app, fmap_app. simpl. split; apply sublist_app; auto.
    + destruct V2 as [->| ->]; [apply sublist_nil_l|reflexivity].
    + destruct A2 as [->| ->]; [apply sublist_nil_l|reflexivity].
Qed.

Lemma sweepPixel_trace px st :
  oWP (sweepPixel fuel key keySRS interpolation progress numColumns offsets px st)
    (traceExt (fun evs =>
                 offsetVisits evs `sublist_of` (Z.of_nat <$> downfrom (length offsets))
                 /\ offsetApplications evs
                    `sublist_of` (Z.of_nat <$> downfrom (length offsets))) st)
    (fun _ => True).
Proof.
  unfold sweepPixel. apply oWP_bind.
  eapply oWP_mono; [| |apply contenderLoop_trace]; auto.
  intros [st1 resolvedIndex] H1. simpl in H1.
  eapply oWP_mono; [| |apply offsetLoop_trace]; auto.
  intros st2 H2. simpl.
  eapply traceExt_trans; [|exact H1|exact H2].
  intros e1 e2 [V1 A1] [V2 A2]. unfold offsetVisits, offsetApplications in *.
  rewrite !omap_app, V1, A1. simpl. auto.
Qed.

(** C3 (as amended).  At every pixel the offset entries are visited from
    the highest stored index down to the lowest (offsets[size-1] first,
    offsets[0] last): the stored indices of the entries whose grids are
    sampled, and of those whose samples are added to the height, are
    strictly decreasing along the events of the pixel. *)
Theorem offsets_visited_in_decreasing_index_order (px : Pixel) (st st' : Sweep) :
  sweepPixel fuel key keySRS interpolation progress numColumns offsets px st = Ok st' ->
  exists evs,
    sw_trace st' = sw_trace st ++ evs
    /\ StronglySorted Z.gt (offsetVisits evs)
    /\ StronglySorted Z.gt (offsetApplications evs).
Proof.
  intros Hrun.
  destruct (oWP_ok _ _ _ _ (sweepPixel_trace px st) Hrun) as (evs & T & _ & V & A).
  exists evs. split; [exact T|].
  split; eapply sublist_StronglySorted; eauto using downfrom_descending.
Qed.

Lemma sweepAll_trace xmin ymin dx dy numRows st :
  oWP (sweepAll fuel key keySRS interpolation progress numColumns offsets
         xmin ymin dx dy numRows st)
    (traceExt (fun _ => True) st) (fun _ => True).
Proof.
  unfold sweepAll.
  apply oWP_forEach; [apply traceExt_refl; exact I|].
  intros c s Hs _.
  apply oWP_forEach; [exact Hs|].
  intros r s' Hs' _.
  eapply oWP_mono; [| |apply sweepPixel_trace]; auto.
  intros s'' H. simpl.
  eapply traceExt_trans; [|exact Hs'|exact H]. auto.
Qed.
End SweepTrace.

Section PopulateResult.
Context {K : Constants} {E : Externals}.

(** C1 (as amended).  The result is true exactly when, at some pixel of
    the sweep, the grid of an offset entry, or the grid of a contender whose
    fallback flag was unset, was available for sampling; whether that grid
    then contributed a sample does not matter. *)
Theorem populate_true_iff_real_use
    (fuel : nat) (layers : list ElevationLayer) (hf : option HeightField)
    (normalMap : option NormalMap) (key : TileKey)
    (haeProfile : option Profile) (interpolation : ElevationInterpolation)
    (progress : option ProgressCallback) (b : bool) (w : World) :
  populateHeightFieldAndNormalMap fuel layers hf normalMap key haeProfile
    interpolation progress = Ok (b, w) ->
  (b = true <-> exists ev, In ev (w_trace w) /\ realUse ev = true).
Proof.
  intros Hrun. rewrite <- existsb_exists.
  cut (b = existsb realUse (w_trace w)).
  { intros ->. reflexivity. }
  revert Hrun. unfold populateHeightFieldAndNormalMap.
  destruct hf as [hf0|]; [|intros [= <- <-]; reflexivity].
  destruct (collectLayers layers hf0 key haeProfile)
    as [[[contenders offsets] numFallbackLayers]| |]; simpl; try discriminate.
  destruct (bool_decide (contenders = []) && bool_decide (offsets = []));
    [intros [= <- <-]; reflexivity|].
  destruct (_ =? numFallbackLayers); [intros [= <- <-]; reflexivity|].
  destruct (key_profile (keyToUseOf key haeProfile)) as [profile|]; [|discriminate].
  match goal with
  | |- context [sweepAll ?a ?b ?c ?d ?e ?f ?g ?h ?i ?j ?k ?l ?m] =>
      pose proof (sweepAll_trace a b c d e f g h i j k l m) as Hsweep;
      destruct (sweepAll a b c d e f g h i j k l m) as [st| |]
  end; simpl; try discriminate.
  destruct Hsweep as (evs & T & D & _). simpl in T, D.
  destruct normalMap as [nm|]; simpl.
  - destruct (createNormalMap _ _ _ _) as [nm'| |]; simpl; try discriminate.
    intros [= <- <-]. simpl. rewrite T, D. reflexivity.
  - intros [= <- <-]. simpl. rewrite T, D. reflexivity.
Qed.
End PopulateResult.

(** C3, the claim as stated fails: with the two offset layers of
    [Scenario.fiveAndSeven] the first pixel samples and adds offsets[1]
    before offsets[0]. *)
Lemma offsets_not_visited_in_increasing_order :
  exists st',
    @sweepPixel Scenario.constants Scenario.externals 3 Scenario.key
      Scenario.srs INTERP_BILINEAR None 2 Scenario.fiveAndSevenOffsets
      Scenario.firstPixel
      (initialSweep Scenario.fiveAndSeven [] Scenario.fiveAndSevenOffsets
         (allocate 2 2))
    = Ok st'
    /\ offsetVisits (sw_trace st') = [1; 0]
    /\ offsetApplications (sw_trace st') = [1; 0]
    /\ ~ StronglySorted Z.lt (offsetApplications (sw_trace st'))
    /\ exists w,
         @populateHeightFieldAndNormalMap Scenario.constants Scenario.externals
           3 Scenario.fiveAndSeven (Some (allocate 2 2)) None Scenario.key None
           INTERP_BILINEAR None = Ok (true, w)
         /\ offsetApplications (take 6 (w_trace w)) = [1; 0].
Proof.
  eexists. split; [vm_compute; reflexivity|].
  split; [vm_compute; reflexivity|].
  split; [vm_compute; reflexivity|].
  split.
  - vm_compute. intros H. inversion H as [|? ? _ Hall]; subst.
    inversion Hall as [|? ? Hlt _]; subst. discriminate Hlt.
  - eexists. split; vm_compute; reflexivity.
Qed.

Lemma offsets_visited_in_decreasing_index_order_witness :
  exists st',
    @sweepPixel Scenario.constants Scenario.externals 3 Scenario.key
      Scenario.srs INTERP_BILINEAR None 2 Scenario.fiveAndSevenOffsets
      Scenario.firstPixel
      (initialSweep Scenario.fiveAndSeven [] Scenario.fiveAndSevenOffsets
         (allocate 2 2))
    = Ok st'
    /\ exists evs,
         sw_trace st' = [] ++ evs
         /\ StronglySorted Z.gt (offsetVisits evs)
         /\ StronglySorted Z.gt (offsetApplications evs).
Proof.
  eexists. split; [vm_compute; reflexivity|].
  apply (@offsets_visited_in_decreasing_index_order Scenario.constants
           Scenario.externals 3 Scenario.key Scenario.srs INTERP_BILINEAR None 2
           Scenario.fiveAndSevenOffsets Scenario.firstPixel
           (initialSweep Scenario.fiveAndSeven [] Scenario.fiveAndSevenOffsets
              (allocate 2 2))).
  vm_compute. reflexivity.
Defined.

(** C1, the claim as stated fails: an offset layer whose grid is fetched
    but holds no valid sample makes the result true although no sample is
    written and the output grid is unchanged. *)
Lemma populate_true_without_written_sample :
  exists w,
    @populateHeightFieldAndNormalMap Scenario.constants Scenario.externals 3
      Scenario.nanOffset (Some (allocate 2 2)) None Scenario.key None
      INTERP_BILINEAR None = Ok (true, w)
    /\ existsb realWrite (w_trace w) = false
    /\ w_hf w = Some (allocate 2 2).
Proof.
  eexists. split; [vm_compute; reflexivity|].
  split; vm_compute; reflexivity.
Qed.

Lemma populate_true_iff_real_use_witness :
  exists w,
    @populateHeightFieldAndNormalMap Scenario.constants Scenario.externals 3
      Scenario.nanOffset (Some (allocate 2 2)) None Scenario.key None
      INTERP_BILINEAR None = Ok (true, w)
    /\ (true = true <-> exists ev, In ev (w_trace w) /\ realUse ev = true).
Proof.
  eexists. split; [vm_compute; reflexivity|].
  apply (@populate_true_iff_real_use Scenario.constants Scenario.externals 3
           Scenario.nanOffset (Some (allocate 2 2)) None Scenario.key None
           INTERP_BILINEAR None).
  vm_compute. reflexivity.
Defined.

(** ** 4.D  The pixel sweep: subscripts of the flag vectors *)

Section FetchFaults.
Context {K : Constants} {E : Externals}.

Lemma createHeightField_notFlag fuel L key progress :
  oWP (createHeightField fuel L key progress) (fun _ => True) notFlagFault.
Proof.
  unfold createHeightField.
  destruct (el_statusError L); [exact I|].
  destruct (negb (getEnabled L)); [exact I|].
  destruct (key_profile key) as [kprofile|]; [|exact notFlagFault_null].
  apply oWP_bind.
  assert (Hpost : forall L2 g,
            oWP (g' ← postProcess L2 key g; Ok (Some g', L2))
              (fun _ => True) notFlagFault).
  { intros L2 g. apply oWP_bind. unfold postProcess.
    destruct (opt_noDataPolicy (el_options L2)); [exact I|].
    apply oWP_bind.
    destruct (srs_vdatum (ext_srs (key_getExtent key))); [exact I|].
    destruct (getProfile L2) as [p|]; [|exact notFlagFault_null].
    destruct (srs_vdatum (prof_srs p)); exact I. }
  destruct (memCacheRead L _) as [h|]; simpl.
  { destruct (el_memCache L); apply Hpost. }
  apply oWP_bind. unfold createHeightField_uncached.
  destruct (negb _); [simpl; exact I|].
  destruct (_ && _); [simpl; exact I|].
  destruct (readPersistentCache _ _ _) as [[hf cachedHF] fromCache].
  destruct hf as [h|]; simpl.
  { destruct (el_memCache L); apply Hpost. }
  destruct (isCacheOnly _); [simpl; exact I|].
  destruct (negb (isKeyInLegalRange L key)); [simpl; exact I|].
  apply oWP_bind.
  assert (Hfetch : oWP (freshFetch fuel L key progress) (fun _ => True) notFlagFault).
  { unfold freshFetch, createImplementation.
    pose proof (createHeightFieldFromTileSource_frame fuel L key progress) as Hf.
    destruct (negb _).
    - apply oWP_bind. eapply oWP_mono; [| |exact Hf]; simpl; auto.
    - destruct (el_tileSource L) as [ts|]; [|exact I].
      destruct (negb (ts_isOK ts)); [exact I|].
      apply oWP_bind. eapply oWP_mono; [| |exact Hf]; simpl; auto. }
  eapply oWP_mono; [| |exact Hfetch]; auto.
  intros [[hf1 L1]|] _; simpl; [|exact I].
  match goal with
  | |- context [match ?x with Some h => _ | None => Ok (None, ?L2) end] =>
      destruct x as [h|]; simpl; [|exact I]
  end.
  match goal with
  | |- context [el_memCache ?L2] => destruct (el_memCache L2); apply Hpost
  end.
Qed.
End FetchFaults.

Lemma flagShape_frame nc st st' :
  sw_heightFallback st' = sw_heightFallback st ->
  sw_heightFailed st' = sw_heightFailed st ->
  sw_offsetFailed st' = sw_offsetFailed st ->
  sw_heightFields st' = sw_heightFields st ->
  sw_contenders st' = sw_contenders st ->
  flagShape nc st -> flagShape nc st'.
Proof. unfold flagShape. intros -> -> -> -> ->. auto. Qed.

Section SweepShape.
Context {K : Constants} {E : Externals}.
Variable fuel : nat.
Variable key : TileKey.
Variable keySRS : SpatialReference.
Variable interpolation : ElevationInterpolation.
Variable progress : option ProgressCallback.
Variable numColumns : Z.
Variable offsets : list LayerData.
Variable nc : nat.
Hypothesis nc_small : (nc <= 9)%nat.
Hypothesis offsets_small : (length offsets <= 9)%nat.

Lemma walkParents_notFlag n : forall i lidx actualKey layers trace,
  oWP (walkParents fuel progress n i lidx actualKey layers trace)
    (fun _ => True) notFlagFault.
Proof.
  induction n as [|n IH]; intros i lidx actualKey layers trace; [exact I|].
  simpl.
  destruct (layers !! lidx) as [layer|]; [|exact notFlagFault_null].
  destruct (key_valid actualKey && isKeyInLegalRange layer actualKey); [|exact I].
  apply oWP_bind.
  eapply oWP_mono; [| |apply createHeightField_notFlag]; auto.
  intros [layerHF layer'] _. destruct layerHF; simpl; [exact I|apply IH].
Qed.

Lemma loadContender_shape i ld st :
  flagShape nc st -> 0 <= i < Z.of_nat nc ->
  oWP (loadContender fuel progress i ld st)
    (fun r => flagShape nc r.2) notFlagFault.
Proof.
  intros Hst Hi. unfold loadContender.
  generalize (2 + N.to_nat (key_lod (ld_key ld)))%nat. intros n.
  step_as layerHF Hread.
  destruct layerHF as [g|]; simpl; [exact Hst|].
  apply oWP_bind.
  eapply oWP_mono; [| |apply walkParents_notFlag]; auto.
  intros [[[fetched actualKey] layers'] trace'] _.
  destruct Hst as (S1 & S2 & S3 & S4 & S5).
  step_as conts Hconts. apply writeAt_length in Hconts.
  step_as hfs Hhfs. apply (write2_shape _ _ _ nc) in Hhfs; [|exact S4].
  destruct fetched as [g|]; simpl.
  - destruct (write2_ok FlagIndexOutOfBounds (sw_heightFallback st) 9 centerSlot i
                (negb (key_eqb actualKey actualKey)) S1) as (fbs & -> & Hfbs);
      [unfold centerSlot; lia|lia|].
    simpl. repeat split; simpl; try tauto; try apply S1; try apply S2;
      try apply S3; try apply Hhfs; try apply Hfbs; congruence.
  - destruct (write2_ok FlagIndexOutOfBounds (sw_heightFailed st) 9 centerSlot i
                true S2) as (fls & -> & Hfls);
      [unfold centerSlot; lia|lia|].
    simpl. repeat split; simpl; try apply S1; try apply S2;
      try apply S3; try apply Hhfs; try apply Hfls; congruence.
Qed.

Lemma sampleContender_shape px i g st :
  flagShape nc st -> 0 <= i < Z.of_nat nc ->
  oWP (sampleContender key keySRS interpolation numColumns px i g st)
    (fun r => flagShape nc r.1) notFlagFault.
Proof.
  intros Hst Hi. unfold sampleContender.
  step_as ld Hld.
  destruct (read2_ok FlagIndexOutOfBounds (sw_heightFallback st) 9 centerSlot i)
    as [isFallback Hfb]; [apply Hst|unfold centerSlot; lia|lia|].
  apply oWP_bind. rewrite Hfb. simpl.
  assert (Hst1 : flagShape nc (if negb isFallback then set_realData st true else st)).
  { destruct isFallback; simpl; [exact Hst|].
    eapply flagShape_frame; [..|exact Hst]; reflexivity. }
  revert Hst1. generalize (if negb isFallback then set_realData st true else st).
  intros st1 Hst1.
  destruct (getElevation g keySRS (px_x px) (px_y px) interpolation keySRS)
    as [elevation|]; simpl.
  - destruct (F32.neqb elevation NO_DATA_VALUE); simpl.
    + step_as hf' Hset. step_as dl Hdl.
      eapply flagShape_frame; [..|exact Hst1]; reflexivity.
    + eapply flagShape_frame; [..|exact Hst1]; reflexivity.
  - eapply flagShape_frame; [..|exact Hst1]; reflexivity.
Qed.

Lemma clearHeightFieldCache_shape st :
  flagShape nc st ->
  oWP (clearHeightFieldCache st) (flagShape nc) notFlagFault.
Proof.
  intros Hst. unfold clearHeightFieldCache. apply oWP_bind.
  eapply oWP_mono; [| |apply (oWP_forEach (flagShape nc) notFlagFault)]; auto.
  intros j st1 H1 Hj. apply upto_In in Hj.
  step_as row Hrow. apply readAt_Some in Hrow as [_ Hrow].
  assert (Hlen : length row = nc).
  { eapply gridRows_row; [|exact Hrow]. apply H1. }
  rewrite Hlen.
  apply oWP_forEach; [exact H1|].
  intros k st2 H2 Hk. apply upto_In in Hk.
  destruct H2 as (S1 & S2 & S3 & S4 & S5).
  step_as hfs Hhfs. apply (write2_shape _ _ _ nc) in Hhfs; [|exact S4].
  destruct (write2_ok FlagIndexOutOfBounds (sw_heightFallback st2) 9 j k false S1)
    as (fbs & Hrun & Hfbs); [lia|lia|].
  apply oWP_bind. rewrite Hrun. simpl.
  repeat split; simpl; try apply S2; try apply S3; try apply Hhfs;
    try apply Hfbs; assumption.
Qed.

Lemma contenderBody_shape px i st :
  flagShape nc st -> 0 <= i < Z.of_nat nc ->
  oWP (contenderBody fuel key keySRS interpolation progress numColumns px i st)
    (fun r => flagShape nc r.1) notFlagFault.
Proof.
  intros Hst Hi. unfold contenderBody.
  step_as ld Hld.
  destruct (read2_ok FlagIndexOutOfBounds (sw_heightFailed st) 9 centerSlot i)
    as [failed Hf]; [apply Hst|unfold centerSlot; lia|lia|].
  apply oWP_bind. rewrite Hf. simpl.
  destruct failed; simpl; [exact Hst|].
  apply oWP_bind.
  eapply oWP_mono; [| |apply loadContender_shape]; auto.
  intros [layerHF st1] H1. simpl in H1.
  destruct layerHF as [g|]; simpl; [|exact H1].
  apply oWP_bind.
  eapply oWP_mono; [| |apply sampleContender_shape]; auto.
  intros [st2 resolvedIndex] H2. simpl in H2.
  destruct (sw_numHeightFieldsInCache st2 >=? maxHeightFields); simpl; [|exact H2].
  apply oWP_bind.
  eapply oWP_mono; [| |apply clearHeightFieldCache_shape]; auto.
Qed.

Lemma contenderLoop_shape px indices : forall st resolvedIndex,
  flagShape nc st -> Forall (fun i => 0 <= i < Z.of_nat nc) indices ->
  oWP (contenderLoop fuel key keySRS interpolation progress numColumns px indices
         st resolvedIndex)
    (fun r => flagShape nc r.1) notFlagFault.
Proof.
  induction indices as [|i rest IH]; intros st resolvedIndex Hst Hall; simpl.
  { exact Hst. }
  inversion Hall as [|? ? Hi Hrest]; subst.
  destruct (resolvedIndex <? 0); simpl; [|exact Hst].
  apply oWP_bind.
  eapply oWP_mono; [| |apply contenderBody_shape]; auto.
  intros [st1 r1] H1. simpl in H1. apply IH; assumption.
Qed.

Lemma loadOffset_shape i ld st :
  flagShape nc st -> 0 <= i < 9 ->
  oWP (loadOffset fuel progress i ld st)
    (fun r => flagShape nc r.2) notFlagFault.
Proof.
  intros Hst Hi. unfold loadOffset.
  step_as layerHF Hread.
  destruct layerHF as [g|]; simpl; [exact Hst|].
  destruct (sw_layers st !! ld_layer ld) as [offset|]; simpl;
    [|exact notFlagFault_null].
  apply oWP_bind.
  eapply oWP_mono; [| |apply createHeightField_notFlag]; auto.
  intros [fetched offset'] _.
  step_as ofs Hofs.
  destruct fetched as [g|]; simpl.
  - eapply flagShape_frame; [..|exact Hst]; reflexivity.
  - destruct Hst as (S1 & S2 & S3 & S4 & S5).
    destruct (write2_ok FlagIndexOutOfBounds (sw_offsetFailed st) 9 centerSlot i
                true S3) as (fls & Hrun & Hfls);
      [unfold centerSlot; lia|lia|].
    apply oWP_bind. simpl. rewrite Hrun. simpl.
    repeat split; simpl; try apply S1; try apply S2; try apply S4;
      try apply Hfls; assumption.
Qed.

Lemma sampleOffset_shape px i ld g st :
  flagShape nc st ->
  oWP (sampleOffset key keySRS interpolation numColumns px i ld g st)
    (flagShape nc) notFlagFault.
Proof.
  intros Hst. unfold sampleOffset.
  destruct (getElevation g keySRS (px_x px) (px_y px) interpolation keySRS)
    as [elevation|]; simpl.
  - destruct (F32.neqb elevation NO_DATA_VALUE); simpl.
    + step_as old Hold. step_as hf' Hset. step_as dl Hdl.
      eapply flagShape_frame; [..|exact Hst]; reflexivity.
    + eapply flagShape_frame; [..|exact Hst]; reflexivity.
  - eapply flagShape_frame; [..|exact Hst]; reflexivity.
Qed.

Lemma offsetBody_shape px resolvedIndex i st :
  flagShape nc st -> (i < length offsets)%nat ->
  oWP (offsetBody fuel key keySRS interpolation progress numColumns offsets px
         resolvedIndex i st)
    (flagShape nc) notFlagFault.
Proof.
  intros Hst Hi. unfold offsetBody.
  step_as ld Hld.
  destruct ((resolvedIndex >=? 0) && (ld_index ld <? resolvedIndex)); simpl;
    [exact Hst|].
  destruct (read2_ok FlagIndexOutOfBounds (sw_offsetFailed st) 9 centerSlot
              (Z.of_nat i)) as [failed Hf];
    [apply Hst|unfold centerSlot; lia|lia|].
  apply oWP_bind. rewrite Hf. simpl.
  destruct failed; simpl; [exact Hst|].
  apply oWP_bind.
  eapply oWP_mono; [| |apply loadOffset_shape]; auto; [|lia].
  intros [layerHF st1] H1. simpl in H1.
  destruct layerHF as [g|]; simpl; [|exact H1].
  apply sampleOffset_shape. exact H1.
Qed.

Lemma sweepPixel_shape px st :
  flagShape nc st ->
  oWP (sweepPixel fuel key keySRS interpolation progress numColumns offsets px st)
    (flagShape nc) notFlagFault.
Proof.
  intros Hst. unfold sweepPixel. apply oWP_bind.
  eapply oWP_mono; [| |apply contenderLoop_shape]; auto.
  - intros [st1 resolvedIndex] H1. simpl in H1.
    apply oWP_forEach; [exact H1|].
    intros i s Hs Hin. apply downfrom_In in Hin.
    apply offsetBody_shape; assumption.
  - rewrite Forall_forall. intros i Hin.
    apply list_elem_of_In, upto_In in Hin.
    destruct Hst as (_ & _ & _ & _ & Hlen). lia.
Qed.

Lemma sweepAll_shape xmin ymin dx dy numRows st :
  flagShape nc st ->
  oWP (sweepAll fuel key keySRS interpolation progress numColumns offsets
         xmin ymin dx dy numRows st)
    (flagShape nc) notFlagFault.
Proof.
  intros Hst. unfold sweepAll.
  apply oWP_forEach; [exact Hst|].
  intros c s Hs _.
  apply oWP_forEach; [exact Hs|].
  intros r s' Hs' _. apply sweepPixel_shape. exact Hs'.
Qed.
End SweepShape.

Section PopulateSafety.
Context {K : Constants} {E : Externals}.

Lemma getNormal_notFlag extent hf s t :
  oWP (getNormal extent hf s t) (fun _ => True) notFlagFault.
Proof.
  unfold getNormal.
  step_as e He.
  destruct (if srs_isGeographic (ext_srs extent) then _ else _) as [dx dy].
  apply oWP_bind.
  assert (Hn : forall (b : bool) c r (v : double -> Vec3d) (d : Vec3d),
            oWP (if b then (x ← getHeight hf c r; Ok (v (f2d x))) else Ok d)
              (fun _ => True) notFlagFault).
  { intros b c r v d. destruct b; [|exact I]. step_as x Hx. exact I. }
  eapply oWP_mono; [| |apply (Hn _ _ _ (fun z => mkVec3d (F64.opp dx) F64.zero z))];
    auto.
  intros west _. apply oWP_bind.
  eapply oWP_mono; [| |apply (Hn _ _ _ (fun z => mkVec3d dx F64.zero z))]; auto.
  intros east _. apply oWP_bind.
  eapply oWP_mono; [| |apply (Hn _ _ _ (fun z => mkVec3d F64.zero (F64.opp dy) z))];
    auto.
  intros south _. apply oWP_bind.
  eapply oWP_mono; [| |apply (Hn _ _ _ (fun z => mkVec3d F64.zero dy z))]; auto.
Qed.

Lemma pixelNormal_notFlag extent hf deltaLOD s t :
  oWP (pixelNormal extent hf deltaLOD s t) (fun _ => True) notFlagFault.
Proof.
  unfold pixelNormal. apply oWP_bind. unfold normalMapStep.
  step_as d Hd.
  assert (Hg : forall (A : Type) s0 t0 (k : Vec3 -> outcome A),
            (forall v, oWP (k v) (fun _ => True) notFlagFault) ->
            oWP (getNormal extent hf s0 t0 ≫= k) (fun _ => True) notFlagFault).
  { intros A s0 t0 k Hk. apply oWP_bind.
    eapply oWP_mono; [| |apply getNormal_notFlag]; auto. }
  apply oWP_bind.
  repeat match goal with
         | |- oWP (if ?b then _ else _) _ _ => destruct b
         | |- oWP (getNormal _ _ _ _ ≫= _) _ _ => apply Hg; intros ?
         | |- oWP (getNormal _ _ _ _) _ _ =>
             eapply oWP_mono; [| |apply getNormal_notFlag]; auto
         | |- oWP (Ok _) _ _ => exact I
         end.
Qed.

Lemma createNormalMap_notFlag extent hf deltaLOD nm :
  oWP (createNormalMap extent hf deltaLOD nm) (fun _ => True) notFlagFault.
Proof.
  unfold createNormalMap.
  apply oWP_forEach; [exact I|]. intros t nm1 _ _.
  apply oWP_forEach; [exact I|]. intros s nm2 _ _.
  apply oWP_bind.
  eapply oWP_mono; [| |apply pixelNormal_notFlag]; auto.
  intros normal _. simpl.
  destruct (NormalMap_set nm2 s t normal F32.zero) as [nm3|f|] eqn:Hs; simpl;
    [exact I|other_fault Hs|exact I].
Qed.

Lemma collectLayers_notFlag layers hf key haeProfile :
  oWP (collectLayers layers hf key haeProfile) (fun _ => True) notFlagFault.
Proof.
  unfold collectLayers. apply oWP_forEach; [exact I|].
  intros i [[contenders offsets] n] _ _. unfold collectLayer.
  destruct (layers !! i) as [layer|]; [|exact notFlagFault_null].
  repeat match goal with
         | |- oWP (if ?b then _ else _) _ _ => destruct b
         | |- oWP (Ok _) _ _ => exact I
         end.
Qed.

Lemma initialSweep_shape layers contenders offsets hf :
  flagShape (length contenders) (initialSweep layers contenders offsets hf).
Proof.
  unfold flagShape, initialSweep. simpl.
  repeat split; try reflexivity;
    (rewrite Forall_forall; intros row Hrow;
     apply list_elem_of_In in Hrow; simpl in Hrow;
     repeat (destruct Hrow as [<-|Hrow]; [try reflexivity; apply repeat_length|]);
     destruct Hrow).
Qed.

Lemma populate_notFlag fuel layers hf normalMap key haeProfile interpolation
    progress contenders offsets numFallbackLayers :
  collectLayers layers hf key haeProfile
    = Ok (contenders, offsets, numFallbackLayers) ->
  (length contenders <= 9)%nat -> (length offsets <= 9)%nat ->
  oWP (populateHeightFieldAndNormalMap fuel layers (Some hf) normalMap key
         haeProfile interpolation progress)
    (fun _ => True) notFlagFault.
Proof.
  intros Hcollect Hc Ho. unfold populateHeightFieldAndNormalMap.
  rewrite Hcollect. simpl.
  destruct (bool_decide (contenders = []) && bool_decide (offsets = []));
    [exact I|].
  destruct (_ =? numFallbackLayers); [exact I|].
  destruct (key_profile (keyToUseOf key haeProfile)) as [profile|];
    [|exact notFlagFault_null].
  apply oWP_bind.
  eapply oWP_mono;
    [| |apply (sweepAll_shape fuel key (prof_srs profile) interpolation progress
                 (getNumColumns hf) offsets (length contenders) Hc Ho)]; auto.
  - intros st _. apply oWP_bind.
    destruct normalMap as [nm|]; simpl; [|exact I].
    apply oWP_bind.
    eapply oWP_mono; [| |apply createNormalMap_notFlag]; auto.
  - apply initialSweep_shape.
Qed.

Lemma contenderBody_out_of_bounds fuel key keySRS interpolation progress
    numColumns px i st :
  flagShape (length (sw_contenders st)) st ->
  9 <= i < Z.of_nat (length (sw_contenders st)) ->
  contenderBody fuel key keySRS interpolation progress numColumns px i st
  = Fault FlagIndexOutOfBounds.
Proof.
  intros Hst Hi. unfold contenderBody.
  destruct (readAt_ok SlotIndexOutOfBounds (sw_contenders st) i) as (ld & -> & _);
    [lia|].
  simpl.
  rewrite (read2_out FlagIndexOutOfBounds (sw_heightFailed st) 9 centerSlot i);
    [reflexivity|apply Hst|unfold centerSlot; lia|lia].
Qed.

Lemma offsetBody_out_of_bounds fuel key keySRS interpolation progress
    numColumns offsets px resolvedIndex i ld st :
  gridRows 9 (sw_offsetFailed st) ->
  (9 <= i)%nat -> offsets !! i = Some ld ->
  (resolvedIndex >=? 0) && (ld_index ld <? resolvedIndex) = false ->
  offsetBody fuel key keySRS interpolation progress numColumns offsets px
    resolvedIndex i st
  = Fault FlagIndexOutOfBounds.
Proof.
  intros Hst Hi Hld Hskip. unfold offsetBody.
  destruct (readAt_ok SlotIndexOutOfBounds offsets (Z.of_nat i)) as (ld' & -> & Hld').
  { apply lookup_lt_Some in Hld. lia. }
  rewrite Nat2Z.id, Hld in Hld'. injection Hld' as <-.
  simpl. rewrite Hskip.
  rewrite (read2_out FlagIndexOutOfBounds (sw_offsetFailed st) 9 centerSlot
             (Z.of_nat i)); [reflexivity|exact Hst|unfold centerSlot; lia|lia].
Qed.
End PopulateSafety.

Section FlagVectors.
Context {K : Constants} {E : Externals}.

(** C10 (as amended).  The three flag vectors get nine elements in every
    slot, whatever the numbers of contender and offset entries.  A call with
    at most nine contenders and at most nine offsets never subscripts a flag
    vector out of bounds.  With more entries, the subscript is out of bounds
    as soon as the sweep reaches an entry of stored index nine or more: a
    contender when no earlier contender resolved the pixel, an offset when
    the resolved-index test does not skip it. *)
Theorem flag_vectors_hold_nine_entries
    (fuel : nat) (layers : list ElevationLayer) (hf : HeightField)
    (normalMap : option NormalMap) (key : TileKey)
    (haeProfile : option Profile) (interpolation : ElevationInterpolation)
    (progress : option ProgressCallback)
    (contenders offsets : list LayerData) (numFallbackLayers : Z) :
  collectLayers layers hf key haeProfile
    = Ok (contenders, offsets, numFallbackLayers) ->
  (gridRows 9 (sw_heightFallback (initialSweep layers contenders offsets hf))
   /\ gridRows 9 (sw_heightFailed (initialSweep layers contenders offsets hf))
   /\ gridRows 9 (sw_offsetFailed (initialSweep layers contenders offsets hf)))
  /\ ((length contenders <= 9)%nat -> (length offsets <= 9)%nat ->
      populateHeightFieldAndNormalMap fuel layers (Some hf) normalMap key
        haeProfile interpolation progress
      <> Fault FlagIndexOutOfBounds)
  /\ (forall keySRS px i st,
        flagShape (length (sw_contenders st)) st ->
        9 <= i < Z.of_nat (length (sw_contenders st)) ->
        contenderBody fuel key keySRS interpolation progress (getNumColumns hf)
          px i st
        = Fault FlagIndexOutOfBounds)
  /\ (forall keySRS px resolvedIndex i ld st,
        gridRows 9 (sw_offsetFailed st) ->
        (9 <= i)%nat -> offsets !! i = Some ld ->
        (resolvedIndex >=? 0) && (ld_index ld <? resolvedIndex) = false ->
        offsetBody fuel key keySRS interpolation progress (getNumColumns hf)
          offsets px resolvedIndex i st
        = Fault FlagIndexOutOfBounds).
Proof.
  intros Hcollect. split; [|split; [|split]].
  - destruct (initialSweep_shape layers contenders offsets hf) as (S1 & S2 & S3 & _).
    auto.
  - intros Hc Ho Hrun.
    apply (oWP_fault _ _ _ _
             (populate_notFlag fuel layers hf normalMap key haeProfile
                interpolation progress contenders offsets numFallbackLayers
                Hcollect Hc Ho) Hrun).
    reflexivity.
  - intros. apply contenderBody_out_of_bounds; assumption.
  - intros. eapply offsetBody_out_of_bounds; eassumption.
Qed.
End FlagVectors.

Lemma flag_vectors_hold_nine_entries_witness :
  @populateHeightFieldAndNormalMap Scenario.constants Scenario.externals 3
    Scenario.fiveAndSeven (Some (allocate 2 2)) None Scenario.key None
    INTERP_BILINEAR None
  <> Fault FlagIndexOutOfBounds.
Proof.
  destruct (@flag_vectors_hold_nine_entries Scenario.constants
              Scenario.externals 3 Scenario.fiveAndSeven (allocate 2 2) None
              Scenario.key None INTERP_BILINEAR None []
              Scenario.fiveAndSevenOffsets 0) as (_ & Hsafe & _).
  - reflexivity.
  - apply Hsafe; simpl; lia.
Defined.

(** C10, the claim as stated fails: ten contenders are collected, yet the
    call returns without a subscript out of bounds, because the first
    contender resolves every pixel and the scan never goes further. *)
Lemma ten_contenders_stay_in_bounds :
  exists contenders numFallbackLayers w,
    @collectLayers Scenario.externals
      (Scenario.tenBaseLayers (Some (Scenario.constGrid (F32.of_Z 100))))
      (allocate 2 2) Scenario.key None
    = Ok (contenders, [], numFallbackLayers)
    /\ length contenders = 10%nat
    /\ @populateHeightFieldAndNormalMap Scenario.constants Scenario.externals 3
         (Scenario.tenBaseLayers (Some (Scenario.constGrid (F32.of_Z 100))))
         (Some (allocate 2 2)) None Scenario.key None INTERP_BILINEAR None
       = Ok (true, w).
Proof.
  eexists _, _, _. split; [vm_compute; reflexivity|].
  split; vm_compute; reflexivity.
Qed.

(** Ten contenders whose drivers all fail: the scan of the first pixel
    reaches contenders[9] and reads heightFailed[4][9]. *)
Lemma ten_failing_contenders_leave_bounds :
  @populateHeightFieldAndNormalMap Scenario.constants Scenario.externals 3
    (Scenario.tenBaseLayers None) (Some (allocate 2 2)) None Scenario.key None
    INTERP_BILINEAR None
  = Fault FlagIndexOutOfBounds.
Proof. vm_compute. reflexivity. Qed.

(** ** 4.D  The fallback flag of a contender *)

(** Line 994 compares [contenders[i].key] with itself: a contender whose
    grid was found one level up (the fetch at level 1 fails, the parent at
    level 0 succeeds) is sampled with its fallback flag unset, and the call
    returns true. *)
Lemma fallback_flag_unset_after_parent_walk :
  exists w,
    @populateHeightFieldAndNormalMap Scenario.constants Scenario.externals 3
      [Scenario.coarseOnlyLayer] (Some (allocate 2 2)) None Scenario.key None
      INTERP_BILINEAR None = Ok (true, w)
    /\ take 3 (w_trace w)
       = [EvCreate false 0 Scenario.key false;
          EvCreate false 0 (createParentKey Scenario.key) true;
          EvSample false 0 false 0 0 (Some (F32.of_Z 100))].
Proof. eexists. split; vm_compute; reflexivity. Qed.

(** ** The recursion budget of the model *)

Lemma oTotal_bind {A B} (m : outcome A) (k : A -> outcome B) Q :
  oTotal m (fun a => oTotal (k a) Q) -> oTotal (m ≫= k) Q.
Proof. destruct m; simpl; auto. Qed.

Lemma oTotal_mono {A} (m : outcome A) (Q Q' : A -> Prop) :
  (forall a, Q a -> Q' a) -> oTotal m Q -> oTotal m Q'.
Proof. destruct m; simpl; auto. Qed.

Lemma oTotal_forEach {A S} (I : S -> Prop) (body : A -> S -> outcome S)
    (l : list A) : forall s,
  I s -> (forall a s', I s' -> In a l -> oTotal (body a s') I) ->
  oTotal (forEach l body s) I.
Proof.
  induction l as [|a l IH]; intros s HI Hbody; simpl; [exact HI|].
  apply oTotal_bind.
  eapply oTotal_mono; [|apply Hbody; [exact HI|left; reflexivity]].
  intros s' HI'. apply IH; [exact HI'|].
  intros b s'' H Hin. apply Hbody; [exact H|right; exact Hin].
Qed.

Lemma readAt_total {A} f (l : list A) i : oTotal (readAt f l i) (fun _ => True).
Proof. unfold readAt. destruct (i <? 0); [exact I|]. destruct (l !! _); exact I. Qed.

Lemma writeAt_total {A} f (l : list A) i a : oTotal (writeAt f l i a) (fun _ => True).
Proof. unfold writeAt. destruct (_ && _); exact I. Qed.

Lemma read2_total {A} f (v : list (list A)) n i : oTotal (read2 f v n i) (fun _ => True).
Proof.
  unfold read2. apply oTotal_bind.
  eapply oTotal_mono; [|apply readAt_total]. intros row _. apply readAt_total.
Qed.

Lemma write2_total {A} f (v : list (list A)) n i a :
  oTotal (write2 f v n i a) (fun _ => True).
Proof.
  unfold write2. apply oTotal_bind.
  eapply oTotal_mono; [|apply readAt_total]. intros row _. apply oTotal_bind.
  eapply oTotal_mono; [|apply writeAt_total]. intros row' _. apply writeAt_total.
Qed.

Lemma getHeight_total hf c r : oTotal (getHeight hf c r) (fun _ => True).
Proof. apply readAt_total. Qed.

Lemma setHeight_total hf c r v : oTotal (setHeight hf c r v) (fun _ => True).
Proof.
  unfold setHeight. apply oTotal_bind.
  eapply oTotal_mono; [|apply writeAt_total]. intros hs _. exact I.
Qed.

Lemma NormalMap_set_total nm s t n c : oTotal (NormalMap_set nm s t n c) (fun _ => True).
Proof.
  unfold NormalMap_set. apply oTotal_bind.
  eapply oTotal_mono; [|apply writeAt_total]. intros hs _. exact I.
Qed.

(** Runs the first step of a bind that cannot exhaust the budget. *)
Ltac total_step :=
  apply oTotal_bind;
  first [ eapply oTotal_mono; [|apply readAt_total]
        | eapply oTotal_mono; [|apply writeAt_total]
        | eapply oTotal_mono; [|apply read2_total]
        | eapply oTotal_mono; [|apply write2_total]
        | eapply oTotal_mono; [|apply getHeight_total]
        | eapply oTotal_mono; [|apply setHeight_total]
        | eapply oTotal_mono; [|apply NormalMap_set_total] ];
  intros ? _; simpl.

Section Totality.
Context {K : Constants} {E : Externals}.
Hypothesis tiles_in_profile : intersectingTilesInProfile.

(** On the quick route one level of the budget is enough. *)
Lemma quick_route_total fuel L key progress lprofile kprofile :
  getProfile L = Some lprofile -> key_profile key = Some kprofile ->
  isHorizEquivalentTo kprofile lprofile = true ->
  oTotal (createHeightFieldFromTileSource (S fuel) L key progress)
    (fun r => sameButSource L r.2).
Proof.
  intros Hlp Hkp Heq.
  pose proof (createHeightFieldFromTileSource_frame (S fuel) L key progress) as Hf.
  revert Hf. simpl.
  destruct (el_tileSource L) as [source|]; [|intros H; exact H].
  destruct (blacklist_contains _ _); [intros H; exact H|].
  rewrite Hkp, Hlp, Heq.
  destruct (negb (mayHaveData L key)); [intros H; exact H|].
  destruct (getOrCreatePreCacheOp L) as [op L1].
  unfold TileSource_createHeightField.
  destruct (normalizeNoDataValues op _); intros H; exact H.
Qed.

Lemma createHeightFieldFromTileSource_total fuel L key progress :
  oTotal (createHeightFieldFromTileSource (S (S fuel)) L key progress)
    (fun _ => True).
Proof.
  cbn [createHeightFieldFromTileSource].
  destruct (el_tileSource L) as [source|]; [|exact I].
  destruct (blacklist_contains _ _); [exact I|].
  destruct (key_profile key) as [kprofile|]; [|exact I].
  destruct (getProfile L) as [lprofile|] eqn:Hlp; [|exact I].
  destruct (isHorizEquivalentTo kprofile lprofile).
  - destruct (negb (mayHaveData L key)); [exact I|].
    destruct (getOrCreatePreCacheOp L) as [op L1].
    destruct (TileSource_createHeightField source key op progress)
      as [fetched source1].
    destruct fetched; exact I.
  - apply oTotal_bind. unfold assembleHeightField. rewrite Hlp.
    apply oTotal_bind.
    eapply oTotal_mono;
      [|apply (oTotal_forEach (fun acc => getProfile acc.2 = Some lprofile))].
    + intros [heightFields L'] _.
      destruct heightFields as [|g gs]; [exact I|].
      destruct (maxDimensions (g :: gs)) as [width height].
      apply oTotal_bind.
      eapply oTotal_mono; [|apply (oTotal_forEach (fun _ => True))]; auto.
      * intros [out_hf out_nm] _. exact I.
      * intros c acc _ _. apply oTotal_forEach; [exact I|].
        intros r [hf nm] _ _.
        destruct (firstElevation _ _ _ _) as [elevation normal].
        total_step. total_step. exact I.
    + exact Hlp.
    + intros layerKey [hfs L0] Hp Hin. simpl in Hp. unfold collectIntersecting.
      destruct (isKeyInLegalRange L0 layerKey); [|exact Hp].
      destruct (tiles_in_profile lprofile key layerKey Hin) as (kp & Hkp & Heq).
      apply oTotal_bind.
      eapply oTotal_mono; [|eapply quick_route_total; eauto].
      intros [hf L'] Hsame. simpl in Hsame.
      assert (Hp' : getProfile L' = Some lprofile).
      { unfold getProfile in *. destruct Hsame as (-> & _). exact Hp. }
      destruct hf; exact Hp'.
Qed.

Lemma createHeightField_total fuel L key progress :
  oTotal (createHeightField (S (S fuel)) L key progress) (fun _ => True).
Proof.
  unfold createHeightField.
  destruct (el_statusError L); [exact I|].
  destruct (negb (getEnabled L)); [exact I|].
  destruct (key_profile key) as [kprofile|]; [|exact I].
  apply oTotal_bind.
  assert (Hpost : forall L2 g,
            oTotal (g' ← postProcess L2 key g; Ok (Some g', L2)) (fun _ => True)).
  { intros L2 g. apply oTotal_bind. unfold postProcess.
    destruct (opt_noDataPolicy (el_options L2)); [exact I|].
    apply oTotal_bind.
    destruct (srs_vdatum (ext_srs (key_getExtent key))); [exact I|].
    destruct (getProfile L2) as [p|]; [|exact I].
    destruct (srs_vdatum (prof_srs p)); exact I. }
  destruct (memCacheRead L _) as [h|]; simpl.
  { destruct (el_memCache L); apply Hpost. }
  apply oTotal_bind. unfold createHeightField_uncached.
  destruct (negb _); [simpl; exact I|].
  destruct (_ && _); [simpl; exact I|].
  destruct (readPersistentCache _ _ _) as [[hf cachedHF] fromCache].
  destruct hf as [h|]; simpl.
  { destruct (el_memCache L); apply Hpost. }
  destruct (isCacheOnly _); [simpl; exact I|].
  destruct (negb (isKeyInLegalRange L key)); [simpl; exact I|].
  apply oTotal_bind.
  assert (Hfetch : oTotal (freshFetch (S (S fuel)) L key progress) (fun _ => True)).
  { unfold freshFetch, createImplementation.
    pose proof (createHeightFieldFromTileSource_total fuel L key progress) as Hf.
    destruct (negb _).
    - apply oTotal_bind. eapply oTotal_mono; [|exact Hf]; simpl; auto.
    - destruct (el_tileSource L) as [ts|]; [|exact I].
      destruct (negb (ts_isOK ts)); [exact I|].
      apply oTotal_bind. eapply oTotal_mono; [|exact Hf]; simpl; auto. }
  eapply oTotal_mono; [|exact Hfetch].
  intros [[hf1 L1]|] _; simpl; [|exact I].
  match goal with
  | |- context [match ?x with Some h => _ | None => Ok (None, ?L2) end] =>
      destruct x as [h|]; simpl; [|exact I]
  end.
  match goal with
  | |- context [el_memCache ?L2] => destruct (el_memCache L2); apply Hpost
  end.
Qed.

Section SweepTotality.
Variable fuel : nat.
Variable key : TileKey.
Variable keySRS : SpatialReference.
Variable interpolation : ElevationInterpolation.
Variable progress : option ProgressCallback.
Variable numColumns : Z.
Variable offsets : list LayerData.

(** The bound given to the parent walk is enough: a valid key of level
    [l] is left after at most [l + 1] failed fetches. *)
Lemma walkParents_total n : forall i lidx actualKey layers trace,
  (key_valid actualKey = false /\ (1 <= n)%nat)
  \/ (N.to_nat (key_lod actualKey) + 2 <= n)%nat ->
  oTotal (walkParents (S (S fuel)) progress n i lidx actualKey layers trace)
    (fun _ => True).
Proof.
  induction n as [|n IH]; intros i lidx actualKey layers trace Hn; [lia|].
  simpl.
  destruct (layers !! lidx) as [layer|]; [|exact I].
  destruct (key_valid actualKey) eqn:Hv; simpl; [|exact I].
  destruct (isKeyInLegalRange layer actualKey); [|exact I].
  destruct Hn as [[Hn _]|Hn]; [discriminate|].
  apply oTotal_bind.
  eapply oTotal_mono; [|apply createHeightField_total].
  intros [layerHF layer'] _. destruct layerHF; simpl; [exact I|].
  apply IH. unfold createParentKey.
  destruct (key_lod actualKey =? 0)%N eqn:Hl.
  - left. split; [reflexivity|lia].
  - right. simpl. apply N.eqb_neq in Hl. lia.
Qed.

Lemma clearHeightFieldCache_total st :
  oTotal (clearHeightFieldCache st) (fun _ => True).
Proof.
  unfold clearHeightFieldCache. apply oTotal_bind.
  eapply oTotal_mono; [|apply (oTotal_forEach (fun _ => True))]; auto.
  intros j st1 _ _. total_step.
  apply oTotal_forEach; [exact I|].
  intros k st2 _ _. total_step. total_step. exact I.
Qed.

Lemma loadContender_total i ld st :
  oTotal (loadContender (S (S fuel)) progress i ld st) (fun _ => True).
Proof.
  unfold loadContender.
  assert (Hn : (N.to_nat (key_lod (ld_key ld)) + 2
                <= 2 + N.to_nat (key_lod (ld_key ld)))%nat) by lia.
  revert Hn. generalize (2 + N.to_nat (key_lod (ld_key ld)))%nat. intros n Hn.
  total_step.
  match goal with |- oTotal (match ?x with _ => _ end) _ => destruct x end;
    simpl; [exact I|].
  apply oTotal_bind.
  eapply oTotal_mono; [|apply walkParents_total; right; exact Hn].
  intros [[[fetched actualKey] layers'] trace'] _.
  total_step. total_step.
  destruct fetched; simpl; total_step; exact I.
Qed.

Lemma sampleContender_total px i g st :
  oTotal (sampleContender key keySRS interpolation numColumns px i g st)
    (fun _ => True).
Proof.
  unfold sampleContender. total_step. total_step.
  destruct (getElevation g keySRS (px_x px) (px_y px) interpolation keySRS)
    as [elevation|]; simpl; [|exact I].
  destruct (F32.neqb elevation NO_DATA_VALUE); simpl; [|exact I].
  total_step. total_step. exact I.
Qed.

Lemma contenderBody_total px i st :
  oTotal (contenderBody (S (S fuel)) key keySRS interpolation progress numColumns
            px i st) (fun _ => True).
Proof.
  unfold contenderBody. total_step. total_step.
  match goal with |- oTotal (if ?b then _ else _) _ => destruct b end;
    simpl; [exact I|].
  apply oTotal_bind.
  eapply oTotal_mono; [|apply loadContender_total].
  intros [layerHF st1] _. destruct layerHF as [g|]; simpl; [|exact I].
  apply oTotal_bind.
  eapply oTotal_mono; [|apply sampleContender_total].
  intros [st2 resolvedIndex] _.
  destruct (sw_numHeightFieldsInCache st2 >=? maxHeightFields); simpl; [|exact I].
  apply oTotal_bind.
  eapply oTotal_mono; [|apply clearHeightFieldCache_total]. auto.
Qed.

Lemma contenderLoop_total px indices : forall st resolvedIndex,
  oTotal (contenderLoop (S (S fuel)) key keySRS interpolation progress numColumns
            px indices st resolvedIndex) (fun _ => True).
Proof.
  induction indices as [|i rest IH]; intros st resolvedIndex; simpl; [exact I|].
  destruct (resolvedIndex <? 0); simpl; [|exact I].
  apply oTotal_bind.
  eapply oTotal_mono; [|apply contenderBody_total].
  intros [st1 r1] _. apply IH.
Qed.

Lemma offsetBody_total px resolvedIndex i st :
  oTotal (offsetBody (S (S fuel)) key keySRS interpolation progress numColumns
            offsets px resolvedIndex i st) (fun _ => True).
Proof.
  unfold offsetBody. total_step.
  match goal with |- oTotal (if ?b then _ else _) _ => destruct b end;
    simpl; [exact I|].
  total_step.
  match goal with |- oTotal (if ?b then _ else _) _ => destruct b end;
    simpl; [exact I|].
  apply oTotal_bind. unfold loadOffset. total_step.
  match goal with |- oTotal (match ?x with _ => _ end) _ => destruct x as [g|] end;
    simpl.
  - unfold sampleOffset.
    destruct (getElevation g keySRS (px_x px) (px_y px) interpolation keySRS)
      as [elevation|]; simpl; [|exact I].
    destruct (F32.neqb elevation NO_DATA_VALUE); simpl; [|exact I].
    total_step. total_step. total_step. exact I.
  - match goal with |- context [sw_layers st !! ?k] => destruct (sw_layers st !! k) end;
      simpl; [|exact I].
    apply oTotal_bind.
    eapply oTotal_mono; [|apply createHeightField_total].
    intros [fetched offset'] _. total_step.
    destruct fetched as [g|]; simpl.
    + unfold sampleOffset.
      destruct (getElevation g keySRS (px_x px) (px_y px) interpolation keySRS)
        as [elevation|]; simpl; [|exact I].
      destruct (F32.neqb elevation NO_DATA_VALUE); simpl; [|exact I].
      total_step. total_step. total_step. exact I.
    + total_step. exact I.
Qed.

Lemma sweepAll_total xmin ymin dx dy numRows st :
  oTotal (sweepAll (S (S fuel)) key keySRS interpolation progress numColumns
            offsets xmin ymin dx dy numRows st) (fun _ => True).
Proof.
  unfold sweepAll.
  apply oTotal_forEach; [exact I|]. intros c s _ _.
  apply oTotal_forEach; [exact I|]. intros r s' _ _.
  unfold sweepPixel. apply oTotal_bind.
  eapply oTotal_mono; [|apply contenderLoop_total].
  intros [st1 resolvedIndex] _.
  apply oTotal_forEach; [exact I|]. intros i s'' _ _.
  apply offsetBody_total.
Qed.
End SweepTotality.

Lemma getNormal_total extent hf s t :
  oTotal (getNormal extent hf s t) (fun _ => True).
Proof.
  unfold getNormal. total_step.
  destruct (if srs_isGeographic (ext_srs extent) then _ else _) as [dx dy].
  assert (Hn : forall (b : bool) c r (v : double -> Vec3d) (d : Vec3d),
            oTotal (if b then (x ← getHeight hf c r; Ok (v (f2d x))) else Ok d)
              (fun _ => True)).
  { intros b c r v d. destruct b; [|exact I]. total_step. exact I. }
  apply oTotal_bind.
  eapply oTotal_mono; [|apply (Hn _ _ _ (fun z => mkVec3d (F64.opp dx) F64.zero z))].
  intros west _. apply oTotal_bind.
  eapply oTotal_mono; [|apply (Hn _ _ _ (fun z => mkVec3d dx F64.zero z))].
  intros east _. apply oTotal_bind.
  eapply oTotal_mono; [|apply (Hn _ _ _ (fun z => mkVec3d F64.zero (F64.opp dy) z))].
  intros south _. apply oTotal_bind.
  eapply oTotal_mono; [|apply (Hn _ _ _ (fun z => mkVec3d F64.zero dy z))].
  intros north _. exact I.
Qed.

Lemma createNormalMap_total extent hf deltaLOD nm :
  oTotal (createNormalMap extent hf deltaLOD nm) (fun _ => True).
Proof.
  unfold createNormalMap.
  apply oTotal_forEach; [exact I|]. intros t nm1 _ _.
  apply oTotal_forEach; [exact I|]. intros s nm2 _ _.
  apply oTotal_bind.
  assert (Hp : oTotal (pixelNormal extent hf deltaLOD s t) (fun _ => True)).
  { unfold pixelNormal. apply oTotal_bind. unfold normalMapStep. total_step.
    assert (Hg : forall (A : Type) s0 t0 (k : Vec3 -> outcome A),
              (forall v, oTotal (k v) (fun _ => True)) ->
              oTotal (getNormal extent hf s0 t0 ≫= k) (fun _ => True)).
    { intros A s0 t0 k Hk. apply oTotal_bind.
      eapply oTotal_mono; [|apply getNormal_total]. auto. }
    apply oTotal_bind.
    repeat match goal with
           | |- oTotal (if ?b then _ else _) _ => destruct b
           | |- oTotal (getNormal _ _ _ _ ≫= _) _ => apply Hg; intros ?
           | |- oTotal (getNormal _ _ _ _) _ =>
               eapply oTotal_mono; [|apply getNormal_total]; auto
           | |- oTotal (Ok _) _ => exact I
           end. }
  eapply oTotal_mono; [|exact Hp].
  intros normal _. apply NormalMap_set_total.
Qed.

(** With a budget of two or more, a call of
    populateHeightFieldAndNormalMap returns or stops at an access that C++
    leaves undefined: the model does not run out of budget. *)
Lemma populate_total fuel layers hf normalMap key haeProfile interpolation progress :
  populateHeightFieldAndNormalMap (S (S fuel)) layers hf normalMap key haeProfile
    interpolation progress <> OutOfFuel.
Proof.
  cut (oTotal (populateHeightFieldAndNormalMap (S (S fuel)) layers hf normalMap
                 key haeProfile interpolation progress) (fun _ => True)).
  { intros H Heq. rewrite Heq in H. exact H. }
  unfold populateHeightFieldAndNormalMap.
  destruct hf as [hf0|]; [|exact I].
  apply oTotal_bind.
  eapply oTotal_mono; [|apply (oTotal_forEach (fun _ => True))]; auto.
  - intros [[contenders offsets] n] _.
    destruct (bool_decide (contenders = []) && bool_decide (offsets = []));
      [exact I|].
    destruct (_ =? n); [exact I|].
    destruct (key_profile (keyToUseOf key haeProfile)) as [profile|]; [|exact I].
    apply oTotal_bind.
    eapply oTotal_mono; [|apply sweepAll_total].
    intros st _. apply oTotal_bind.
    destruct normalMap as [nm|]; simpl; [|exact I].
    apply oTotal_bind.
    eapply oTotal_mono; [|apply createNormalMap_total]. auto.
  - intros i [[contenders offsets] n] _ _. unfold collectLayer.
    destruct (layers !! i) as [layer|]; [|exact I].
    repeat match goal with
           | |- oTotal (if ?b then _ else _) _ => destruct b
           | |- oTotal (Ok _) _ => exact I
           end.
Qed.
End Totality.

(** * Further properties *)

(** ** 4.A  More on the normalizer *)

Section NormalizerMore.
Context {K : Constants}.

Lemma normalizeValue_idempotent op v :
  normalizeValue op (normalizeValue op v) = normalizeValue op v.
Proof.
  unfold normalizeValue.
  destruct (isInvalidHeight op v) eqn:Hv.
  - destruct (isInvalidHeight op NO_DATA_VALUE); reflexivity.
  - rewrite Hv. reflexivity.
Qed.

(** X1.  Running NormalizeNoDataValues a second time changes nothing. *)
Theorem normalizeNoDataValues_idempotent
    (op : NormalizeNoDataValues) (hf : option HeightField) :
  normalizeNoDataValues op (normalizeNoDataValues op hf)
  = normalizeNoDataValues op hf.
Proof.
  destruct hf as [h|]; [|reflexivity]. simpl. f_equal.
  unfold with_heights. simpl. f_equal.
  rewrite map_map. apply map_ext. intros v. apply normalizeValue_idempotent.
Qed.

(** X2.  NormalizeNoDataValues keeps the dimensions and the number of
    samples of a grid, so it never changes the verdict of
    validateHeightField. *)
Theorem normalizeNoDataValues_keeps_shape
    (op : NormalizeNoDataValues) (hf : option HeightField) :
  validateHeightField (normalizeNoDataValues op hf) = validateHeightField hf
  /\ (forall h h', hf = Some h -> normalizeNoDataValues op hf = Some h' ->
        getNumColumns h' = getNumColumns h /\ getNumRows h' = getNumRows h
        /\ length (hf_heights h') = length (hf_heights h)).
Proof.
  split.
  - destruct hf as [h|]; [|reflexivity]. simpl.
    unfold getNumRows, getNumColumns. simpl. rewrite length_map. reflexivity.
  - intros h h' -> [= <-]. simpl. rewrite length_map. auto.
Qed.

(** X3.  When the NO_DATA sentinel is a number, no NaN survives
    NormalizeNoDataValues, whatever the thresholds of the layer are. *)
Theorem normalizeNoDataValues_removes_nan
    (op : NormalizeNoDataValues) (hf hf' : HeightField) (v : float) :
  F32.isNaN NO_DATA_VALUE = false ->
  normalizeNoDataValues op (Some hf) = Some hf' ->
  In v (hf_heights hf') -> F32.isNaN v = false.
Proof.
  intros Hnd [= <-] Hin. simpl in Hin.
  apply in_map_iff in Hin as (v0 & <- & _).
  unfold normalizeValue, isInvalidHeight.
  destruct (F32.isNaN v0) eqn:Hv; simpl; [exact Hnd|].
  destruct (_ || _); [exact Hnd|exact Hv].
Qed.
End NormalizerMore.

Lemma normalizeNoDataValues_keeps_shape_witness :
  validateHeightField
    (@normalizeNoDataValues Scenario.constants Scenario.op
       (Some (Scenario.constGrid S754_nan))) = true
  /\ (forall h h',
        Some (Scenario.constGrid S754_nan) = Some h ->
        @normalizeNoDataValues Scenario.constants Scenario.op
          (Some (Scenario.constGrid S754_nan)) = Some h' ->
        getNumColumns h' = getNumColumns h /\ getNumRows h' = getNumRows h
        /\ length (hf_heights h') = length (hf_heights h)).
Proof.
  destruct (@normalizeNoDataValues_keeps_shape Scenario.constants Scenario.op
              (Some (Scenario.constGrid S754_nan))) as [Hv Hs].
  split; [rewrite Hv; reflexivity|exact Hs].
Defined.

Lemma normalizeNoDataValues_removes_nan_witness :
  F32.isNaN (SFopp Scenario.FLT_MAX) = false.
Proof.
  apply (@normalizeNoDataValues_removes_nan Scenario.constants Scenario.op
           (Scenario.constGrid S754_nan)
           (Scenario.constGrid (SFopp Scenario.FLT_MAX))
           (SFopp Scenario.FLT_MAX)).
  - reflexivity.
  - reflexivity.
  - left. reflexivity.
Defined.

(** ** 4.B  More on fetching from the tile source *)

Lemma sourceGrows_refl L : sourceGrows L L.
Proof.
  unfold sourceGrows. destruct (el_tileSource L); [|exact I].
  repeat split; try (exists []; rewrite ?app_nil_r; reflexivity).
Qed.

Lemma sourceGrows_trans L1 L2 L3 :
  sourceGrows L1 L2 -> sourceGrows L2 L3 -> sourceGrows L1 L3.
Proof.
  unfold sourceGrows.
  destruct (el_tileSource L1), (el_tileSource L2), (el_tileSource L3);
    try tauto.
  intros ([a1 B1] & [m1 R1] & D1 & O1) ([a2 B2] & [m2 R2] & D2 & O2).
  repeat split; try congruence.
  - exists (a2 ++ a1). rewrite B2, B1, app_assoc. reflexivity.
  - exists (m1 ++ m2). rewrite R2, R1, app_assoc. reflexivity.
Qed.

Section FetchMore.
Context {K : Constants} {E : Externals}.

Lemma assembleHeightField_grows
    (ci : ElevationLayer -> TileKey -> option ProgressCallback ->
          outcome (option HeightField * ElevationLayer))
    L key progress :
  (forall L0 k p, oWP (ci L0 k p) (fun r => sourceGrows L0 (snd r)) (fun _ => True)) ->
  oWP (assembleHeightField ci L key progress)
    (fun r => sourceGrows L (snd r)) (fun _ => True).
Proof.
  intros Hci. unfold assembleHeightField.
  destruct (getProfile L) as [profile|]; [|exact I].
  apply oWP_bind.
  eapply oWP_mono;
    [| |apply (oWP_forEach (fun acc => sourceGrows L (snd acc)) (fun _ => True))].
  - intros [heightFields L'] Hg. simpl in Hg.
    destruct heightFields as [|g gs]; [exact Hg|].
    destruct (maxDimensions (g :: gs)) as [width height].
    apply oWP_bind.
    eapply oWP_mono; [| |apply oWP_trivial]; auto.
    intros [out_hf out_nm] _. exact Hg.
  - auto.
  - apply sourceGrows_refl.
  - intros layerKey [hfs L0] Hg _. simpl in Hg. unfold collectIntersecting.
    destruct (isKeyInLegalRange L0 layerKey); [|exact Hg].
    apply oWP_bind.
    eapply oWP_mono; [| |apply Hci]; auto.
    intros [hf L'] H. simpl in H.
    destruct hf; simpl; eapply sourceGrows_trans; eauto.
Qed.

Lemma createHeightFieldFromTileSource_grows fuel :
  forall L key progress,
    oWP (createHeightFieldFromTileSource fuel L key progress)
      (fun r => sourceGrows L (snd r)) (fun _ => True).
Proof.
  induction fuel as [|fuel IH]; intros L key progress; [exact I|].
  simpl.
  destruct (el_tileSource L) as [source|] eqn:Hsrc; [|apply sourceGrows_refl].
  destruct (blacklist_contains _ _) eqn:Hbl; [apply sourceGrows_refl|].
  destruct (key_profile key) as [kprofile|]; [|exact I].
  destruct (getProfile L) as [lprofile|] eqn:Hlp; [|exact I].
  destruct (isHorizEquivalentTo kprofile lprofile).
  - destruct (negb (mayHaveData L key)); [apply sourceGrows_refl|].
    destruct (getOrCreatePreCacheOp L) as [op L1].
    unfold TileSource_createHeightField.
    destruct (normalizeNoDataValues op _); simpl; unfold sourceGrows;
      rewrite Hsrc; simpl.
    + repeat split; eauto. exists []. reflexivity.
    + unfold blacklist_add, set_blacklist. simpl. rewrite Hbl.
      destruct (mayBlacklist progress); simpl; repeat split; eauto.
      * exists [key]. reflexivity.
      * exists []. reflexivity.
  - apply oWP_bind.
    eapply oWP_mono; [| |apply (assembleHeightField_grows _ L key progress IH)];
      auto.
    intros [[result nm] L'] H. exact H.
Qed.

(** The quick route, lines 264-296, spelled out. *)
Lemma quick_route_unfold fuel L source key progress kprofile lprofile :
  el_tileSource L = Some source ->
  blacklist_contains (ts_blacklist source) key = false ->
  key_profile key = Some kprofile ->
  getProfile L = Some lprofile ->
  isHorizEquivalentTo kprofile lprofile = true ->
  mayHaveData L key = true ->
  createHeightFieldFromTileSource (S fuel) L key progress
  = let source1 :=
      mkTileSource (ts_isOK source) (ts_name source) (ts_blacklist source)
        (ts_driver source) (ts_requests source ++ [key]) in
    match normalizeNoDataValues (fst (getOrCreatePreCacheOp L))
            (ts_driver source key progress) with
    | Some hf =>
        let keySRS := ext_srs (key_getExtent key) in
        Ok (Some
              (if negb (isVertEquivalentTo keySRS (prof_srs lprofile))
               then VerticalDatum_transform (srs_vdatum (prof_srs lprofile))
                      (srs_vdatum keySRS) (key_getExtent key) hf
               else hf),
            set_tileSource (snd (getOrCreatePreCacheOp L)) (Some source1))
    | None =>
        Ok (None,
            set_tileSource (snd (getOrCreatePreCacheOp L))
              (Some (if mayBlacklist progress
                     then set_blacklist source1 (key :: ts_blacklist source)
                     else source1)))
    end.
Proof.
  intros Hsrc Hbl Hkp Hlp Heq Hdata. simpl.
  rewrite Hsrc, Hbl, Hkp, Hlp, Heq, Hdata. simpl.
  destruct (getOrCreatePreCacheOp L) as [op L1]. simpl.
  unfold TileSource_createHeightField.
  destruct (normalizeNoDataValues op _); [reflexivity|].
  unfold blacklist_add. simpl. rewrite Hbl. reflexivity.
Qed.

(** X4.  A fetch from the tile source, with or without assembly from
    intersecting tiles, leaves the options, the status, the enabled flag, the
    memory cache and the persistent cache bins of the layer as they were. *)
Theorem fetch_leaves_caches_and_options
    (fuel : nat) (L L' : ElevationLayer) (key : TileKey)
    (progress : option ProgressCallback) (result : option HeightField) :
  createHeightFieldFromTileSource fuel L key progress = Ok (result, L') ->
  el_options L' = el_options L
  /\ el_statusError L' = el_statusError L
  /\ el_enabled L' = el_enabled L
  /\ el_memCache L' = el_memCache L
  /\ el_cacheBins L' = el_cacheBins L.
Proof.
  intros Hrun.
  exact (oWP_ok _ _ _ _ (createHeightFieldFromTileSource_frame fuel L key progress)
           Hrun).
Qed.

(** X5.  A fetch never takes a key off the blacklist and never forgets a
    driver request: after any fetch the keys that were blacklisted still are,
    the record of requests has the old record as a prefix, and the driver is
    the same. *)
Theorem fetch_only_adds_to_blacklist
    (fuel : nat) (L L' : ElevationLayer) (key : TileKey)
    (progress : option ProgressCallback) (result : option HeightField)
    (ts : TileSource) :
  createHeightFieldFromTileSource fuel L key progress = Ok (result, L') ->
  el_tileSource L = Some ts ->
  exists ts',
    el_tileSource L' = Some ts'
    /\ (forall k, blacklist_contains (ts_blacklist ts) k = true ->
                  blacklist_contains (ts_blacklist ts') k = true)
    /\ (exists more, ts_requests ts' = ts_requests ts ++ more)
    /\ ts_driver ts' = ts_driver ts.
Proof.
  intros Hrun Hts.
  pose proof (oWP_ok _ _ _ _ (createHeightFieldFromTileSource_grows fuel L key progress)
                Hrun) as Hg.
  simpl in Hg. unfold sourceGrows in Hg. rewrite Hts in Hg.
  destruct (el_tileSource L') as [ts'|]; [|destruct Hg].
  destruct Hg as ([added Hb] & Hr & Hd & _).
  exists ts'. repeat split; auto.
  intros k Hk. unfold blacklist_contains in *. rewrite Hb, existsb_app, Hk.
  apply orb_true_r.
Qed.

(** X6.  After a fetch that failed for good (the driver gave no grid and
    the progress callback, if any, reported neither canceled nor
    needs-retry), every later fetch of the same key returns null without
    reaching the driver and without changing the layer. *)
Theorem hard_failure_is_not_retried
    (fuel fuel' : nat) (L : ElevationLayer) (source : TileSource)
    (key : TileKey) (progress progress' : option ProgressCallback)
    (kprofile lprofile : Profile) :
  el_tileSource L = Some source ->
  blacklist_contains (ts_blacklist source) key = false ->
  key_profile key = Some kprofile ->
  getProfile L = Some lprofile ->
  isHorizEquivalentTo kprofile lprofile = true ->
  mayHaveData L key = true ->
  ts_driver source key progress = None ->
  mayBlacklist progress = true ->
  key_eqb key key = true ->
  exists L',
    createHeightFieldFromTileSource (S fuel) L key progress = Ok (None, L')
    /\ createHeightFieldFromTileSource (S fuel') L' key progress' = Ok (None, L').
Proof.
  intros Hsrc Hbl Hkp Hlp Heq Hdata Hdrv Hmay Hrefl.
  eexists. split.
  - eapply failed_fetch_result; eauto.
  - rewrite Hmay. simpl. rewrite Hrefl. reflexivity.
Qed.

(** X7.  After a fetch that failed while the progress callback reported
    canceled or needs-retry, the key is asked of the driver again by the
    next fetch: the record of requests then holds the key twice more than
    before the first fetch. *)
Theorem transient_failure_is_retried
    (fuel fuel' : nat) (L : ElevationLayer) (source : TileSource)
    (key : TileKey) (progress progress' : option ProgressCallback)
    (kprofile lprofile : Profile) :
  el_tileSource L = Some source ->
  blacklist_contains (ts_blacklist source) key = false ->
  key_profile key = Some kprofile ->
  getProfile L = Some lprofile ->
  isHorizEquivalentTo kprofile lprofile = true ->
  mayHaveData L key = true ->
  ts_driver source key progress = None ->
  mayBlacklist progress = false ->
  exists L' result L'' source'',
    createHeightFieldFromTileSource (S fuel) L key progress = Ok (None, L')
    /\ createHeightFieldFromTileSource (S fuel') L' key progress'
       = Ok (result, L'')
    /\ el_tileSource L'' = Some source''
    /\ ts_requests source'' = ts_requests source ++ [key; key].
Proof.
  intros Hsrc Hbl Hkp Hlp Heq Hdata Hdrv Hmay.
  pose proof (failed_fetch_result fuel L source key progress kprofile lprofile
                Hsrc Hbl Hkp Hlp Heq Hdata Hdrv) as Hfirst.
  rewrite Hmay in Hfirst.
  set (source' := mkTileSource (ts_isOK source) (ts_name source)
                    (ts_blacklist source) (ts_driver source)
                    (ts_requests source ++ [key])) in *.
  set (L' := set_tileSource (getOrCreatePreCacheOp L).2 (Some source')) in *.
  assert (Hopt : el_options L' = el_options L).
  { unfold L', getOrCreatePreCacheOp. destruct (el_preCacheOp L); reflexivity. }
  pose proof (quick_route_unfold fuel' L' source' key progress' kprofile lprofile)
    as Hsecond.
  unfold getProfile, mayHaveData in *. rewrite Hopt in Hsecond.
  specialize (Hsecond eq_refl Hbl Hkp Hlp Heq Hdata). simpl in Hsecond.
  destruct (normalizeNoDataValues (getOrCreatePreCacheOp L').1
              (ts_driver source key progress')) as [h|].
  - eexists L', _, _, _. split; [exact Hfirst|]. split; [exact Hsecond|].
    split; [reflexivity|]. simpl. rewrite <- app_assoc. reflexivity.
  - eexists L', _, _, _. split; [exact Hfirst|]. split; [exact Hsecond|].
    split; [reflexivity|].
    destruct (mayBlacklist progress'); simpl; rewrite <- app_assoc; reflexivity.
Qed.
End FetchMore.

Lemma fetch_leaves_caches_and_options_witness :
  let L := Scenario.cachedLayer None in
  exists result L',
    @createHeightFieldFromTileSource Scenario.constants Scenario.externals 1 L
      Scenario.key None = Ok (result, L')
    /\ el_options L' = el_options L
    /\ el_statusError L' = el_statusError L
    /\ el_enabled L' = el_enabled L
    /\ el_memCache L' = el_memCache L
    /\ el_cacheBins L' = el_cacheBins L.
Proof.
  intros L. eexists _, _. split; [reflexivity|].
  apply (@fetch_leaves_caches_and_options Scenario.constants Scenario.externals
           1 L _ Scenario.key None None).
  reflexivity.
Defined.

Lemma fetch_only_adds_to_blacklist_witness :
  let ts :=
    mkTileSource true "driver" [createParentKey Scenario.key]
      (fun _ _ => None) [createParentKey Scenario.key] in
  let L :=
    mkElevationLayer (Scenario.options false Scenario.neverExpires) false true
      (Some ts) None None ∅ in
  exists ts',
    el_tileSource
      (set_tileSource
         (snd (getOrCreatePreCacheOp L))
         (Some (mkTileSource true "driver"
                  [Scenario.key; createParentKey Scenario.key]
                  (fun _ _ => None)
                  [createParentKey Scenario.key; Scenario.key])))
    = Some ts'
    /\ (forall k,
          @blacklist_contains Scenario.externals (ts_blacklist ts) k = true ->
          @blacklist_contains Scenario.externals (ts_blacklist ts') k = true)
    /\ (exists more, ts_requests ts' = ts_requests ts ++ more)
    /\ ts_driver ts' = ts_driver ts.
Proof.
  intros ts L.
  apply (@fetch_only_adds_to_blacklist Scenario.constants Scenario.externals
           1 L _ Scenario.key None None ts).
  - reflexivity.
  - reflexivity.
Defined.

Lemma hard_failure_is_not_retried_witness :
  let L := Scenario.layer false None in
  exists L',
    @createHeightFieldFromTileSource Scenario.constants Scenario.externals 1 L
      Scenario.key None = Ok (None, L')
    /\ @createHeightFieldFromTileSource Scenario.constants Scenario.externals 2
         L' Scenario.key (Some (mkProgress true false)) = Ok (None, L').
Proof.
  intros L.
  apply (@hard_failure_is_not_retried Scenario.constants Scenario.externals
           0 1 L (Scenario.source None) Scenario.key None
           (Some (mkProgress true false)) Scenario.profile Scenario.profile);
    reflexivity.
Defined.

Lemma transient_failure_is_retried_witness :
  let L := Scenario.layer false None in
  exists L' result L'' source'',
    @createHeightFieldFromTileSource Scenario.constants Scenario.externals 1 L
      Scenario.key (Some (mkProgress false true)) = Ok (None, L')
    /\ @createHeightFieldFromTileSource Scenario.constants Scenario.externals 1
         L' Scenario.key None = Ok (result, L'')
    /\ el_tileSource L'' = Some source''
    /\ ts_requests source'' = [] ++ [Scenario.key; Scenario.key].
Proof.
  intros L.
  apply (@transient_failure_is_retried Scenario.constants Scenario.externals
           0 0 L (Scenario.source None) Scenario.key
           (Some (mkProgress false true)) None
           Scenario.profile Scenario.profile);
    reflexivity.
Defined.

Section AssembleMore.
Context {K : Constants} {E : Externals}.

(** X8.  A fetch that the driver answers returns the driver's grid after
    normalisation (and after the change of vertical datum, when the key and
    the layer differ in it), asks the driver once and leaves the blacklist
    alone. *)
Theorem successful_fetch_is_normalised
    (fuel : nat) (L : ElevationLayer) (source : TileSource) (key : TileKey)
    (progress : option ProgressCallback) (kprofile lprofile : Profile)
    (raw : HeightField) :
  el_tileSource L = Some source ->
  blacklist_contains (ts_blacklist source) key = false ->
  key_profile key = Some kprofile ->
  getProfile L = Some lprofile ->
  isHorizEquivalentTo kprofile lprofile = true ->
  mayHaveData L key = true ->
  ts_driver source key progress = Some raw ->
  let normalised :=
    with_heights raw
      (map (normalizeValue (fst (getOrCreatePreCacheOp L))) (hf_heights raw)) in
  let keySRS := ext_srs (key_getExtent key) in
  exists L' source',
    createHeightFieldFromTileSource (S fuel) L key progress
    = Ok (Some (if isVertEquivalentTo keySRS (prof_srs lprofile)
                then normalised
                else VerticalDatum_transform (srs_vdatum (prof_srs lprofile))
                       (srs_vdatum keySRS) (key_getExtent key) normalised),
          L')
    /\ el_tileSource L' = Some source'
    /\ ts_blacklist source' = ts_blacklist source
    /\ ts_requests source' = ts_requests source ++ [key].
Proof.
  intros Hsrc Hbl Hkp Hlp Heq Hdata Hdrv normalised keySRS.
  rewrite (quick_route_unfold fuel L source key progress kprofile lprofile)
    by assumption.
  rewrite Hdrv. simpl. fold keySRS. fold normalised.
  eexists _, _.
  split; [destruct (isVertEquivalentTo keySRS (prof_srs lprofile)); reflexivity|].
  repeat split.
Qed.

(** The grids that have no elevation at a point are passed over. *)
Lemma firstElevation_skip pre rest srs x y :
  Forall (fun g => getElevationAndNormal g srs x y INTERP_BILINEAR srs = None) pre ->
  firstElevation (pre ++ rest) srs x y = firstElevation rest srs x y.
Proof.
  induction 1 as [|g pre Hg _ IH]; [reflexivity|].
  simpl. rewrite Hg. exact IH.
Qed.

(** X9.  The sampling loop of assembleHeightField takes the elevation and
    the normal of the first grid, in the sorted order, that has an elevation
    at the point; when no grid has one the sample is NO_DATA_VALUE and the
    normal is (0, 0, 1). *)
Theorem firstElevation_first_hit
    (pre rest : list GeoHeightField) (g : GeoHeightField)
    (srs : SpatialReference) (x y : double) (en : float * Vec3) :
  Forall (fun g => getElevationAndNormal g srs x y INTERP_BILINEAR srs = None) pre ->
  getElevationAndNormal g srs x y INTERP_BILINEAR srs = Some en ->
  firstElevation (pre ++ g :: rest) srs x y = en
  /\ firstElevation pre srs x y
     = (NO_DATA_VALUE, mkVec3 F32.zero F32.zero F32.one).
Proof.
  intros Hpre Hg. split.
  - rewrite firstElevation_skip by exact Hpre. simpl. rewrite Hg. reflexivity.
  - rewrite <- (app_nil_r pre). rewrite firstElevation_skip by exact Hpre.
    reflexivity.
Qed.

Lemma maxDimensions_fold l : forall w h,
  let r := fold_left
    (fun '(width, height) g =>
       let hf := ghf_heightField g in
       ((if getNumColumns hf >? width then getNumColumns hf else width),
        (if getNumRows hf >? height then getNumRows hf else height)))
    l (w, h) in
  w <= fst r /\ h <= snd r
  /\ Forall (fun g => getNumColumns (ghf_heightField g) <= fst r
                      /\ getNumRows (ghf_heightField g) <= snd r) l
  /\ (fst r = w \/ Exists (fun g => getNumColumns (ghf_heightField g) = fst r) l)
  /\ (snd r = h \/ Exists (fun g => getNumRows (ghf_heightField g) = snd r) l).
Proof.
  induction l as [|g l IH]; intros w h; simpl.
  - repeat split; auto; lia.
  - set (w' := if getNumColumns (ghf_heightField g) >? w
               then getNumColumns (ghf_heightField g) else w).
    set (h' := if getNumRows (ghf_heightField g) >? h
               then getNumRows (ghf_heightField g) else h).
    specialize (IH w' h'). simpl in IH.
    destruct IH as (Hw & Hh & Hall & Hex & Hey).
    assert (w <= w' /\ getNumColumns (ghf_heightField g) <= w'
            /\ (w' = w \/ w' = getNumColumns (ghf_heightField g))) as (A1 & A2 & A3).
    { unfold w'. destruct (Z.gtb_spec (getNumColumns (ghf_heightField g)) w); lia. }
    assert (h <= h' /\ getNumRows (ghf_heightField g) <= h'
            /\ (h' = h \/ h' = getNumRows (ghf_heightField g))) as (B1 & B2 & B3).
    { unfold h'. destruct (Z.gtb_spec (getNumRows (ghf_heightField g)) h); lia. }
    split; [lia|]. split; [lia|]. split; [|split].
    + constructor; [lia|exact Hall].
    + destruct Hex as [Hex|Hex].
      * destruct A3 as [A3|A3]; [left; lia|].
        right. apply Exists_cons_hd. lia.
      * right. apply Exists_cons_tl. exact Hex.
    + destruct Hey as [Hey|Hey].
      * destruct B3 as [B3|B3]; [left; lia|].
        right. apply Exists_cons_hd. lia.
      * right. apply Exists_cons_tl. exact Hey.
Qed.

(** X10.  The dimensions that assembleHeightField gives to its grid bound
    those of every collected grid, and each is attained by one of the grids
    unless it is 0. *)
Theorem maxDimensions_is_maximum (heightFields : list GeoHeightField) :
  let '(width, height) := maxDimensions heightFields in
  Forall (fun g => getNumColumns (ghf_heightField g) <= width
                   /\ getNumRows (ghf_heightField g) <= height) heightFields
  /\ (width = 0
      \/ Exists (fun g => getNumColumns (ghf_heightField g) = width) heightFields)
  /\ (height = 0
      \/ Exists (fun g => getNumRows (ghf_heightField g) = height) heightFields).
Proof.
  pose proof (maxDimensions_fold heightFields 0 0) as H. simpl in H.
  unfold maxDimensions. destruct (fold_left _ _ _) as [width height].
  simpl in H. tauto.
Qed.

Lemma assembledShape_allocate width height :
  assembledShape width height (allocate width height, newNormalMap width height).
Proof.
  unfold assembledShape. simpl. rewrite !repeat_length. repeat split.
Qed.

Lemma assembledShape_step width height hf nm c r v n hf' nm' :
  assembledShape width height (hf, nm) ->
  setHeight hf c r v = Ok hf' ->
  NormalMap_set nm c r n F32.zero = Ok nm' ->
  assembledShape width height (hf', nm').
Proof.
  unfold assembledShape, setHeight, NormalMap_set. simpl.
  intros (A1 & A2 & A3 & A4 & A5 & A6) Hs Hn.
  destruct (writeAt _ (hf_heights hf) _ _) as [hs| |] eqn:Hw; simpl in Hs;
    inversion Hs; subst; clear Hs.
  destruct (writeAt _ (nm_data nm) _ _) as [d| |] eqn:Hd; simpl in Hn;
    inversion Hn; subst; clear Hn.
  apply writeAt_length in Hw. apply writeAt_length in Hd. simpl.
  repeat split; congruence.
Qed.

(** X11.  When assembleHeightField returns a grid it returns a normal map
    with it, both of the same dimensions and both holding as many entries as
    were allocated; when it returns no grid it returns no normal map. *)
Theorem assembleHeightField_shape
    (ci : ElevationLayer -> TileKey -> option ProgressCallback ->
          outcome (option HeightField * ElevationLayer))
    (L L' : ElevationLayer) (key : TileKey)
    (progress : option ProgressCallback)
    (out_hf : option HeightField) (out_nm : option NormalMap) :
  assembleHeightField ci L key progress = Ok (out_hf, out_nm, L') ->
  match out_hf, out_nm with
  | Some hf, Some nm =>
      assembledShape (hf_columns hf) (hf_rows hf) (hf, nm)
  | None, None => True
  | _, _ => False
  end.
Proof.
  unfold assembleHeightField.
  destruct (getProfile L) as [profile|]; [|discriminate].
  destruct (forEach _ _ _) as [[heightFields L1]| |]; simpl; try discriminate.
  destruct heightFields as [|g gs]; [intros H; inversion H; exact I|].
  destruct (maxDimensions (g :: gs)) as [width height].
  match goal with
  | |- context [forEach (upto width) ?body ?init] =>
      pose proof (oWP_forEach (assembledShape width height) (fun _ => True)
                    body (upto width) init
                    (assembledShape_allocate width height)) as Hloop
  end.
  match type of Hloop with
  | ?P -> _ => assert (Hbody : P)
  end.
  { intros c s Hs _.
    apply oWP_forEach; [exact Hs|].
    intros r [hf nm] Hs' _.
    destruct (firstElevation _ _ _ _) as [elevation normal].
    destruct (setHeight hf c r elevation) as [hf'| |] eqn:Hset; simpl; auto.
    destruct (NormalMap_set nm c r normal F32.zero) as [nm'| |] eqn:Hnm;
      simpl; auto.
    eapply assembledShape_step; eauto. }
  specialize (Hloop Hbody).
  destruct (forEach (upto width) _ _) as [[hf nm]| |]; simpl; try discriminate.
  intros H. inversion H; subst. simpl in Hloop.
  destruct Hloop as (A1 & A2 & A3 & A4 & A5 & A6).
  unfold assembledShape. simpl in *. subst. repeat split; assumption.
Qed.
End AssembleMore.

Lemma sameCacheBut_refl sig ck b : sameCacheBut sig ck b b.
Proof.
  intros s. destruct (b !! s); [|exact I]. intros ck'. right. reflexivity.
Qed.

Section CreateHeightFieldMore.
Context {K : Constants} {E : Externals}.

Lemma CacheBin_write_frame L profile cacheKey hf :
  el_options (CacheBin_write L profile cacheKey hf) = el_options L
  /\ el_statusError (CacheBin_write L profile cacheKey hf) = el_statusError L
  /\ el_enabled (CacheBin_write L profile cacheKey hf) = el_enabled L
  /\ el_memCache (CacheBin_write L profile cacheKey hf) = el_memCache L
  /\ el_tileSource (CacheBin_write L profile cacheKey hf) = el_tileSource L
  /\ sameCacheBut (getFullSignature profile) cacheKey (el_cacheBins L)
       (el_cacheBins (CacheBin_write L profile cacheKey hf)).
Proof.
  unfold CacheBin_write, getCacheBin.
  destruct (el_cacheBins L !! getFullSignature profile) as [bin|] eqn:Hbin.
  - repeat (split; [reflexivity|]). simpl.
    intros s. destruct (decide (s = getFullSignature profile)) as [->|Hs].
    + rewrite Hbin, lookup_insert_eq. intros ck.
      destruct (decide (ck = cacheKey)) as [->|Hck]; [left; auto|].
      right. rewrite lookup_insert_ne by congruence. reflexivity.
    + rewrite lookup_insert_ne by congruence.
      destruct (el_cacheBins L !! s); [|exact I]. intros ck. right. reflexivity.
  - repeat (split; [reflexivity|]). apply sameCacheBut_refl.
Qed.

(** What the part of createHeightField behind the memory cache leaves
    alone. *)
Lemma createHeightField_uncached_frame fuel L key kprofile cacheKey progress :
  oWP (createHeightField_uncached fuel L key kprofile cacheKey progress)
    (fun r =>
       el_options (snd r) = el_options L
       /\ el_enabled (snd r) = el_enabled L
       /\ el_memCache (snd r) = el_memCache L
       /\ (is_Some (fst r) -> el_statusError (snd r) = el_statusError L)
       /\ sameCacheBut (getFullSignature kprofile) cacheKey
            (el_cacheBins L) (el_cacheBins (snd r)))
    (fun _ => True).
Proof.
  unfold createHeightField_uncached.
  assert (Hdis : forall A (x : option A),
            el_options (disable L) = el_options L
            /\ el_enabled (disable L) = el_enabled L
            /\ el_memCache (disable L) = el_memCache L
            /\ (is_Some (@None A) -> el_statusError (disable L) = el_statusError L)
            /\ sameCacheBut (getFullSignature kprofile) cacheKey
                 (el_cacheBins L) (el_cacheBins (disable L))).
  { intros A _. repeat split; try apply sameCacheBut_refl.
    intros [x Hx]. discriminate. }
  assert (Hsame : forall r : option GeoHeightField,
            el_options L = el_options L
            /\ el_enabled L = el_enabled L
            /\ el_memCache L = el_memCache L
            /\ (is_Some r -> el_statusError L = el_statusError L)
            /\ sameCacheBut (getFullSignature kprofile) cacheKey
                 (el_cacheBins L) (el_cacheBins L)).
  { intros r. repeat split. apply sameCacheBut_refl. }
  destruct (negb _); [exact (Hdis _ None)|].
  destruct (_ && _); [exact (Hdis _ None)|].
  destruct (readPersistentCache _ _ _) as [[hf cachedHF] fromCache].
  destruct hf as [h|]; [apply Hsame|].
  destruct (isCacheOnly _); [apply Hsame|].
  destruct (negb (isKeyInLegalRange L key)); [apply Hsame|].
  apply oWP_bind.
  destruct (freshFetch fuel L key progress) as [[[hf1 L1]|]| |] eqn:Hfetch;
    simpl; auto.
  apply freshFetch_frame in Hfetch. destruct Hfetch as [(S1 & S2 & S3 & S4 & S5) _].
  set (hf2 := match hf1 with
              | Some _ => if validateHeightField hf1 then hf1 else None
              | None => None
              end).
  assert (HL2 : forall L2,
            L2 = L1 \/ (exists h, L2 = CacheBin_write L1 kprofile cacheKey h) ->
            el_options L2 = el_options L /\ el_enabled L2 = el_enabled L
            /\ el_memCache L2 = el_memCache L
            /\ el_statusError L2 = el_statusError L
            /\ sameCacheBut (getFullSignature kprofile) cacheKey
                 (el_cacheBins L) (el_cacheBins L2)).
  { intros L2 [->|[h ->]].
    - repeat split; try assumption. rewrite S5. apply sameCacheBut_refl.
    - destruct (CacheBin_write_frame L1 kprofile cacheKey h)
        as (B1 & B2 & B3 & B4 & _ & B6).
      rewrite <- S5.
      repeat split; try congruence. exact B6. }
  match goal with
  | |- context [match ?x with Some h => _ | None => Ok (None, ?L2) end] =>
      assert (HL : L2 = L1 \/ exists h, L2 = CacheBin_write L1 kprofile cacheKey h);
      [|destruct (HL2 L2 HL) as (C1 & C2 & C3 & C4 & C5);
        destruct x as [h|]; simpl; repeat split; auto]
  end.
  destruct hf2 as [h|]; [|left; reflexivity].
  destruct (_ && _); [right; eauto|left; reflexivity].
Qed.

Lemma createHeightField_uncached_no_fetch fuel L key kprofile cacheKey progress :
  isCacheOnly (opt_cachePolicy (el_options L)) = true
  \/ isKeyInLegalRange L key = false ->
  createHeightField_uncached fuel L key kprofile cacheKey progress
  = createHeightField_uncached 0 L key kprofile cacheKey progress
  /\ oWP (createHeightField_uncached fuel L key kprofile cacheKey progress)
       (fun r => el_tileSource (snd r) = el_tileSource L
                 /\ el_cacheBins (snd r) = el_cacheBins L)
       (fun _ => True).
Proof.
  intros H. unfold createHeightField_uncached.
  destruct (negb _); [split; [reflexivity|split; reflexivity]|].
  destruct (_ && _); [split; [reflexivity|split; reflexivity]|].
  destruct (readPersistentCache _ _ _) as [[hf cachedHF] fromCache].
  destruct hf as [h|]; [split; [reflexivity|split; reflexivity]|].
  destruct (isCacheOnly _); [split; [reflexivity|split; reflexivity]|].
  destruct H as [H|H]; [discriminate|]. rewrite H. simpl.
  split; [reflexivity|split; reflexivity].
Qed.

(** X12.  In cache-only mode, and for a key outside the legal range of
    the layer, createHeightField does not reach the tile source: the call
    needs none of the recursion budget, and it leaves the tile source (its
    blacklist and its record of requests) and the persistent cache as they
    were. *)
Theorem createHeightField_does_not_reach_driver
    (fuel : nat) (L : ElevationLayer) (key : TileKey)
    (progress : option ProgressCallback) :
  isCacheOnly (opt_cachePolicy (el_options L)) = true
  \/ isKeyInLegalRange L key = false ->
  createHeightField fuel L key progress = createHeightField 0 L key progress
  /\ forall r L',
       createHeightField fuel L key progress = Ok (r, L') ->
       el_tileSource L' = el_tileSource L
       /\ el_cacheBins L' = el_cacheBins L.
Proof.
  intros H. unfold createHeightField.
  destruct (el_statusError L).
  { split; [reflexivity|]. intros r L' [= <- <-]. split; reflexivity. }
  destruct (negb (getEnabled L)).
  { split; [reflexivity|]. intros r L' [= <- <-]. split; reflexivity. }
  destruct (key_profile key) as [kprofile|]; [|split; [reflexivity|discriminate]].
  destruct (memCacheRead L _) as [h|]; simpl.
  { split; [reflexivity|]. intros r L'.
    destruct (el_memCache L); simpl;
      destruct (postProcess _ key _); simpl; try discriminate;
      intros [= <- <-]; split; reflexivity. }
  destruct (createHeightField_uncached_no_fetch fuel L key kprofile
              (makeCacheKey key kprofile) progress H) as [Heq Hwp].
  rewrite <- Heq. split; [reflexivity|].
  intros r L'.
  destruct (createHeightField_uncached fuel L key kprofile _ progress)
    as [[r1 L1]| |]; simpl; try discriminate.
  simpl in Hwp. destruct Hwp as [T1 T2].
  destruct r1 as [g|]; simpl.
  - destruct (el_memCache L1); simpl;
      destruct (postProcess _ key g); simpl; try discriminate;
      intros [= <- <-]; simpl; split; assumption.
  - intros [= <- <-]. split; assumption.
Qed.

(** X13.  A layer that expects a tile source and has none, outside
    cache-only mode, is disabled by the first call of createHeightField that
    misses the memory cache, and then answers every call with
    GeoHeightField::INVALID without changing any more. *)
Theorem missing_tile_source_disables_layer
    (fuel : nat) (L : ElevationLayer) (key : TileKey) (kprofile : Profile)
    (progress : option ProgressCallback) :
  el_statusError L = false ->
  getEnabled L = true ->
  key_profile key = Some kprofile ->
  memCacheRead L (makeCacheKey key kprofile) = None ->
  el_tileSource L = None ->
  opt_tileSourceExpected (el_options L) = true ->
  isCacheOnly (opt_cachePolicy (el_options L)) = false ->
  createHeightField fuel L key progress = Ok (None, disable L)
  /\ forall fuel' key' progress',
       createHeightField fuel' (disable L) key' progress'
       = Ok (None, disable L).
Proof.
  intros Herr Hen Hkp Hmem Hsrc Hexp Honly. split.
  - unfold createHeightField. rewrite Herr, Hen, Hkp, Hmem. simpl.
    unfold createHeightField_uncached. rewrite Hsrc, Hexp, Honly. simpl.
    reflexivity.
  - intros fuel' key' progress'. reflexivity.
Qed.
End CreateHeightFieldMore.

Lemma validateHeightField_None : validateHeightField None = false.
Proof. reflexivity. Qed.

Section CacheMore.
Context {K : Constants} {E : Externals}.

Lemma validateHeightField_stamp key h :
  validateHeightField (Some (stampHeightField key h))
  = validateHeightField (Some h).
Proof. reflexivity. Qed.

(** The fresh entry of the persistent cache is the only one that counts as
    read from the cache. *)
Lemma readPersistentCache_cases policy cacheBin cacheKey :
  match readPersistentCache policy cacheBin cacheKey with
  | (Some h, cachedHF, fromCache) =>
      cachedHF = Some h /\ fromCache = true
      /\ validateHeightField (Some h) = true
      /\ exists bin r, cacheBin = Some bin /\ bin !! cacheKey = Some r
                       /\ rr_heightField r = Some h
                       /\ isExpired policy (rr_lastModifiedTime r) = false
                       /\ isCacheReadable policy = true
  | (None, cachedHF, fromCache) =>
      fromCache = false
      /\ forall h, cachedHF = Some h ->
           exists bin r, cacheBin = Some bin /\ bin !! cacheKey = Some r
                         /\ rr_heightField r = Some h
  end.
Proof.
  unfold readPersistentCache.
  destruct cacheBin as [bin|]; [|split; [reflexivity|discriminate]].
  destruct (isCacheReadable policy) eqn:Hr; [|split; [reflexivity|discriminate]].
  destruct (bin !! cacheKey) as [r|] eqn:Hb; [|split; [reflexivity|discriminate]].
  destruct (validateHeightField (rr_heightField r)) eqn:Hv.
  - destruct (isExpired policy _) eqn:He; simpl.
    + split; [reflexivity|]. intros h Hh. eauto 6.
    + destruct (rr_heightField r) as [h|] eqn:Hh; [|discriminate Hv].
      repeat split; auto. exists bin, r. auto.
  - split; [reflexivity|]. intros h Hh. eauto 6.
Qed.

(** What the part of createHeightField behind the memory cache can
    return: a grid without normal map over the extent of the key, which
    passed validation unless it is the stamped grid of the cache entry. *)
Lemma createHeightField_uncached_result fuel L key kprofile cacheKey progress :
  oWP (createHeightField_uncached fuel L key kprofile cacheKey progress)
    (fun r =>
       forall g, fst r = Some g ->
         ghf_normalMap g = None
         /\ ghf_extent g = key_getExtent key
         /\ (validateHeightField (Some (ghf_heightField g)) = true
             \/ exists bin rr cached,
                  getCacheBin L kprofile = Some bin
                  /\ bin !! cacheKey = Some rr
                  /\ rr_heightField rr = Some cached
                  /\ ghf_heightField g = stampHeightField key cached))
    (fun _ => True).
Proof.
  unfold createHeightField_uncached.
  destruct (negb _); [intros g; discriminate|].
  destruct (_ && _); [intros g; discriminate|].
  pose proof (readPersistentCache_cases (opt_cachePolicy (el_options L))
                (getCacheBin L kprofile) cacheKey) as Hc.
  destruct (readPersistentCache _ _ _) as [[hf cachedHF] fromCache].
  destruct hf as [h|].
  { destruct Hc as (_ & _ & Hv & _). simpl. intros g [= <-]. simpl. auto. }
  destruct Hc as [_ Hc].
  destruct (isCacheOnly _); [intros g; discriminate|].
  destruct (negb (isKeyInLegalRange L key)); [intros g; discriminate|].
  apply oWP_bind.
  destruct (freshFetch fuel L key progress) as [[[hf1 L1]|]| |]; simpl; auto;
    [|intros g; discriminate].
  assert (Hhf2 : forall h,
            match hf1 with
            | Some _ => if validateHeightField hf1 then hf1 else None
            | None => None
            end = Some h -> validateHeightField (Some h) = true).
  { intros h. destruct hf1 as [h1|]; [|discriminate].
    destruct (validateHeightField (Some h1)) eqn:Hv; [|discriminate].
    intros [= <-]. exact Hv. }
  destruct (match hf1 with
            | Some _ => if validateHeightField hf1 then hf1 else None
            | None => None
            end) as [h2|].
  - simpl. intros g [= <-]. split; [reflexivity|]. split; [reflexivity|].
    left. exact (Hhf2 h2 eq_refl).
  - destruct cachedHF as [c|]; simpl; [|intros g; discriminate].
    intros g [= <-]. simpl. split; [reflexivity|]. split; [reflexivity|].
    right. destruct (Hc c eq_refl) as (bin & rr & B1 & B2 & B3).
    exists bin, rr, c. auto.
Qed.

(** X14.  With a memory cache and the NODATA_INTERPOLATE policy, a grid
    that createHeightField returned for a key is returned again, unchanged,
    by the next call for that key, which leaves the layer as it is: the
    tile source is asked at most once. *)
Theorem memory_cache_round_trip
    (fuel fuel' : nat) (L L' : ElevationLayer) (key : TileKey)
    (progress progress' : option ProgressCallback) (g : GeoHeightField)
    (bin : gmap string HeightField) :
  el_memCache L = Some bin ->
  opt_noDataPolicy (el_options L) = NODATA_INTERPOLATE ->
  createHeightField fuel L key progress = Ok (Some g, L') ->
  createHeightField fuel' L' key progress' = Ok (Some g, L').
Proof.
  intros Hmem Hpol. unfold createHeightField at 1.
  destruct (el_statusError L) eqn:Herr; [discriminate|].
  destruct (negb (getEnabled L)) eqn:Hen; [discriminate|].
  destruct (key_profile key) as [kprofile|] eqn:Hkp; [|discriminate].
  destruct (memCacheRead L _) as [h|] eqn:Hread; simpl.
  - rewrite Hmem. simpl. unfold postProcess at 1. rewrite Hpol. simpl.
    intros [= <- <-].
    unfold createHeightField. rewrite Herr, Hen, Hkp, Hread. simpl.
    rewrite Hmem. simpl. unfold postProcess. rewrite Hpol. reflexivity.
  - pose proof (createHeightField_uncached_frame fuel L key kprofile
                  (makeCacheKey key kprofile) progress) as Hf.
    pose proof (createHeightField_uncached_result fuel L key kprofile
                  (makeCacheKey key kprofile) progress) as Hr.
    destruct (createHeightField_uncached fuel L key kprofile _ progress)
      as [[r L1]| |]; simpl; try discriminate.
    simpl in Hf, Hr. destruct Hf as (F1 & F2 & F3 & F4 & _).
    destruct r as [g0|]; [|discriminate].
    destruct (Hr g0 eq_refl) as (R1 & R2 & _).
    specialize (F4 (ltac:(eauto))).
    rewrite F3, Hmem. simpl.
    unfold postProcess at 1. simpl. rewrite F1, Hpol. simpl.
    intros [= <- <-].
    unfold createHeightField, getEnabled in *. simpl.
    rewrite F4, Herr, F2, Hen, Hkp. simpl.
    unfold memCacheRead. simpl. rewrite lookup_insert_eq. simpl.
    unfold postProcess. simpl. rewrite F1, Hpol. simpl.
    destruct g0 as [h0 nm0 ext0]. simpl in *. subst. reflexivity.
Qed.

(** X15.  A validated entry of the persistent cache that has not expired
    is returned as it was stored, without a call of the tile source and
    without a change of the layer. *)
Theorem fresh_cache_entry_is_returned_as_stored
    (fuel : nat) (L : ElevationLayer) (key : TileKey) (kprofile : Profile)
    (progress : option ProgressCallback)
    (bin : gmap string ReadResult) (r : ReadResult) (cached : HeightField) :
  el_statusError L = false ->
  getEnabled L = true ->
  key_profile key = Some kprofile ->
  el_memCache L = None ->
  isCacheOnly (opt_cachePolicy (el_options L)) = true
  \/ (is_Some (getProfile L)
      /\ (is_Some (el_tileSource L)
          \/ opt_tileSourceExpected (el_options L) = false)) ->
  getCacheBin L kprofile = Some bin ->
  isCacheReadable (opt_cachePolicy (el_options L)) = true ->
  bin !! makeCacheKey key kprofile = Some r ->
  rr_heightField r = Some cached ->
  validateHeightField (Some cached) = true ->
  isExpired (opt_cachePolicy (el_options L)) (rr_lastModifiedTime r) = false ->
  opt_noDataPolicy (el_options L) = NODATA_INTERPOLATE ->
  createHeightField fuel L key progress
  = Ok (Some (mkGeoHeightField cached None (key_getExtent key)), L).
Proof.
  intros Herr Hen Hkp Hmem Hcan Hbin Hread Hlook Hobj Hvalid Hexp Hpol.
  unfold createHeightField. rewrite Herr, Hen, Hkp. unfold memCacheRead.
  rewrite Hmem. simpl.
  unfold createHeightField_uncached. rewrite Hbin.
  assert (Hc : negb (bool_decide (is_Some (el_tileSource L))
                     || negb (opt_tileSourceExpected (el_options L))
                     || isCacheOnly (opt_cachePolicy (el_options L))
                        && bool_decide (is_Some (Some bin))) = false).
  { destruct Hcan as [->|[_ [Hs| ->]]].
    - rewrite (bool_decide_eq_true_2 (is_Some (Some bin))) by eauto.
      simpl. rewrite orb_true_r. reflexivity.
    - rewrite bool_decide_eq_true_2 by exact Hs. reflexivity.
    - simpl. rewrite orb_true_r. reflexivity. }
  rewrite Hc.
  assert (Hp : negb (isCacheOnly (opt_cachePolicy (el_options L)))
               && bool_decide (getProfile L = None) = false).
  { destruct Hcan as [->|[[p Hp] _]]; [reflexivity|].
    rewrite bool_decide_eq_false_2 by congruence. apply andb_false_r. }
  rewrite Hp.
  unfold readPersistentCache. rewrite Hread, Hlook, Hobj, Hvalid, Hexp. simpl.
  rewrite Hmem. simpl. unfold postProcess. rewrite Hpol. reflexivity.
Qed.

(** The run of createHeightField once the fresh fetch has returned. *)
Lemma createHeightField_after_fetch fuel L key kprofile lprofile progress
    cachedHF hf1 L1 :
  el_statusError L = false ->
  getEnabled L = true ->
  key_profile key = Some kprofile ->
  el_memCache L = None ->
  isCacheOnly (opt_cachePolicy (el_options L)) = false ->
  getProfile L = Some lprofile ->
  readPersistentCache (opt_cachePolicy (el_options L)) (getCacheBin L kprofile)
    (makeCacheKey key kprofile) = (None, cachedHF, false) ->
  isKeyInLegalRange L key = true ->
  freshFetch fuel L key progress = Ok (Some (hf1, L1)) ->
  opt_noDataPolicy (el_options L) = NODATA_INTERPOLATE ->
  createHeightField fuel L key progress
  = let hf2 := if validateHeightField hf1 then hf1 else None in
    let L2 :=
      match hf2 with
      | Some h =>
          if bool_decide (is_Some (getCacheBin L kprofile))
             && isCacheWriteable (opt_cachePolicy (el_options L))
          then CacheBin_write L1 kprofile (makeCacheKey key kprofile) h
          else L1
      | None => L1
      end in
    match (match hf2 with Some _ => hf2 | None => cachedHF end) with
    | Some h =>
        Ok (Some (mkGeoHeightField (stampHeightField key h) None
                    (key_getExtent key)), L2)
    | None => Ok (None, L2)
    end.
Proof.
  intros Herr Hen Hkp Hmem Honly Hlp Hread Hlegal Hfetch Hpol.
  destruct (freshFetch_frame _ _ _ _ _ _ Hfetch)
    as [(S1 & S2 & S3 & S4 & S5) Hsrc].
  unfold createHeightField. rewrite Herr, Hen, Hkp. unfold memCacheRead.
  rewrite Hmem. simpl.
  unfold createHeightField_uncached.
  assert (Hc : negb (bool_decide (is_Some (el_tileSource L))
                     || negb (opt_tileSourceExpected (el_options L))
                     || isCacheOnly (opt_cachePolicy (el_options L))
                        && bool_decide (is_Some (getCacheBin L kprofile)))
               = false).
  { destruct Hsrc as [->|Hs].
    - simpl. rewrite orb_true_r. reflexivity.
    - rewrite bool_decide_eq_true_2 by exact Hs. reflexivity. }
  rewrite Hc, Honly, Hlp. simpl.
  rewrite Hread, Hlegal. simpl. rewrite Hfetch. simpl.
  rewrite andb_true_r.
  assert (Hhf2 : match hf1 with
                 | Some _ => if validateHeightField hf1 then hf1 else None
                 | None => None
                 end = if validateHeightField hf1 then hf1 else None).
  { destruct hf1; reflexivity. }
  rewrite Hhf2.
  assert (Hmem2 : forall h,
            el_memCache
              (if bool_decide (is_Some (getCacheBin L kprofile))
                  && isCacheWriteable (opt_cachePolicy (el_options L))
               then CacheBin_write L1 kprofile (makeCacheKey key kprofile) h
               else L1) = None
            /\ el_options
                 (if bool_decide (is_Some (getCacheBin L kprofile))
                     && isCacheWriteable (opt_cachePolicy (el_options L))
                  then CacheBin_write L1 kprofile (makeCacheKey key kprofile) h
                  else L1) = el_options L).
  { intros h. destruct (bool_decide _ && isCacheWriteable _).
    - destruct (CacheBin_write_frame L1 kprofile (makeCacheKey key kprofile) h)
        as (B1 & _ & _ & B4 & _).
      split; congruence.
    - split; congruence. }
  destruct (if validateHeightField hf1 then hf1 else None) as [h2|]; simpl.
  - destruct (Hmem2 h2) as [M1 M2]. rewrite M1. simpl.
    unfold postProcess. rewrite M2, Hpol. reflexivity.
  - destruct cachedHF as [c|]; simpl; [|reflexivity].
    rewrite S4, Hmem. simpl. unfold postProcess. rewrite S1, Hpol. reflexivity.
Qed.

(** X16.  Without a memory cache and under NODATA_INTERPOLATE, a grid that
    the fresh fetch produced and that passes validation is written to the
    persistent cache bin of the key's profile under the cache key, with the
    bin's time stamp, when the policy allows writing; the call returns the
    grid stamped with the origin and intervals of the key. *)
Theorem valid_fresh_grid_is_written_to_cache
    (fuel : nat) (L L1 : ElevationLayer) (key : TileKey)
    (kprofile lprofile : Profile) (progress : option ProgressCallback)
    (bin : gmap string ReadResult) (cachedHF : option HeightField)
    (hf : HeightField) :
  el_statusError L = false ->
  getEnabled L = true ->
  key_profile key = Some kprofile ->
  el_memCache L = None ->
  isCacheOnly (opt_cachePolicy (el_options L)) = false ->
  getProfile L = Some lprofile ->
  getCacheBin L kprofile = Some bin ->
  readPersistentCache (opt_cachePolicy (el_options L)) (Some bin)
    (makeCacheKey key kprofile) = (None, cachedHF, false) ->
  isCacheWriteable (opt_cachePolicy (el_options L)) = true ->
  isKeyInLegalRange L key = true ->
  freshFetch fuel L key progress = Ok (Some (Some hf, L1)) ->
  validateHeightField (Some hf) = true ->
  opt_noDataPolicy (el_options L) = NODATA_INTERPOLATE ->
  exists L',
    createHeightField fuel L key progress
    = Ok (Some (mkGeoHeightField (stampHeightField key hf) None
                  (key_getExtent key)), L')
    /\ getCacheBin L' kprofile
       = Some (<[makeCacheKey key kprofile
                 := mkReadResult (Some hf) DateTime_now]> bin)
    /\ el_tileSource L' = el_tileSource L1.
Proof.
  intros Herr Hen Hkp Hmem Honly Hlp Hbin Hread Hwr Hlegal Hfetch Hvalid Hpol.
  destruct (freshFetch_frame _ _ _ _ _ _ Hfetch)
    as [(S1 & S2 & S3 & S4 & S5) _].
  rewrite <- Hbin in Hread.
  rewrite (createHeightField_after_fetch fuel L key kprofile lprofile progress
             cachedHF (Some hf) L1) by assumption.
  rewrite Hvalid, Hbin, Hwr. simpl.
  eexists. split; [reflexivity|].
  unfold CacheBin_write, getCacheBin in *. rewrite S5, Hbin. simpl.
  rewrite lookup_insert_eq. split; reflexivity.
Qed.

(** X17.  A call of createHeightField rewrites at most one entry of the
    persistent cache, the one of the key in the bin of the key's profile;
    it creates no bin and removes none, and it keeps the options and the
    enabled flag of the layer. *)
Theorem createHeightField_writes_one_cache_entry
    (fuel : nat) (L L' : ElevationLayer) (key : TileKey) (kprofile : Profile)
    (progress : option ProgressCallback) (r : option GeoHeightField) :
  key_profile key = Some kprofile ->
  createHeightField fuel L key progress = Ok (r, L') ->
  sameCacheBut (getFullSignature kprofile) (makeCacheKey key kprofile)
    (el_cacheBins L) (el_cacheBins L')
  /\ el_options L' = el_options L
  /\ el_enabled L' = el_enabled L.
Proof.
  intros Hkp. unfold createHeightField. rewrite Hkp.
  assert (Hrefl : sameCacheBut (getFullSignature kprofile)
                    (makeCacheKey key kprofile) (el_cacheBins L) (el_cacheBins L)
                  /\ el_options L = el_options L
                  /\ el_enabled L = el_enabled L).
  { split; [apply sameCacheBut_refl|split; reflexivity]. }
  destruct (el_statusError L); [intros [= <- <-]; exact Hrefl|].
  destruct (negb (getEnabled L)); [intros [= <- <-]; exact Hrefl|].
  destruct (memCacheRead L _) as [h|]; simpl.
  { destruct (el_memCache L); simpl;
      destruct (postProcess _ key _); simpl; try discriminate;
      intros [= <- <-]; exact Hrefl. }
  pose proof (createHeightField_uncached_frame fuel L key kprofile
                (makeCacheKey key kprofile) progress) as Hf.
  destruct (createHeightField_uncached fuel L key kprofile _ progress)
    as [[r1 L1]| |]; simpl; try discriminate.
  simpl in Hf. destruct Hf as (F1 & F2 & F3 & F4 & F5).
  destruct r1 as [g|]; simpl.
  - destruct (el_memCache L1); simpl;
      destruct (postProcess _ key g); simpl; try discriminate;
      intros [= <- <-]; simpl; auto.
  - intros [= <- <-]. auto.
Qed.

(** X18.  Without a memory cache and under NODATA_INTERPOLATE, every grid
    that createHeightField returns passes validateHeightField, provided the
    entry of the persistent cache for the key, if there is one, does. *)
Theorem createHeightField_result_validates
    (fuel : nat) (L L' : ElevationLayer) (key : TileKey) (kprofile : Profile)
    (progress : option ProgressCallback) (g : GeoHeightField) :
  key_profile key = Some kprofile ->
  el_memCache L = None ->
  opt_noDataPolicy (el_options L) = NODATA_INTERPOLATE ->
  (forall bin r cached,
     getCacheBin L kprofile = Some bin ->
     bin !! makeCacheKey key kprofile = Some r ->
     rr_heightField r = Some cached ->
     validateHeightField (Some cached) = true) ->
  createHeightField fuel L key progress = Ok (Some g, L') ->
  validateHeightField (Some (ghf_heightField g)) = true.
Proof.
  intros Hkp Hmem Hpol Hcache. unfold createHeightField. rewrite Hkp.
  destruct (el_statusError L); [discriminate|].
  destruct (negb (getEnabled L)); [discriminate|].
  unfold memCacheRead. rewrite Hmem. simpl.
  pose proof (createHeightField_uncached_frame fuel L key kprofile
                (makeCacheKey key kprofile) progress) as Hf.
  pose proof (createHeightField_uncached_result fuel L key kprofile
                (makeCacheKey key kprofile) progress) as Hr.
  destruct (createHeightField_uncached fuel L key kprofile _ progress)
    as [[r1 L1]| |]; simpl; try discriminate.
  simpl in Hf, Hr. destruct Hf as (F1 & F2 & F3 & _).
  destruct r1 as [g0|]; [|discriminate].
  rewrite F3, Hmem. simpl. unfold postProcess. rewrite F1, Hpol. simpl.
  intros [= <- <-].
  destruct (Hr g0 eq_refl) as (_ & _ & [Hv|(bin & rr & cached & B1 & B2 & B3 & B4)]);
    [exact Hv|].
  rewrite B4. exact (Hcache bin rr cached B1 B2 B3).
Qed.

(** X19.  The entry of the persistent cache is kept for the fallback
    before it is validated: without a memory cache and under
    NODATA_INTERPOLATE, when the entry fails validation and the fresh fetch
    brings no valid grid either, createHeightField returns the cached grid,
    stamped, although validateHeightField rejects it. *)
Theorem rejected_cache_entry_is_still_the_fallback
    (fuel : nat) (L L1 : ElevationLayer) (key : TileKey)
    (kprofile lprofile : Profile) (progress : option ProgressCallback)
    (bin : gmap string ReadResult) (r : ReadResult) (cached : HeightField)
    (fresh : option HeightField) :
  el_statusError L = false ->
  getEnabled L = true ->
  key_profile key = Some kprofile ->
  el_memCache L = None ->
  isCacheOnly (opt_cachePolicy (el_options L)) = false ->
  getProfile L = Some lprofile ->
  getCacheBin L kprofile = Some bin ->
  isCacheReadable (opt_cachePolicy (el_options L)) = true ->
  bin !! makeCacheKey key kprofile = Some r ->
  rr_heightField r = Some cached ->
  validateHeightField (Some cached) = false ->
  isKeyInLegalRange L key = true ->
  freshFetch fuel L key progress = Ok (Some (fresh, L1)) ->
  validateHeightField fresh = false ->
  opt_noDataPolicy (el_options L) = NODATA_INTERPOLATE ->
  createHeightField fuel L key progress
  = Ok (Some (mkGeoHeightField (stampHeightField key cached) None
                (key_getExtent key)), L1)
  /\ validateHeightField (Some (stampHeightField key cached)) = false.
Proof.
  intros Herr Hen Hkp Hmem Honly Hlp Hbin Hread Hlook Hobj Hinv Hlegal Hfetch
    Hfresh Hpol.
  split; [|rewrite validateHeightField_stamp; exact Hinv].
  rewrite (createHeightField_after_fetch fuel L key kprofile lprofile progress
             (Some cached) fresh L1); try assumption.
  - rewrite Hfresh. reflexivity.
  - rewrite Hbin. unfold readPersistentCache.
    rewrite Hread, Hlook, Hobj, Hinv. reflexivity.
Qed.
End CacheMore.

(** X20.  The normalizer of a layer is created once: it carries the three
    thresholds of the layer's options when it is created, and a second call
    of getOrCreatePreCacheOp returns the same operation and leaves the layer
    as the first call left it. *)
Theorem getOrCreatePreCacheOp_creates_once (L : ElevationLayer) :
  let '(op, L1) := getOrCreatePreCacheOp L in
  getOrCreatePreCacheOp L1 = (op, L1)
  /\ el_preCacheOp L1 = Some op
  /\ (el_preCacheOp L = None ->
      _noDataValue op = opt_noDataValue (el_options L)
      /\ _minValidValue op = opt_minValidValue (el_options L)
      /\ _maxValidValue op = opt_maxValidValue (el_options L))
  /\ (forall op0, el_preCacheOp L = Some op0 -> op = op0 /\ L1 = L).
Proof.
  unfold getOrCreatePreCacheOp.
  destruct (el_preCacheOp L) as [op0|] eqn:Hop; simpl.
  - rewrite Hop. repeat split; try discriminate; congruence.
  - repeat split; try discriminate.
Qed.

Section CollectMore.
Context {K : Constants} {E : Externals}.

Lemma sublist_snoc_r {A} (l1 l2 : list A) x :
  l1 `sublist_of` l2 -> l1 `sublist_of` l2 ++ [x].
Proof. intros H. apply sublist_inserts_r. exact H. Qed.

Lemma sublist_snoc_both {A} (l1 l2 : list A) x :
  l1 `sublist_of` l2 -> l1 ++ [x] `sublist_of` l2 ++ [x].
Proof. intros H. apply sublist_app; [exact H|reflexivity]. Qed.

Lemma collectLayer_collected layers hf key keyToUse visited i acc :
  collectedFrom layers hf key keyToUse visited acc ->
  oWP (collectLayer layers hf key keyToUse i acc)
    (collectedFrom layers hf key keyToUse (visited ++ [i])) (fun _ => True).
Proof.
  destruct acc as [[contenders offsets] n].
  intros (Hc & Ho & Sc & So & Hall).
  unfold collectLayer.
  destruct (layers !! i) as [layer|] eqn:Hl; simpl; [|exact I].
  assert (Hskip : isCollected layer hf key keyToUse = false ->
                  collectedFrom layers hf key keyToUse (visited ++ [i])
                    (contenders, offsets, n)).
  { intros Hno. split; [exact Hc|]. split; [exact Ho|].
    split; [apply sublist_snoc_r; exact Sc|].
    split; [apply sublist_snoc_r; exact So|].
    intros j layer' Hj Hl' Hyes. apply in_app_or in Hj.
    destruct Hj as [Hj|[<-|[]]]; [eauto|]. congruence. }
  unfold isCollected in Hskip |- *.
  destruct (getEnabled layer && getVisible layer) eqn:H1; simpl;
    [|apply Hskip; reflexivity].
  destruct (isKeyInLegalRange layer key) eqn:H2; simpl;
    [|apply Hskip; reflexivity].
  destruct (key_valid _) eqn:H3; simpl; [|apply Hskip; reflexivity].
  clear Hskip.
  set (best := getBestAvailableTileKey layer
                 (mapResolution keyToUse (getNumColumns hf) (getTileSize layer)))
    in *.
  assert (Hentry : entryOf layers hf key keyToUse (isOffset layer)
                     (mkLayerData i best (Z.of_nat i))).
  { exists layer. simpl. unfold isCollected. rewrite H1, H2. fold best.
    rewrite H3. repeat split; try reflexivity. exact Hl. }
  destruct (isOffset layer) eqn:Hoff; simpl.
  - split; [exact Hc|]. split; [apply Forall_app; split; [exact Ho|]; constructor; [exact Hentry|constructor]|].
    split; [apply sublist_snoc_r; exact Sc|].
    split; [rewrite fmap_app; apply sublist_snoc_both; exact So|].
    intros j layer' Hj Hl' Hyes. apply in_app_or in Hj.
    destruct Hj as [Hj|[<-|[]]].
    + specialize (Hall j layer' Hj Hl' Hyes).
      destruct (isOffset layer'); [|exact Hall].
      rewrite fmap_app. apply in_or_app. left. exact Hall.
    + rewrite Hl in Hl'. injection Hl' as <-. rewrite Hoff.
      rewrite fmap_app. apply in_or_app. right. left. reflexivity.
  - split; [apply Forall_app; split; [exact Hc|]; constructor; [exact Hentry|constructor]|].
    split; [exact Ho|].
    split; [rewrite fmap_app; apply sublist_snoc_both; exact Sc|].
    split; [apply sublist_snoc_r; exact So|].
    intros j layer' Hj Hl' Hyes. apply in_app_or in Hj.
    destruct Hj as [Hj|[<-|[]]].
    + specialize (Hall j layer' Hj Hl' Hyes).
      destruct (isOffset layer'); [exact Hall|].
      rewrite fmap_app. apply in_or_app. left. exact Hall.
    + rewrite Hl in Hl'. injection Hl' as <-. rewrite Hoff.
      rewrite fmap_app. apply in_or_app. right. left. reflexivity.
Qed.

Lemma collectLayers_collected layers hf key haeProfile :
  oWP (collectLayers layers hf key haeProfile)
    (collectedFrom layers hf key (keyToUseOf key haeProfile)
       (downfrom (length layers)))
    (fun _ => True).
Proof.
  unfold collectLayers.
  apply (oWP_forEach_prefix
           (collectedFrom layers hf key (keyToUseOf key haeProfile))
           (fun _ => True) _ (downfrom (length layers)) [] ([], [], 0)).
  - split; [constructor|]. split; [constructor|].
    split; [constructor|]. split; [constructor|]. intros i layer [].
  - intros pre a s H _. apply collectLayer_collected. exact H.
Qed.

(** The collecting loop always returns. *)
Lemma collectLayers_returns layers hf key haeProfile :
  exists acc, collectLayers layers hf key haeProfile = Ok acc.
Proof.
  unfold collectLayers.
  assert (H : forall l acc,
            (forall i, In i l -> (i < length layers)%nat) ->
            exists acc', forEach l (collectLayer layers hf key
                                      (keyToUseOf key haeProfile)) acc = Ok acc').
  { induction l as [|i l IH]; intros acc Hl; simpl; [eauto|].
    assert (Hi : (i < length layers)%nat) by (apply Hl; left; reflexivity).
    apply lookup_lt_is_Some_2 in Hi. destruct Hi as [layer Hlayer].
    assert (Hstep : exists acc1, collectLayer layers hf key
                      (keyToUseOf key haeProfile) i acc = Ok acc1).
    { unfold collectLayer. destruct acc as [[c o] n]. rewrite Hlayer.
      destruct (_ && _); [|eauto].
      destruct (negb _); [eauto|].
      destruct (key_valid _); [|eauto].
      destruct (isOffset layer); eauto. }
    destruct Hstep as [acc1 ->]. simpl. apply IH.
    intros j Hj. apply Hl. right. exact Hj. }
  apply H. intros i Hi. apply downfrom_In. exact Hi.
Qed.

(** X21.  The collecting loop of populateHeightFieldAndNormalMap always
    returns, and it sorts the layers by their offset flag: every contender
    entry stands for an enabled, visible base layer that has the key in its
    legal range and a valid best available key, every offset entry for such
    an offset layer; each entry stores the position of its layer as index
    and the layer's best available key. *)
Theorem collectLayers_classifies
    (layers : list ElevationLayer) (hf : HeightField) (key : TileKey)
    (haeProfile : option Profile) :
  exists contenders offsets numFallbackLayers,
    collectLayers layers hf key haeProfile
    = Ok (contenders, offsets, numFallbackLayers)
    /\ Forall (entryOf layers hf key (keyToUseOf key haeProfile) false) contenders
    /\ Forall (entryOf layers hf key (keyToUseOf key haeProfile) true) offsets.
Proof.
  destruct (collectLayers_returns layers hf key haeProfile) as [[[c o] n] Hrun].
  pose proof (oWP_ok _ _ _ _ (collectLayers_collected layers hf key haeProfile)
                Hrun) as (Hc & Ho & _).
  exists c, o, n. auto.
Qed.

Lemma layer_order_descending (l : list LayerData) n :
  (ld_layer <$> l) `sublist_of` downfrom n ->
  StronglySorted Z.gt (Z.of_nat <$> (ld_layer <$> l)).
Proof.
  intros Hs. eapply sublist_StronglySorted; [|apply (downfrom_descending n)].
  apply fmap_sublist. exact Hs.
Qed.

(** X22.  The loop visits the layers from the last to the first, so that
    in both lists the positions of the layers decrease strictly; and it
    misses no layer: every layer that passes the test has its entry in the
    list that its offset flag selects. *)
Theorem collectLayers_last_layer_first
    (layers : list ElevationLayer) (hf : HeightField) (key : TileKey)
    (haeProfile : option Profile)
    (contenders offsets : list LayerData) (numFallbackLayers : Z) :
  collectLayers layers hf key haeProfile
  = Ok (contenders, offsets, numFallbackLayers) ->
  StronglySorted Z.gt (Z.of_nat <$> (ld_layer <$> contenders))
  /\ StronglySorted Z.gt (Z.of_nat <$> (ld_layer <$> offsets))
  /\ forall i layer,
       layers !! i = Some layer ->
       isCollected layer hf key (keyToUseOf key haeProfile) = true ->
       In i (ld_layer <$> (if isOffset layer then offsets else contenders)).
Proof.
  intros Hrun.
  pose proof (oWP_ok _ _ _ _ (collectLayers_collected layers hf key haeProfile)
                Hrun) as (_ & _ & Sc & So & Hall).
  simpl in *.
  split; [eapply layer_order_descending; exact Sc|].
  split; [eapply layer_order_descending; exact So|].
  intros i layer Hl Hyes. apply Hall; [|exact Hl|exact Hyes].
  apply downfrom_In. eapply lookup_lt_Some; eauto.
Qed.
End CollectMore.

Lemma sameGridShape_refl hf : sameGridShape hf hf.
Proof. repeat split. Qed.

Lemma sameGridShape_trans a b c :
  sameGridShape a b -> sameGridShape b c -> sameGridShape a c.
Proof.
  unfold sameGridShape. intros (A1 & A2 & A3 & A4 & A5 & A6 & A7)
    (B1 & B2 & B3 & B4 & B5 & B6 & B7).
  repeat split; congruence.
Qed.

Lemma setHeight_shape hf c r v hf' :
  setHeight hf c r v = Ok hf' -> sameGridShape hf hf'.
Proof.
  unfold setHeight. destruct (writeAt _ _ _ _) as [hs| |] eqn:Hw; simpl;
    try discriminate.
  intros [= <-]. apply writeAt_length in Hw. repeat split. exact Hw.
Qed.

Section SweepKeeps.
Context {K : Constants} {E : Externals}.
Variable fuel : nat.
Variable key : TileKey.
Variable keySRS : SpatialReference.
Variable interpolation : ElevationInterpolation.
Variable progress : option ProgressCallback.
Variable numColumns : Z.
Variable offsets : list LayerData.

Lemma sweepKeeps_refl st : sweepKeeps st st.
Proof.
  split; [reflexivity|]. split; [apply sameGridShape_refl|].
  split; [reflexivity|]. exists []. rewrite app_nil_r. split; [reflexivity|constructor].
Qed.

Lemma sweepKeeps_trans st1 st2 st3 :
  sweepKeeps st1 st2 -> sweepKeeps st2 st3 -> sweepKeeps st1 st3.
Proof.
  intros (A1 & A2 & A3 & e1 & A4 & A5) (B1 & B2 & B3 & e2 & B4 & B5).
  split; [congruence|]. split; [eapply sameGridShape_trans; eauto|].
  split; [congruence|]. exists (e1 ++ e2). rewrite B4, A4, app_assoc.
  split; [reflexivity|]. apply Forall_app. auto.
Qed.

(** A step that leaves the grid and the deltaLOD array alone. *)
Lemma sweepKeeps_same st st' evs :
  el_options <$> sw_layers st' = el_options <$> sw_layers st ->
  sw_hf st' = sw_hf st ->
  sw_deltaLOD st' = sw_deltaLOD st ->
  sw_trace st' = sw_trace st ++ evs ->
  Forall writesData evs ->
  sweepKeeps st st'.
Proof.
  intros H1 H2 H3 H4 H5. split; [exact H1|]. rewrite H2, H3.
  split; [apply sameGridShape_refl|]. split; [reflexivity|]. eauto.
Qed.

(** createHeightField keeps the options of the layer. *)
Lemma createHeightField_options L k :
  oWP (createHeightField fuel L k progress)
    (fun r => el_options (snd r) = el_options L) (fun _ => True).
Proof.
  unfold createHeightField.
  destruct (el_statusError L); [reflexivity|].
  destruct (negb (getEnabled L)); [reflexivity|].
  destruct (key_profile k) as [kprofile|]; [|exact I].
  destruct (memCacheRead L _) as [h|]; simpl.
  { destruct (el_memCache L); simpl;
      destruct (postProcess _ k _); simpl; auto. }
  pose proof (createHeightField_uncached_frame fuel L k kprofile
                (makeCacheKey k kprofile) progress) as Hf.
  destruct (createHeightField_uncached fuel L k kprofile _ progress)
    as [[r1 L1]| |]; simpl; auto.
  simpl in Hf. destruct Hf as (F1 & _).
  destruct r1 as [g|]; simpl; [|exact F1].
  destruct (el_memCache L1); simpl;
    destruct (postProcess _ k g); simpl; auto.
Qed.

Lemma options_insert (layers : list ElevationLayer) i layer layer' :
  layers !! i = Some layer ->
  el_options layer' = el_options layer ->
  el_options <$> <[i := layer']> layers = el_options <$> layers.
Proof.
  intros Hl Ho. rewrite list_fmap_insert, Ho.
  apply list_insert_id. rewrite list_lookup_fmap, Hl. reflexivity.
Qed.

Lemma walkParents_keeps n : forall i lidx actualKey layers trace,
  oWP (walkParents fuel progress n i lidx actualKey layers trace)
    (fun r =>
       el_options <$> r.1.2 = el_options <$> layers
       /\ exists evs, r.2 = trace ++ evs /\ Forall writesData evs)
    (fun _ => True).
Proof.
  induction n as [|n IH]; intros i lidx actualKey layers trace; [exact I|].
  simpl.
  destruct (layers !! lidx) as [layer|] eqn:Hl; [|exact I].
  destruct (key_valid actualKey && isKeyInLegalRange layer actualKey).
  2:{ simpl. split; [reflexivity|]. exists []. rewrite app_nil_r.
      split; [reflexivity|constructor]. }
  apply oWP_bind.
  pose proof (createHeightField_options layer actualKey) as Ho.
  destruct (createHeightField fuel layer actualKey progress)
    as [[layerHF layer']| |]; simpl; try exact I.
  simpl in Ho.
  pose proof (options_insert layers lidx layer layer' Hl Ho) as Hins.
  destruct layerHF as [g|]; simpl.
  - split; [exact Hins|]. eexists [_]. split; [reflexivity|].
    constructor; [exact I|constructor].
  - eapply oWP_mono; [| |apply IH]; auto.
    intros [[[g k] ls] tr] (Hopts & evs & Ht & Hw). simpl in *.
    split; [congruence|]. subst tr.
    eexists (_ :: evs). rewrite <- app_assoc. split; [reflexivity|].
    constructor; [exact I|exact Hw].
Qed.

Lemma clearHeightFieldCache_keeps st :
  oWP (clearHeightFieldCache st) (sweepKeeps st) (fun _ => True).
Proof.
  unfold clearHeightFieldCache. apply oWP_bind.
  eapply oWP_mono;
    [| |apply (oWP_forEach (sweepKeeps st) (fun _ => True))]; auto.
  - apply sweepKeeps_refl.
  - intros j st1 H1 _. apply oWP_bind.
    destruct (readAt SlotIndexOutOfBounds (sw_heightFields st1) j) as [row| |];
      simpl; try exact I.
    apply oWP_forEach; [exact H1|].
    intros k st2 H2 _. apply oWP_bind.
    destruct (write2 _ _ _ _ _) as [hfs| |]; simpl; try exact I.
    apply oWP_bind.
    destruct (write2 _ _ _ _ _) as [fbs| |]; simpl; try exact I.
    eapply sweepKeeps_trans; [exact H2|].
    apply (sweepKeeps_same _ _ []); try reflexivity; [|constructor].
    simpl. rewrite app_nil_r. reflexivity.
Qed.

Lemma loadContender_keeps i ld st :
  oWP (loadContender fuel progress i ld st)
    (fun r => sweepKeeps st r.2) (fun _ => True).
Proof.
  unfold loadContender.
  generalize (2 + N.to_nat (key_lod (ld_key ld)))%nat. intros n.
  apply oWP_bind.
  destruct (read2 _ _ _ _) as [layerHF| |]; simpl; try exact I.
  destruct layerHF as [g|]; simpl.
  { apply sweepKeeps_refl. }
  apply oWP_bind.
  eapply oWP_mono; [| |apply walkParents_keeps]; auto.
  intros [[[fetched actualKey] layers'] trace'] (Hopts & evs & Ht & Hw).
  simpl in Hopts, Ht. subst trace'. simpl.
  apply oWP_bind. destruct (writeAt _ _ _ _) as [conts| |]; simpl; try exact I.
  apply oWP_bind. destruct (write2 _ _ _ _ _) as [hfs| |]; simpl; try exact I.
  destruct fetched as [g|]; simpl.
  - apply oWP_bind. destruct (write2 _ _ _ _ _) as [fbs| |]; simpl; try exact I.
    apply (sweepKeeps_same _ _ evs); auto.
  - apply oWP_bind. destruct (write2 _ _ _ _ _) as [fls| |]; simpl; try exact I.
    apply (sweepKeeps_same _ _ evs); auto.
Qed.

Lemma sampleContender_keeps px i g st :
  oWP (sampleContender key keySRS interpolation numColumns px i g st)
    (fun r => sweepKeeps st r.1) (fun _ => True).
Proof.
  unfold sampleContender. apply oWP_bind.
  destruct (readAt _ _ _) as [ld| |]; simpl; try exact I.
  apply oWP_bind.
  destruct (read2 _ _ _ _) as [isFallback| |]; simpl; try exact I.
  set (sampled := getElevation g keySRS (px_x px) (px_y px) interpolation keySRS).
  set (st1 := if negb isFallback then set_realData st true else st).
  assert (H1 : sw_layers st1 = sw_layers st /\ sw_hf st1 = sw_hf st
               /\ sw_deltaLOD st1 = sw_deltaLOD st /\ sw_trace st1 = sw_trace st).
  { unfold st1. destruct isFallback; repeat split. }
  destruct H1 as (L1 & G1 & D1 & T1).
  destruct sampled as [elevation|] eqn:Hs; simpl.
  - destruct (F32.neqb elevation NO_DATA_VALUE) eqn:Hne; simpl.
    + apply oWP_bind.
      destruct (setHeight _ _ _ _) as [hf'| |] eqn:Hset; simpl; try exact I.
      apply oWP_bind.
      destruct (writeAt _ _ _ _) as [dl| |] eqn:Hdl; simpl; try exact I.
      apply setHeight_shape in Hset. apply writeAt_length in Hdl.
      simpl in Hset, Hdl. rewrite G1 in Hset. rewrite D1 in Hdl.
      split; [simpl; rewrite L1; reflexivity|].
      split; [exact Hset|]. split; [exact Hdl|].
      eexists [_; _]. simpl. rewrite T1, <- app_assoc. split; [reflexivity|].
      constructor; [exact I|]. constructor; [exact Hne|constructor].
    + eapply (sweepKeeps_same _ _ [_]); simpl; rewrite ?L1, ?G1, ?D1, ?T1;
        try reflexivity.
      constructor; [exact I|constructor].
  - eapply (sweepKeeps_same _ _ [_]); simpl; rewrite ?L1, ?G1, ?D1, ?T1;
      try reflexivity.
    constructor; [exact I|constructor].
Qed.

Lemma contenderBody_keeps px i st :
  oWP (contenderBody fuel key keySRS interpolation progress numColumns px i st)
    (fun r => sweepKeeps st r.1) (fun _ => True).
Proof.
  unfold contenderBody. apply oWP_bind.
  destruct (readAt _ _ _) as [ld| |]; simpl; try exact I.
  apply oWP_bind.
  destruct (read2 _ _ _ _) as [failed| |]; simpl; try exact I.
  destruct failed; simpl.
  { apply sweepKeeps_refl. }
  apply oWP_bind.
  eapply oWP_mono; [| |apply loadContender_keeps]; auto.
  intros [layerHF st1] H1. simpl in H1.
  destruct layerHF as [g|]; simpl; [|exact H1].
  apply oWP_bind.
  eapply oWP_mono; [| |apply sampleContender_keeps]; auto.
  intros [st2 resolvedIndex] H2. simpl in H2.
  pose proof (sweepKeeps_trans _ _ _ H1 H2) as H12.
  destruct (sw_numHeightFieldsInCache st2 >=? maxHeightFields); simpl; [|exact H12].
  apply oWP_bind.
  eapply oWP_mono; [| |apply clearHeightFieldCache_keeps]; auto.
  intros st3 H3. simpl. eapply sweepKeeps_trans; eauto.
Qed.

Lemma contenderLoop_keeps px indices : forall st resolvedIndex,
  oWP (contenderLoop fuel key keySRS interpolation progress numColumns px indices
         st resolvedIndex)
    (fun r => sweepKeeps st r.1) (fun _ => True).
Proof.
  induction indices as [|i rest IH]; intros st resolvedIndex; simpl.
  { apply sweepKeeps_refl. }
  destruct (resolvedIndex <? 0); simpl; [|apply sweepKeeps_refl].
  apply oWP_bind.
  eapply oWP_mono; [| |apply contenderBody_keeps]; auto.
  intros [st1 r1] H1. simpl in H1.
  eapply oWP_mono; [| |apply IH]; auto.
  intros [st2 r2] H2. simpl in *. eapply sweepKeeps_trans; eauto.
Qed.

Lemma loadOffset_keeps iz ld st :
  oWP (loadOffset fuel progress iz ld st)
    (fun r => sweepKeeps st r.2) (fun _ => True).
Proof.
  unfold loadOffset. apply oWP_bind.
  destruct (read2 _ _ _ _) as [layerHF| |]; simpl; try exact I.
  destruct layerHF as [g|]; simpl.
  { apply sweepKeeps_refl. }
  destruct (sw_layers st !! ld_layer ld) as [offset|] eqn:Hl; simpl; [|exact I].
  apply oWP_bind.
  pose proof (createHeightField_options offset (ld_key ld)) as Ho.
  destruct (createHeightField fuel offset (ld_key ld) progress)
    as [[fetched offset']| |]; simpl; try exact I.
  simpl in Ho.
  pose proof (options_insert _ _ _ _ Hl Ho) as Hins.
  apply oWP_bind. destruct (write2 _ _ _ _ _) as [ofs| |]; simpl; try exact I.
  destruct fetched as [g|]; simpl.
  - eapply (sweepKeeps_same _ _ [_]); simpl; try reflexivity; [exact Hins|].
    constructor; [exact I|constructor].
  - apply oWP_bind. destruct (write2 _ _ _ _ _) as [fls| |]; simpl; try exact I.
    eapply (sweepKeeps_same _ _ [_]); simpl; try reflexivity; [exact Hins|].
    constructor; [exact I|constructor].
Qed.

Lemma sampleOffset_keeps px iz ld g st :
  oWP (sampleOffset key keySRS interpolation numColumns px iz ld g st)
    (sweepKeeps st) (fun _ => True).
Proof.
  unfold sampleOffset.
  set (sampled := getElevation g keySRS (px_x px) (px_y px) interpolation keySRS).
  destruct sampled as [elevation|]; simpl.
  - destruct (F32.neqb elevation NO_DATA_VALUE) eqn:Hne; simpl.
    + apply oWP_bind. destruct (getHeight _ _ _) as [old| |]; simpl; try exact I.
      apply oWP_bind.
      destruct (setHeight _ _ _ _) as [hf'| |] eqn:Hset; simpl; try exact I.
      apply oWP_bind.
      destruct (writeAt _ _ _ _) as [dl| |] eqn:Hdl; simpl; try exact I.
      apply setHeight_shape in Hset. apply writeAt_length in Hdl.
      simpl in Hset, Hdl.
      split; [reflexivity|]. split; [exact Hset|]. split; [exact Hdl|].
      eexists [_; _]. simpl. rewrite <- app_assoc. split; [reflexivity|].
      constructor; [exact I|]. constructor; [exact Hne|constructor].
    + eapply (sweepKeeps_same _ _ [_]); simpl; try reflexivity.
      constructor; [exact I|constructor].
  - eapply (sweepKeeps_same _ _ [_]); simpl; try reflexivity.
    constructor; [exact I|constructor].
Qed.

Lemma offsetBody_keeps px resolvedIndex i st :
  oWP (offsetBody fuel key keySRS interpolation progress numColumns offsets px
         resolvedIndex i st)
    (sweepKeeps st) (fun _ => True).
Proof.
  unfold offsetBody. apply oWP_bind.
  destruct (readAt _ _ _) as [ld| |]; simpl; try exact I.
  destruct ((resolvedIndex >=? 0) && (ld_index ld <? resolvedIndex)); simpl.
  { apply sweepKeeps_refl. }
  apply oWP_bind.
  destruct (read2 _ _ _ _) as [failed| |]; simpl; try exact I.
  destruct failed; simpl.
  { apply sweepKeeps_refl. }
  apply oWP_bind.
  eapply oWP_mono; [| |apply loadOffset_keeps]; auto.
  intros [layerHF st1] H1. simpl in *.
  destruct layerHF as [g|]; [|exact H1].
  eapply oWP_mono; [| |apply sampleOffset_keeps]; auto.
  intros st' H2. simpl. eapply sweepKeeps_trans; eauto.
Qed.

Lemma sweepPixel_keeps px st :
  oWP (sweepPixel fuel key keySRS interpolation progress numColumns offsets px st)
    (sweepKeeps st) (fun _ => True).
Proof.
  unfold sweepPixel. apply oWP_bind.
  eapply oWP_mono; [| |apply contenderLoop_keeps]; auto.
  intros [st1 resolvedIndex] H1. simpl in H1.
  apply oWP_forEach; [exact H1|].
  intros i s Hs _.
  eapply oWP_mono; [| |apply offsetBody_keeps]; auto.
  intros s' H. simpl. eapply sweepKeeps_trans; eauto.
Qed.

Lemma sweepAll_keeps xmin ymin dx dy numRows st :
  oWP (sweepAll fuel key keySRS interpolation progress numColumns offsets
         xmin ymin dx dy numRows st)
    (sweepKeeps st) (fun _ => True).
Proof.
  unfold sweepAll.
  apply oWP_forEach; [apply sweepKeeps_refl|].
  intros c s Hs _.
  apply oWP_forEach; [exact Hs|].
  intros r s' Hs' _.
  eapply oWP_mono; [| |apply sweepPixel_keeps]; auto.
  intros s'' H. simpl. eapply sweepKeeps_trans; eauto.
Qed.
End SweepKeeps.

Section PopulateKeeps.
Context {K : Constants} {E : Externals}.

(** What a run of the compositor that returns has kept. *)
Lemma populate_keeps fuel layers hf normalMap key haeProfile interpolation
    progress b w :
  populateHeightFieldAndNormalMap fuel layers (Some hf) normalMap key
    haeProfile interpolation progress = Ok (b, w) ->
  el_options <$> w_layers w = el_options <$> layers
  /\ (exists hf', w_hf w = Some hf' /\ sameGridShape hf hf')
  /\ Forall writesData (w_trace w).
Proof.
  unfold populateHeightFieldAndNormalMap.
  assert (Hsame : el_options <$> layers = el_options <$> layers
                  /\ (exists hf', Some hf = Some hf' /\ sameGridShape hf hf')
                  /\ Forall writesData []).
  { split; [reflexivity|]. split; [|constructor].
    exists hf. split; [reflexivity|apply sameGridShape_refl]. }
  destruct (collectLayers layers hf key haeProfile) as [[[c o] n]| |];
    simpl; try discriminate.
  destruct (bool_decide (c = []) && bool_decide (o = []));
    [intros [= <- <-]; exact Hsame|].
  destruct (_ =? n); [intros [= <- <-]; exact Hsame|].
  destruct (key_profile (keyToUseOf key haeProfile)) as [profile|];
    [|discriminate].
  match goal with
  | |- context [sweepAll ?f ?k ?s ?i ?p ?nc ?os ?a1 ?a2 ?a3 ?a4 ?nr ?st] =>
      pose proof (sweepAll_keeps f k s i p nc os a1 a2 a3 a4 nr st) as Hk;
      destruct (sweepAll f k s i p nc os a1 a2 a3 a4 nr st) as [st'| |];
      simpl; try discriminate
  end.
  simpl in Hk. destruct Hk as (K1 & K2 & _ & evs & K4 & K5).
  simpl in K1, K2, K4.
  assert (Hend : forall nm',
            Ok (sw_realData st', mkWorld (Some (sw_hf st')) nm' (sw_layers st')
                                   (sw_trace st')) = Ok (b, w) ->
            el_options <$> w_layers w = el_options <$> layers
            /\ (exists hf', w_hf w = Some hf' /\ sameGridShape hf hf')
            /\ Forall writesData (w_trace w)).
  { intros nm' [= <- <-]. simpl. split; [exact K1|].
    split; [eauto|]. rewrite K4. exact K5. }
  destruct normalMap as [nm|]; simpl; [|apply Hend].
  destruct (createNormalMap _ _ _ _) as [nm'| |]; simpl; try discriminate.
  apply Hend.
Qed.

(** X23.  The compositor changes the samples of the output grid and
    nothing else of it: when populateHeightFieldAndNormalMap returns, the
    grid has the columns, rows, origin, intervals, border and number of
    samples that it had; and the options of every layer are as before. *)
Theorem populate_keeps_grid_shape
    (fuel : nat) (layers : list ElevationLayer) (hf : HeightField)
    (normalMap : option NormalMap) (key : TileKey)
    (haeProfile : option Profile) (interpolation : ElevationInterpolation)
    (progress : option ProgressCallback) (b : bool) (w : World) :
  populateHeightFieldAndNormalMap fuel layers (Some hf) normalMap key
    haeProfile interpolation progress = Ok (b, w) ->
  (exists hf', w_hf w = Some hf' /\ sameGridShape hf hf')
  /\ el_options <$> w_layers w = el_options <$> layers
  /\ length (w_layers w) = length layers.
Proof.
  intros Hrun. destruct (populate_keeps _ _ _ _ _ _ _ _ _ _ Hrun) as (H1 & H2 & _).
  split; [exact H2|]. split; [exact H1|].
  apply (f_equal length) in H1. rewrite !length_fmap in H1. exact H1.
Qed.

(** X24.  The compositor never takes over the no-data value: every
    elevation that a run sets as a height (from a contender) or adds to a
    height (from an offset layer) differs from NO_DATA_VALUE. *)
Theorem populate_never_applies_no_data
    (fuel : nat) (layers : list ElevationLayer) (hf : HeightField)
    (normalMap : option NormalMap) (key : TileKey)
    (haeProfile : option Profile) (interpolation : ElevationInterpolation)
    (progress : option ProgressCallback) (b : bool) (w : World) :
  populateHeightFieldAndNormalMap fuel layers (Some hf) normalMap key
    haeProfile interpolation progress = Ok (b, w) ->
  forall off i fallback c r v,
    In (EvWrite off i fallback c r v) (w_trace w) ->
    F32.neqb v NO_DATA_VALUE = true.
Proof.
  intros Hrun. destruct (populate_keeps _ _ _ _ _ _ _ _ _ _ Hrun) as (_ & _ & H).
  intros off i fallback c r v Hin.
  rewrite Forall_forall in H. apply (H _ (proj2 (list_elem_of_In _ _) Hin)).
Qed.
End PopulateKeeps.

Lemma to_int_small z : - 2 ^ 31 <= z < 2 ^ 31 -> to_int z = z.
Proof.
  intros H. unfold to_int. rewrite Z.mod_small by lia. lia.
Qed.

(** X25.  [1 << d] on int is the power of two for the shifts 0..30: the
    step of the normal-map builder is positive, and fits an int, as long as
    a pixel is at most 30 levels below the key. *)
Theorem stepOf_is_power_of_two (d : Z) :
  0 <= d <= 30 -> stepOf d = 2 ^ d /\ 1 <= stepOf d < 2 ^ 31.
Proof.
  intros Hd. unfold stepOf. rewrite Z.shiftl_mul_pow2 by lia. rewrite Z.mul_1_l.
  assert (H : 1 <= 2 ^ d < 2 ^ 31).
  { split.
    - apply (Z.pow_le_mono_r 2 0 d); lia.
    - apply Z.pow_lt_mono_r; lia. }
  rewrite to_int_small by lia. lia.
Qed.



Section NormalMapSafe.
Context {E : Externals}.




End NormalMapSafe.

Section ParentWalk.
Context {K : Constants} {E : Externals}.

Lemma failedCreates_S i k m :
  failedCreates i k (S m)
  = EvCreate false i k false :: failedCreates i (createParentKey k) m.
Proof.
  unfold failedCreates. simpl. f_equal.
  rewrite <- seq_shift. rewrite <- list_fmap_compose.
  apply list_fmap_ext. intros j x _. simpl.
  rewrite Nat.iter_swap. reflexivity.
Qed.

Lemma walkParents_walk fuel progress n :
  forall i lidx actualKey layers trace r k layers' trace',
    walkParents fuel progress n i lidx actualKey layers trace
    = Ok (r, k, layers', trace') ->
    exists m,
      (m < n)%nat
      /\ k = Nat.iter m createParentKey actualKey
      /\ trace' = trace ++ failedCreates i actualKey m
                  ++ match r with
                     | Some _ => [EvCreate false i k true]
                     | None => []
                     end
      /\ length layers' = length layers
      /\ (r = None ->
          exists layer, layers' !! lidx = Some layer
            /\ key_valid k && isKeyInLegalRange layer k = false).
Proof.
  induction n as [|n IH]; intros i lidx actualKey layers trace r k layers' trace';
    [discriminate|].
  simpl.
  destruct (layers !! lidx) as [layer|] eqn:Hl; [|discriminate].
  destruct (key_valid actualKey && isKeyInLegalRange layer actualKey) eqn:Htest.
  2:{ intros [= <- <- <- <-]. exists 0%nat. split; [lia|].
      split; [reflexivity|]. split; [rewrite app_nil_r; reflexivity|].
      split; [reflexivity|]. intros _. eauto. }
  destruct (createHeightField fuel layer actualKey progress)
    as [[layerHF layer']| |]; simpl; try discriminate.
  destruct layerHF as [g|]; simpl.
  - intros [= <- <- <- <-]. exists 0%nat. split; [lia|].
    split; [reflexivity|]. split; [reflexivity|].
    split; [apply length_insert|]. discriminate.
  - intros Hrun. apply IH in Hrun.
    destruct Hrun as (m & Hm & Hk & Ht & Hlen & Hnone).
    exists (S m). split; [lia|].
    split; [rewrite Nat.iter_succ_r; exact Hk|].
    split; [rewrite failedCreates_S, Ht, <- app_assoc; reflexivity|].
    split; [rewrite Hlen; apply length_insert|exact Hnone].
Qed.

(** X27.  The parent walk of a contender asks createHeightField for the
    entry's key and then for one parent after the other; it stops at the
    first key that yields a grid, and it gives up only at a key that is
    invalid (above level 0) or outside the legal range of the layer.  The
    key it ends with is an ancestor of the key it started from, and the
    number of layers is unchanged. *)
Theorem walkParents_stops_at_first_grid
    (fuel : nat) (progress : option ProgressCallback) (n : nat) (i : Z)
    (lidx : nat) (actualKey : TileKey) (layers : list ElevationLayer)
    (trace : list event) (r : option GeoHeightField) (k : TileKey)
    (layers' : list ElevationLayer) (trace' : list event) :
  walkParents fuel progress n i lidx actualKey layers trace
  = Ok (r, k, layers', trace') ->
  exists m,
    k = Nat.iter m createParentKey actualKey
    /\ trace' = trace ++ failedCreates i actualKey m
                ++ match r with
                     | Some _ => [EvCreate false i k true]
                     | None => []
                     end
    /\ length layers' = length layers
    /\ (r = None ->
        exists layer, layers' !! lidx = Some layer
          /\ key_valid k && isKeyInLegalRange layer k = false).
Proof.
  intros Hrun. destruct (walkParents_walk _ _ _ _ _ _ _ _ _ _ _ _ Hrun)
    as (m & _ & H). eauto.
Qed.
End ParentWalk.

Lemma quietContenders_nil : quietContenders [].
Proof. split; [constructor|reflexivity]. Qed.

Lemma quietContenders_app e1 e2 :
  quietContenders e1 -> quietContenders e2 -> quietContenders (e1 ++ e2).
Proof.
  intros [A1 A2] [B1 B2]. split; [apply Forall_app; auto|].
  unfold contenderWrites in *. rewrite omap_app, A2, B2. reflexivity.
Qed.

Lemma contenderPhase_prepend indices px ri e1 e2 :
  quietContenders e1 -> contenderPhase indices px ri e2 ->
  contenderPhase indices px ri (e1 ++ e2).
Proof.
  intros H1 [[Hr H2]|(Hr & pre & i & f & v & -> & H2 & Hi & Hw)].
  - left. split; [exact Hr|apply quietContenders_app; assumption].
  - right. split; [exact Hr|]. exists (e1 ++ pre), i, f, v.
    rewrite app_assoc. split; [reflexivity|].
    split; [apply quietContenders_app; assumption|auto].
Qed.

Lemma indicesNonNegative_same st st' :
  contenderIndices st' = contenderIndices st ->
  indicesNonNegative st -> indicesNonNegative st'.
Proof.
  unfold contenderIndices, indicesNonNegative. intros Heq Hnn.
  apply (Forall_fmap ld_index (fun z => 0 <= z)).
  rewrite Heq. apply (Forall_fmap ld_index (fun z => 0 <= z)). exact Hnn.
Qed.

Section ContenderPriority.
Context {K : Constants} {E : Externals}.
Variable fuel : nat.
Variable key : TileKey.
Variable keySRS : SpatialReference.
Variable interpolation : ElevationInterpolation.
Variable progress : option ProgressCallback.
Variable numColumns : Z.
Variable offsets : list LayerData.

Lemma walkParents_quiet n : forall i lidx actualKey layers trace,
  oWP (walkParents fuel progress n i lidx actualKey layers trace)
    (fun r => exists evs, r.2 = trace ++ evs /\ quietContenders evs)
    (fun _ => True).
Proof.
  induction n as [|n IH]; intros i lidx actualKey layers trace; [exact I|].
  simpl.
  destruct (layers !! lidx) as [layer|]; [|exact I].
  destruct (key_valid actualKey && isKeyInLegalRange layer actualKey).
  2:{ simpl. exists []. rewrite app_nil_r. split; [reflexivity|].
      apply quietContenders_nil. }
  apply oWP_bind.
  destruct (createHeightField fuel layer actualKey progress)
    as [[layerHF layer']| |]; simpl; try exact I.
  destruct layerHF as [g|]; simpl.
  - eexists [_]. split; [reflexivity|]. split; [|reflexivity].
    constructor; [reflexivity|constructor].
  - eapply oWP_mono; [| |apply IH]; auto.
    intros [[[g k] ls] tr] (evs & Ht & Hq). simpl in *. subst tr.
    eexists (_ :: evs). rewrite <- app_assoc. split; [reflexivity|].
    apply (quietContenders_app [_] evs); [|exact Hq].
    split; [|reflexivity]. constructor; [reflexivity|constructor].
Qed.

Lemma clearHeightFieldCache_contenders st :
  oWP (clearHeightFieldCache st)
    (fun st' => sw_trace st' = sw_trace st
                /\ sw_contenders st' = sw_contenders st)
    (fun _ => True).
Proof.
  unfold clearHeightFieldCache. apply oWP_bind.
  eapply oWP_mono;
    [| |apply (oWP_forEach
                 (fun s => sw_trace s = sw_trace st
                           /\ sw_contenders s = sw_contenders st)
                 (fun _ => True))]; auto.
  intros j st1 H1 _. apply oWP_bind.
  destruct (readAt SlotIndexOutOfBounds (sw_heightFields st1) j) as [row| |];
    simpl; try exact I.
  apply oWP_forEach; [exact H1|].
  intros k st2 H2 _. apply oWP_bind.
  destruct (write2 _ _ _ _ _) as [hfs| |]; simpl; try exact I.
  apply oWP_bind.
  destruct (write2 _ _ _ _ _) as [fbs| |]; simpl; try exact I.
  exact H2.
Qed.

Lemma writeAt_Forall {A} (P : A -> Prop) f (l l' : list A) i a :
  Forall P l -> P a -> writeAt f l i a = Ok l' -> Forall P l'.
Proof.
  unfold writeAt. intros Hl Ha.
  destruct (_ && _); [|discriminate]. intros [= <-].
  apply Forall_insert; assumption.
Qed.

Lemma loadContender_quiet i ld st :
  0 <= i -> sw_contenders st !! Z.to_nat i = Some ld ->
  oWP (loadContender fuel progress i ld st)
    (fun r => (exists evs, sw_trace r.2 = sw_trace st ++ evs
                           /\ quietContenders evs)
              /\ contenderIndices r.2 = contenderIndices st)
    (fun _ => True).
Proof.
  intros Hi Hld. unfold loadContender.
  generalize (2 + N.to_nat (key_lod (ld_key ld)))%nat. intros n.
  apply oWP_bind.
  destruct (read2 _ _ _ _) as [layerHF| |]; simpl; try exact I.
  destruct layerHF as [g|]; simpl.
  { split; [|reflexivity]. exists []. rewrite app_nil_r.
    split; [reflexivity|apply quietContenders_nil]. }
  apply oWP_bind.
  eapply oWP_mono; [| |apply walkParents_quiet]; auto.
  intros [[[fetched actualKey] layers'] trace'] (evs & Ht & Hq).
  simpl in Ht. subst trace'. simpl.
  apply oWP_bind.
  destruct (writeAt _ _ _ _) as [conts| |] eqn:Hw; simpl; try exact I.
  assert (Hc : ld_index <$> conts = ld_index <$> sw_contenders st).
  { unfold writeAt in Hw. destruct (_ && _); [|discriminate].
    injection Hw as <-. rewrite list_fmap_insert. simpl.
    apply list_insert_id. rewrite list_lookup_fmap, Hld. reflexivity. }
  apply oWP_bind. destruct (write2 _ _ _ _ _) as [hfs| |]; simpl; try exact I.
  destruct fetched as [g|]; simpl.
  - apply oWP_bind. destruct (write2 _ _ _ _ _) as [fbs| |]; simpl; try exact I.
    split; [eauto|exact Hc].
  - apply oWP_bind. destruct (write2 _ _ _ _ _) as [fls| |]; simpl; try exact I.
    split; [eauto|exact Hc].
Qed.

Lemma sampleContender_phase px i g st :
  indicesNonNegative st ->
  oWP (sampleContender key keySRS interpolation numColumns px i g st)
    (fun r => (exists evs, sw_trace r.1 = sw_trace st ++ evs
                           /\ contenderPhase (contenderIndices st) px r.2 evs)
              /\ sw_contenders r.1 = sw_contenders st)
    (fun _ => True).
Proof.
  intros Hnn. unfold sampleContender. apply oWP_bind.
  destruct (readAt _ _ _) as [ld| |] eqn:Hld; simpl; try exact I.
  apply readAt_Some in Hld. destruct Hld as [Hi Hld].
  assert (Hidx : 0 <= ld_index ld).
  { unfold indicesNonNegative in Hnn. rewrite Forall_forall in Hnn.
    apply Hnn. eapply list_elem_of_lookup_2; eauto. }
  assert (Hwin : contenderIndices st !! Z.to_nat i = Some (ld_index ld)).
  { unfold contenderIndices. rewrite list_lookup_fmap, Hld. reflexivity. }
  apply oWP_bind.
  destruct (read2 _ _ _ _) as [isFallback| |]; simpl; try exact I.
  set (sampled := getElevation g keySRS (px_x px) (px_y px) interpolation keySRS).
  set (st1 := if negb isFallback then set_realData st true else st).
  assert (H1 : sw_contenders st1 = sw_contenders st /\ sw_trace st1 = sw_trace st).
  { unfold st1. destruct isFallback; split; reflexivity. }
  destruct H1 as [C1 T1].
  assert (Hq : quietContenders
                 [EvSample false i isFallback (px_c px) (px_r px) sampled]).
  { split; [|reflexivity]. constructor; [reflexivity|constructor]. }
  destruct sampled as [elevation|] eqn:Hs; simpl.
  - destruct (F32.neqb elevation NO_DATA_VALUE) eqn:Hne; simpl.
    + apply oWP_bind.
      destruct (setHeight _ _ _ _) as [hf'| |]; simpl; try exact I.
      apply oWP_bind.
      destruct (writeAt _ _ _ _) as [dl| |]; simpl; try exact I.
      split; [|exact C1].
      eexists [_; _]. rewrite T1, <- app_assoc. split; [reflexivity|].
      right. split; [exact Hidx|]. eexists [_], _, _, _.
      split; [reflexivity|]. split; [exact Hq|]. split; [exact Hi|exact Hwin].
    + split; [|exact C1]. eexists [_]. rewrite T1. split; [reflexivity|].
      left. split; [lia|exact Hq].
  - split; [|exact C1]. eexists [_]. rewrite T1. split; [reflexivity|].
    left. split; [lia|exact Hq].
Qed.

Lemma contenderBody_phase px i st :
  indicesNonNegative st ->
  oWP (contenderBody fuel key keySRS interpolation progress numColumns px i st)
    (fun r => (exists evs, sw_trace r.1 = sw_trace st ++ evs
                           /\ contenderPhase (contenderIndices st) px r.2 evs)
              /\ contenderIndices r.1 = contenderIndices st)
    (fun _ => True).
Proof.
  intros Hnn.
  assert (Hnone : (exists evs, sw_trace st = sw_trace st ++ evs
                               /\ contenderPhase (contenderIndices st) px (-1) evs)
                  /\ contenderIndices st = contenderIndices st).
  { split; [|reflexivity]. exists []. rewrite app_nil_r. split; [reflexivity|].
    left. split; [lia|apply quietContenders_nil]. }
  unfold contenderBody. apply oWP_bind.
  destruct (readAt _ _ _) as [ld| |] eqn:Hld; simpl; try exact I.
  apply readAt_Some in Hld. destruct Hld as [Hi Hld].
  apply oWP_bind.
  destruct (read2 _ _ _ _) as [failed| |]; simpl; try exact I.
  destruct failed; simpl; [exact Hnone|].
  apply oWP_bind.
  eapply oWP_mono; [| |apply (loadContender_quiet i ld st Hi Hld)]; auto.
  intros [layerHF st1] [(e1 & T1 & Q1) N1]. simpl in T1, N1.
  destruct layerHF as [g|]; simpl.
  2:{ split; [|exact N1]. exists e1. split; [exact T1|].
      left. split; [lia|exact Q1]. }
  apply oWP_bind.
  eapply oWP_mono;
    [| |apply (sampleContender_phase px i g st1
                 (indicesNonNegative_same st st1 N1 Hnn))]; auto.
  intros [st2 ri] [(e2 & T2 & P2) C2]. simpl in T2, P2, C2.
  assert (H12 : (exists evs, sw_trace st2 = sw_trace st ++ evs
                             /\ contenderPhase (contenderIndices st) px ri evs)
                /\ contenderIndices st2 = contenderIndices st).
  { split; [|unfold contenderIndices in *; rewrite C2; exact N1].
    exists (e1 ++ e2). rewrite T2, T1, app_assoc. split; [reflexivity|].
    apply contenderPhase_prepend; [exact Q1|]. rewrite <- N1. exact P2. }
  destruct (sw_numHeightFieldsInCache st2 >=? maxHeightFields); simpl;
    [|exact H12].
  apply oWP_bind.
  eapply oWP_mono; [| |apply clearHeightFieldCache_contenders]; auto.
  intros st3 [T3 C3]. simpl.
  destruct H12 as [(evs & T & P) N].
  split; [exists evs; rewrite T3; auto|].
  unfold contenderIndices in *. rewrite C3. exact N.
Qed.

Lemma contenderLoop_resolved px indices st resolvedIndex :
  0 <= resolvedIndex ->
  contenderLoop fuel key keySRS interpolation progress numColumns px indices
    st resolvedIndex = Ok (st, resolvedIndex).
Proof.
  intros Hr. destruct indices as [|i rest]; simpl; [reflexivity|].
  destruct (Z.ltb_spec resolvedIndex 0); [lia|reflexivity].
Qed.

Lemma contenderLoop_phase px indices : forall st resolvedIndex,
  resolvedIndex < 0 ->
  indicesNonNegative st ->
  oWP (contenderLoop fuel key keySRS interpolation progress numColumns px indices
         st resolvedIndex)
    (fun r => (exists evs, sw_trace r.1 = sw_trace st ++ evs
                           /\ contenderPhase (contenderIndices st) px r.2 evs)
              /\ contenderIndices r.1 = contenderIndices st)
    (fun _ => True).
Proof.
  induction indices as [|i rest IH]; intros st r0 Hr0 Hnn; simpl.
  { split; [|reflexivity]. exists []. rewrite app_nil_r. split; [reflexivity|].
    left. split; [exact Hr0|apply quietContenders_nil]. }
  destruct (Z.ltb_spec r0 0); [|lia]. simpl.
  apply oWP_bind.
  eapply oWP_mono; [| |apply (contenderBody_phase px i st Hnn)]; auto.
  intros [st1 r1] [(e1 & T1 & P1) N1]. simpl in T1, P1, N1.
  destruct P1 as [[Hr Q1]|(Hr & Hlast)].
  - eapply oWP_mono;
      [| |apply (IH st1 r1 Hr (indicesNonNegative_same st st1 N1 Hnn))]; auto.
    intros [st2 r2] [(e2 & T2 & P2) N2]. simpl in *.
    split; [|congruence]. exists (e1 ++ e2). rewrite T2, T1, app_assoc.
    split; [reflexivity|]. apply contenderPhase_prepend; [exact Q1|].
    rewrite <- N1. exact P2.
  - rewrite contenderLoop_resolved by exact Hr. simpl.
    split; [|exact N1]. exists e1. split; [exact T1|]. right. auto.
Qed.

Lemma loadOffset_offsetEvents iz ld st :
  oWP (loadOffset fuel progress iz ld st)
    (fun r => (exists evs, sw_trace r.2 = sw_trace st ++ evs
                           /\ Forall (fun ev => isOffsetEvent ev = true
                                                /\ eventEntry ev = iz) evs)
              /\ sw_contenders r.2 = sw_contenders st)
    (fun _ => True).
Proof.
  unfold loadOffset. apply oWP_bind.
  destruct (read2 _ _ _ _) as [layerHF| |]; simpl; try exact I.
  destruct layerHF as [g|]; simpl.
  { split; [|reflexivity]. exists []. rewrite app_nil_r.
    split; [reflexivity|constructor]. }
  destruct (sw_layers st !! ld_layer ld) as [offset|]; simpl; [|exact I].
  apply oWP_bind.
  destruct (createHeightField fuel offset (ld_key ld) progress)
    as [[fetched offset']| |]; simpl; try exact I.
  apply oWP_bind. destruct (write2 _ _ _ _ _) as [ofs| |]; simpl; try exact I.
  destruct fetched as [g|]; simpl.
  - split; [|reflexivity]. eexists [_]. split; [reflexivity|].
    constructor; [split; reflexivity|constructor].
  - apply oWP_bind. destruct (write2 _ _ _ _ _) as [fls| |]; simpl; try exact I.
    split; [|reflexivity]. eexists [_]. split; [reflexivity|].
    constructor; [split; reflexivity|constructor].
Qed.

Lemma sampleOffset_offsetEvents px iz ld g st :
  oWP (sampleOffset key keySRS interpolation numColumns px iz ld g st)
    (fun st' => (exists evs, sw_trace st' = sw_trace st ++ evs
                             /\ Forall (fun ev => isOffsetEvent ev = true
                                                  /\ eventEntry ev = iz) evs)
                /\ sw_contenders st' = sw_contenders st)
    (fun _ => True).
Proof.
  unfold sampleOffset.
  set (sampled := getElevation g keySRS (px_x px) (px_y px) interpolation keySRS).
  destruct sampled as [elevation|]; simpl.
  - destruct (F32.neqb elevation NO_DATA_VALUE); simpl.
    + apply oWP_bind. destruct (getHeight _ _ _) as [old| |]; simpl; try exact I.
      apply oWP_bind. destruct (setHeight _ _ _ _) as [hf'| |]; simpl; try exact I.
      apply oWP_bind. destruct (writeAt _ _ _ _) as [dl| |]; simpl; try exact I.
      split; [|reflexivity]. eexists [_; _]. rewrite <- app_assoc.
      split; [reflexivity|]. repeat (constructor; [split; reflexivity|]).
      constructor.
    + split; [|reflexivity]. eexists [_]. split; [reflexivity|].
      repeat (constructor; [split; reflexivity|]). constructor.
  - split; [|reflexivity]. eexists [_]. split; [reflexivity|].
    repeat (constructor; [split; reflexivity|]). constructor.
Qed.

Lemma offsetBody_offsetEvents px resolvedIndex i st :
  oWP (offsetBody fuel key keySRS interpolation progress numColumns offsets px
         resolvedIndex i st)
    (fun st' => (exists evs, sw_trace st' = sw_trace st ++ evs
                             /\ Forall (offsetAbove offsets resolvedIndex) evs)
                /\ sw_contenders st' = sw_contenders st)
    (fun _ => True).
Proof.
  assert (Hnil : (exists evs, sw_trace st = sw_trace st ++ evs
                              /\ Forall (offsetAbove offsets resolvedIndex) evs)
                 /\ sw_contenders st = sw_contenders st).
  { split; [|reflexivity]. exists []. rewrite app_nil_r.
    split; [reflexivity|constructor]. }
  unfold offsetBody. apply oWP_bind.
  destruct (readAt _ _ _) as [ld| |] eqn:Hld; simpl; try exact I.
  apply readAt_Some in Hld. destruct Hld as [Hpos Hld].
  destruct ((resolvedIndex >=? 0) && (ld_index ld <? resolvedIndex)) eqn:Hskip;
    simpl; [exact Hnil|].
  assert (Habove : resolvedIndex < 0 \/ resolvedIndex <= ld_index ld).
  { apply andb_false_iff in Hskip. destruct Hskip as [H|H].
    - left. destruct (Z.geb_spec resolvedIndex 0); [discriminate|lia].
    - right. apply Z.ltb_ge in H. exact H. }
  assert (Hup : forall evs,
            Forall (fun ev => isOffsetEvent ev = true
                              /\ eventEntry ev = Z.of_nat i) evs ->
            Forall (offsetAbove offsets resolvedIndex) evs).
  { intros evs Hevs. eapply Forall_impl; [exact Hevs|].
    intros ev [H1 H2]. split; [exact H1|]. exists ld. rewrite H2. auto. }
  apply oWP_bind.
  destruct (read2 _ _ _ _) as [failed| |]; simpl; try exact I.
  destruct failed; simpl; [exact Hnil|].
  apply oWP_bind.
  eapply oWP_mono; [| |apply loadOffset_offsetEvents]; auto.
  intros [layerHF st1] [(e1 & T1 & F1) C1]. simpl in *.
  destruct layerHF as [g|]; [|split; eauto].
  eapply oWP_mono; [| |apply sampleOffset_offsetEvents]; auto.
  intros st' [(e2 & T2 & F2) C2]. simpl in *.
  split; [|congruence]. exists (e1 ++ e2). rewrite T2, T1, app_assoc.
  split; [reflexivity|apply Forall_app; auto].
Qed.

Lemma sweepPixel_phases px st :
  indicesNonNegative st ->
  oWP (sweepPixel fuel key keySRS interpolation progress numColumns offsets px st)
    (fun st' =>
       (exists resolvedIndex cev oev,
          sw_trace st' = sw_trace st ++ cev ++ oev
          /\ contenderPhase (contenderIndices st) px resolvedIndex cev
          /\ Forall (offsetAbove offsets resolvedIndex) oev)
       /\ contenderIndices st' = contenderIndices st)
    (fun _ => True).
Proof.
  intros Hnn. unfold sweepPixel. apply oWP_bind.
  eapply oWP_mono;
    [| |apply (contenderLoop_phase px _ st (-1) ltac:(lia) Hnn)]; auto.
  intros [st1 ri] [(cev & T1 & P1) N1]. simpl in T1, P1, N1.
  eapply oWP_mono;
    [| |apply (oWP_forEach
                 (fun s => (exists oev, sw_trace s = sw_trace st1 ++ oev
                              /\ Forall (offsetAbove offsets ri) oev)
                           /\ sw_contenders s = sw_contenders st1)
                 (fun _ => True))]; auto.
  - intros st2 [(oev & T2 & F2) C2]. simpl.
    split; [|unfold contenderIndices in *; rewrite C2; exact N1].
    exists ri, cev, oev. rewrite T2, T1, app_assoc. auto.
  - split; [|reflexivity]. exists []. rewrite app_nil_r.
    split; [reflexivity|constructor].
  - intros i s [(e1 & T & F) C] _.
    eapply oWP_mono; [| |apply offsetBody_offsetEvents]; auto.
    intros s' [(e2 & T2 & F2) C2]. simpl.
    split; [|congruence]. exists (e1 ++ e2). rewrite T2, T, app_assoc.
    split; [reflexivity|apply Forall_app; auto].
Qed.

(** X28.  At every pixel the contenders come before the offsets, and the
    first contender that has data for the pixel decides its height: the
    events of the pixel are those of contenders followed by those of
    offsets, at most one contender sets the height, and no contender is
    fetched or sampled after that one. *)
Theorem first_contender_with_data_wins (px : Pixel) (st st' : Sweep) :
  indicesNonNegative st ->
  sweepPixel fuel key keySRS interpolation progress numColumns offsets px st
  = Ok st' ->
  exists cev oev,
    sw_trace st' = sw_trace st ++ cev ++ oev
    /\ Forall (fun ev => isOffsetEvent ev = false) cev
    /\ Forall (fun ev => isOffsetEvent ev = true) oev
    /\ (contenderWrites cev = []
        \/ exists pre i fallback v,
             cev = pre ++ [EvWrite false i fallback (px_c px) (px_r px) v]
             /\ contenderWrites pre = [])
    /\ indicesNonNegative st'.
Proof.
  intros Hnn Hrun.
  destruct (oWP_ok _ _ _ _ (sweepPixel_phases px st Hnn) Hrun)
    as [(ri & cev & oev & T & P & F) N].
  apply (indicesNonNegative_same st st') in N; [|exact Hnn].
  exists cev, oev. split; [exact T|].
  assert (F' : Forall (fun ev => isOffsetEvent ev = true) oev).
  { eapply Forall_impl; [exact F|]. intros ev [H _]. exact H. }
  destruct P as [[_ [Q1 Q2]]|(_ & pre & i & f & v & -> & [Q1 Q2] & _)].
  - split; [exact Q1|]. split; [exact F'|]. split; [left; exact Q2|exact N].
  - split; [apply Forall_app; split; [exact Q1|repeat constructor]|].
    split; [exact F'|]. split; [|exact N]. right. eauto 6.
Qed.

(** X29.  Once a contender has set the height of a pixel, the offset
    entries whose index is below that contender's index are passed over
    (line 1058): when the contender at position [i] of [contenders], with
    entry [winner], is the one that wrote, every grid fetched, sampled or
    added for an offset at that pixel belongs to an entry of [offsets]
    whose index is at least [winner]'s. *)
Theorem offsets_below_resolved_index_are_skipped (px : Pixel) (st st' : Sweep) :
  indicesNonNegative st ->
  sweepPixel fuel key keySRS interpolation progress numColumns offsets px st
  = Ok st' ->
  exists cev oev,
    sw_trace st' = sw_trace st ++ cev ++ oev
    /\ Forall (fun ev => isOffsetEvent ev = false) cev
    /\ Forall (fun ev => isOffsetEvent ev = true) oev
    /\ (contenderWrites cev = []
        \/ exists pre i fallback v winner,
             cev = pre ++ [EvWrite false i fallback (px_c px) (px_r px) v]
             /\ contenderWrites pre = []
             /\ 0 <= i
             /\ sw_contenders st !! Z.to_nat i = Some winner
             /\ Forall (offsetNotBelow offsets (ld_index winner)) oev).
Proof.
  intros Hnn Hrun.
  destruct (oWP_ok _ _ _ _ (sweepPixel_phases px st Hnn) Hrun)
    as [(ri & cev & oev & T & P & F) _].
  exists cev, oev. split; [exact T|].
  assert (F' : Forall (fun ev => isOffsetEvent ev = true) oev).
  { eapply Forall_impl; [exact F|]. intros ev [H _]. exact H. }
  destruct P as [[_ [Q1 Q2]]|(Hr & pre & i & f & v & -> & [Q1 Q2] & Hi & Hw)].
  - split; [exact Q1|]. split; [exact F'|]. left. exact Q2.
  - split; [apply Forall_app; split; [exact Q1|repeat constructor]|].
    split; [exact F'|]. right.
    unfold contenderIndices in Hw. rewrite list_lookup_fmap in Hw.
    destruct (sw_contenders st !! Z.to_nat i) as [winner|] eqn:Hwin;
      [|discriminate].
    injection Hw as Hw. exists pre, i, f, v, winner.
    repeat (split; [auto; fail|]).
    eapply Forall_impl; [exact F|].
    intros ev (_ & ld & E1 & E2 & E3). exists ld.
    split; [exact E1|]. split; [exact E2|]. lia.
Qed.
End ContenderPriority.

Lemma successful_fetch_is_normalised_witness :
  let L := Scenario.layer false (Some (Scenario.constGrid S754_nan)) in
  exists L' source',
    @createHeightFieldFromTileSource Scenario.constants Scenario.externals 1 L
      Scenario.key None
    = Ok (Some (Scenario.constGrid (SFopp Scenario.FLT_MAX)), L')
    /\ el_tileSource L' = Some source'
    /\ ts_blacklist source' = []
    /\ ts_requests source' = [] ++ [Scenario.key].
Proof.
  intros L.
  eapply (@successful_fetch_is_normalised Scenario.constants Scenario.externals
           0 L (Scenario.source (Some (Scenario.constGrid S754_nan)))
           Scenario.key None Scenario.profile Scenario.profile
           (Scenario.constGrid S754_nan));
    reflexivity.
Defined.

Lemma firstElevation_first_hit_witness :
  @firstElevation Scenario.constants Scenario.externals
    ([Scenes.emptyGrid] ++ Scenes.sevens :: []) Scenario.srs F64.zero F64.zero
  = (F32.of_Z 7, mkVec3 F32.zero F32.zero F32.one)
  /\ @firstElevation Scenario.constants Scenario.externals
       [Scenes.emptyGrid] Scenario.srs F64.zero F64.zero
     = (SFopp Scenario.FLT_MAX, mkVec3 F32.zero F32.zero F32.one).
Proof.
  eapply (@firstElevation_first_hit Scenario.constants Scenario.externals
           [Scenes.emptyGrid] [] Scenes.sevens Scenario.srs F64.zero F64.zero
           (F32.of_Z 7, mkVec3 F32.zero F32.zero F32.one)).
  - constructor; [reflexivity|constructor].
  - reflexivity.
Defined.

Lemma assembleHeightField_shape_witness :
  exists hf nm L',
    @assembleHeightField Scenario.constants Scenes.mosaicExternals
      (fun L k p => Ok (Some (Scenario.constGrid (F32.of_Z 7)), L))
      (Scenario.layer false None) Scenes.geodeticKey None
    = Ok (Some hf, Some nm, L')
    /\ assembledShape (hf_columns hf) (hf_rows hf) (hf, nm).
Proof.
  eexists _, _, _. split; [vm_compute; reflexivity|].
  refine (@assembleHeightField_shape Scenario.constants Scenes.mosaicExternals
            (fun L k p => Ok (Some (Scenario.constGrid (F32.of_Z 7)), L))
            (Scenario.layer false None) _ Scenes.geodeticKey None
            (Some _) (Some _) _).
  vm_compute. reflexivity.
Defined.

Lemma createHeightField_does_not_reach_driver_witness :
  let L :=
    Scenes.layerWith Scenes.cacheOnly
      (Some (Scenario.source (Some (Scenario.constGrid F32.one)))) None ∅ in
  @createHeightField Scenario.constants Scenario.externals 5 L Scenario.key None
  = @createHeightField Scenario.constants Scenario.externals 0 L Scenario.key None
  /\ forall r L',
       @createHeightField Scenario.constants Scenario.externals 5 L
         Scenario.key None = Ok (r, L') ->
       el_tileSource L' = el_tileSource L
       /\ el_cacheBins L' = el_cacheBins L.
Proof.
  intros L.
  eapply (@createHeightField_does_not_reach_driver Scenario.constants
           Scenario.externals 5 L Scenario.key None).
  left. reflexivity.
Defined.

Lemma missing_tile_source_disables_layer_witness :
  let L := Scenes.layerWith Scenario.neverExpires None None ∅ in
  @createHeightField Scenario.constants Scenario.externals 1 L Scenario.key None
  = Ok (None, disable L)
  /\ forall fuel' key' progress',
       @createHeightField Scenario.constants Scenario.externals fuel'
         (disable L) key' progress' = Ok (None, disable L).
Proof.
  intros L.
  eapply (@missing_tile_source_disables_layer Scenario.constants
           Scenario.externals 1 L Scenario.key Scenario.profile None);
    reflexivity.
Defined.

Lemma memory_cache_round_trip_witness :
  let L :=
    Scenes.layerWith Scenario.neverExpires
      (Some (Scenario.source (Some (Scenario.constGrid F32.one)))) (Some ∅) ∅ in
  exists g L',
    @createHeightField Scenario.constants Scenario.externals 3 L Scenario.key
      None = Ok (Some g, L')
    /\ @createHeightField Scenario.constants Scenario.externals 0 L'
         Scenario.key (Some (mkProgress true true)) = Ok (Some g, L').
Proof.
  intros L. eexists _, _. split; [vm_compute; reflexivity|].
  eapply (@memory_cache_round_trip Scenario.constants Scenario.externals 3 0 L
           _ Scenario.key None (Some (mkProgress true true)) _ ∅).
  - reflexivity.
  - reflexivity.
  - vm_compute. reflexivity.
Defined.

Lemma fresh_cache_entry_is_returned_as_stored_witness :
  let L :=
    Scenes.layerWith Scenario.neverExpires (Some (Scenario.source None)) None
      (Scenes.cacheHolding (Scenario.constGrid (F32.of_Z 42))) in
  @createHeightField Scenario.constants Scenario.externals 0 L Scenario.key None
  = Ok (Some (mkGeoHeightField (Scenario.constGrid (F32.of_Z 42)) None
                (@key_getExtent Scenario.externals Scenario.key)), L).
Proof.
  intros L.
  eapply (@fresh_cache_entry_is_returned_as_stored Scenario.constants
           Scenario.externals 0 L Scenario.key Scenario.profile None
           {[ Scenario.cacheKey :=
                mkReadResult (Some (Scenario.constGrid (F32.of_Z 42))) 0 ]}
           (mkReadResult (Some (Scenario.constGrid (F32.of_Z 42))) 0)
           (Scenario.constGrid (F32.of_Z 42))).
  - reflexivity.
  - reflexivity.
  - reflexivity.
  - reflexivity.
  - right. split; [eexists; reflexivity|left; eexists; reflexivity].
  - vm_compute. reflexivity.
  - reflexivity.
  - vm_compute. reflexivity.
  - reflexivity.
  - reflexivity.
  - reflexivity.
  - reflexivity.
Defined.

Lemma valid_fresh_grid_is_written_to_cache_witness :
  let L := Scenario.cachedLayer (Some (Scenario.constGrid F32.one)) in
  let L1 :=
    set_tileSource (snd (getOrCreatePreCacheOp L))
      (Some (mkTileSource true "driver" []
               (fun _ _ => Some (Scenario.constGrid F32.one)) [Scenario.key])) in
  exists L',
    @createHeightField Scenario.constants Scenario.externals 3 L Scenario.key None
    = Ok (Some (mkGeoHeightField
                  (@stampHeightField Scenario.externals Scenario.key
                     (Scenario.constGrid F32.one))
                  None (@key_getExtent Scenario.externals Scenario.key)), L')
    /\ @getCacheBin Scenario.externals L' Scenario.profile
       = Some (<[@makeCacheKey Scenario.externals Scenario.key Scenario.profile
                 := mkReadResult (Some (Scenario.constGrid F32.one))
                      (@DateTime_now Scenario.externals)]>
                 {[ Scenario.cacheKey :=
                      mkReadResult (Some (Scenario.constGrid (F32.of_Z 42))) 0 ]})
    /\ el_tileSource L' = el_tileSource L1.
Proof.
  intros L L1.
  eapply (@valid_fresh_grid_is_written_to_cache Scenario.constants
           Scenario.externals 3 L L1 Scenario.key Scenario.profile
           Scenario.profile None
           {[ Scenario.cacheKey :=
                mkReadResult (Some (Scenario.constGrid (F32.of_Z 42))) 0 ]}
           (Some (Scenario.constGrid (F32.of_Z 42)))
           (Scenario.constGrid F32.one)).
  - reflexivity.
  - reflexivity.
  - reflexivity.
  - reflexivity.
  - reflexivity.
  - reflexivity.
  - vm_compute. reflexivity.
  - vm_compute. reflexivity.
  - reflexivity.
  - reflexivity.
  - vm_compute. reflexivity.
  - reflexivity.
  - reflexivity.
Defined.

Lemma createHeightField_writes_one_cache_entry_witness :
  let L := Scenario.cachedLayer (Some (Scenario.constGrid F32.one)) in
  exists r L',
    @createHeightField Scenario.constants Scenario.externals 3 L Scenario.key
      None = Ok (r, L')
    /\ sameCacheBut (@getFullSignature Scenario.externals Scenario.profile)
         (@makeCacheKey Scenario.externals Scenario.key Scenario.profile)
         (el_cacheBins L) (el_cacheBins L')
    /\ el_options L' = el_options L
    /\ el_enabled L' = el_enabled L.
Proof.
  intros L. eexists _, _. split; [vm_compute; reflexivity|].
  eapply (@createHeightField_writes_one_cache_entry Scenario.constants
           Scenario.externals 3 L _ Scenario.key Scenario.profile None _).
  - reflexivity.
  - vm_compute. reflexivity.
Defined.

Lemma createHeightField_result_validates_witness :
  let L := Scenario.cachedLayer None in
  exists g L',
    @createHeightField Scenario.constants Scenario.externals 3 L Scenario.key
      None = Ok (Some g, L')
    /\ validateHeightField (Some (ghf_heightField g)) = true.
Proof.
  intros L. eexists _, _. split; [vm_compute; reflexivity|].
  eapply (@createHeightField_result_validates Scenario.constants
           Scenario.externals 3 L _ Scenario.key Scenario.profile None _).
  - reflexivity.
  - reflexivity.
  - reflexivity.
  - intros bin r cached Hbin Hlook Hobj.
    vm_compute in Hbin. injection Hbin as <-.
    vm_compute in Hlook. injection Hlook as <-.
    vm_compute in Hobj. injection Hobj as <-.
    vm_compute. reflexivity.
  - vm_compute. reflexivity.
Defined.

Lemma rejected_cache_entry_is_still_the_fallback_witness :
  let L :=
    Scenes.layerWith Scenario.neverExpires (Some (Scenario.source None)) None
      (Scenes.cacheHolding (Scenario.grid 1 1 [F32.one])) in
  exists L1,
    @createHeightField Scenario.constants Scenario.externals 3 L Scenario.key None
    = Ok (Some (mkGeoHeightField
                  (@stampHeightField Scenario.externals Scenario.key
                     (Scenario.grid 1 1 [F32.one]))
                  None (@key_getExtent Scenario.externals Scenario.key)), L1)
    /\ validateHeightField
         (Some (@stampHeightField Scenario.externals Scenario.key
                  (Scenario.grid 1 1 [F32.one]))) = false.
Proof.
  intros L. eexists.
  eapply (@rejected_cache_entry_is_still_the_fallback Scenario.constants
            Scenario.externals 3 L _ Scenario.key Scenario.profile
            Scenario.profile None
            {[ Scenario.cacheKey :=
                 mkReadResult (Some (Scenario.grid 1 1 [F32.one])) 0 ]}
            (mkReadResult (Some (Scenario.grid 1 1 [F32.one])) 0)
            (Scenario.grid 1 1 [F32.one]) None).
  - reflexivity.
  - reflexivity.
  - reflexivity.
  - reflexivity.
  - reflexivity.
  - reflexivity.
  - vm_compute. reflexivity.
  - reflexivity.
  - vm_compute. reflexivity.
  - reflexivity.
  - reflexivity.
  - reflexivity.
  - vm_compute. reflexivity.
  - reflexivity.
  - reflexivity.
Defined.

Lemma collectLayers_last_layer_first_witness :
  StronglySorted Z.gt (Z.of_nat <$> (ld_layer <$> [Scenes.baseEntry]))
  /\ StronglySorted Z.gt (Z.of_nat <$> (ld_layer <$> [Scenes.offsetEntry]))
  /\ forall i layer,
       Scenes.baseAndOffset !! i = Some layer ->
       @isCollected Scenario.externals layer (allocate 2 2) Scenario.key
         (keyToUseOf Scenario.key None) = true ->
       In i (ld_layer <$> (if isOffset layer then [Scenes.offsetEntry]
                           else [Scenes.baseEntry])).
Proof.
  eapply (@collectLayers_last_layer_first Scenario.externals
           Scenes.baseAndOffset (allocate 2 2) Scenario.key None
           [Scenes.baseEntry] [Scenes.offsetEntry] 0).
  vm_compute. reflexivity.
Defined.

Lemma populate_keeps_grid_shape_witness :
  exists b w,
    @populateHeightFieldAndNormalMap Scenario.constants Scenario.externals 3
      Scenes.baseAndOffset (Some (allocate 2 2)) None Scenario.key None
      INTERP_BILINEAR None = Ok (b, w)
    /\ (exists hf', w_hf w = Some hf' /\ sameGridShape (allocate 2 2) hf')
    /\ el_options <$> w_layers w = el_options <$> Scenes.baseAndOffset
    /\ length (w_layers w) = length Scenes.baseAndOffset.
Proof.
  eexists _, _. split; [vm_compute; reflexivity|].
  eapply (@populate_keeps_grid_shape Scenario.constants Scenario.externals 3
           Scenes.baseAndOffset (allocate 2 2) None Scenario.key None
           INTERP_BILINEAR None _ _).
  vm_compute. reflexivity.
Defined.

Lemma populate_never_applies_no_data_witness :
  exists b w,
    @populateHeightFieldAndNormalMap Scenario.constants Scenario.externals 3
      Scenes.baseAndOffset (Some (allocate 2 2)) None Scenario.key None
      INTERP_BILINEAR None = Ok (b, w)
    /\ forall off i fallback c r v,
         In (EvWrite off i fallback c r v) (w_trace w) ->
         F32.neqb v (@NO_DATA_VALUE Scenario.constants) = true.
Proof.
  eexists _, _. split; [vm_compute; reflexivity|].
  eapply (@populate_never_applies_no_data Scenario.constants Scenario.externals 3
           Scenes.baseAndOffset (allocate 2 2) None Scenario.key None
           INTERP_BILINEAR None _ _).
  vm_compute. reflexivity.
Defined.

Lemma walkParents_stops_at_first_grid_witness :
  exists r k layers' trace',
    @walkParents Scenario.constants Scenario.externals 3 None 3 0 0 Scenario.key
      [Scenario.coarseOnlyLayer] [] = Ok (r, k, layers', trace')
    /\ exists m,
         k = Nat.iter m createParentKey Scenario.key
         /\ trace' = [] ++ failedCreates 0 Scenario.key m
                     ++ match r with
                        | Some _ => [EvCreate false 0 k true]
                        | None => []
                        end
         /\ length layers' = length [Scenario.coarseOnlyLayer]
         /\ (r = None ->
             exists layer, layers' !! 0%nat = Some layer
               /\ key_valid k && isKeyInLegalRange layer k = false).
Proof.
  eexists _, _, _, _. split; [vm_compute; reflexivity|].
  eapply (@walkParents_stops_at_first_grid Scenario.constants Scenario.externals
           3 None 3 0 0 Scenario.key [Scenario.coarseOnlyLayer] [] _ _ _ _).
  vm_compute. reflexivity.
Defined.


Lemma stepOf_is_power_of_two_witness :
  stepOf 5 = 2 ^ 5 /\ 1 <= stepOf 5 < 2 ^ 31.
Proof. apply (stepOf_is_power_of_two 5). lia. Defined.

Lemma first_contender_with_data_wins_witness :
  let st :=
    initialSweep Scenes.baseAndOffset [Scenes.baseEntry] [Scenes.offsetEntry]
      (allocate 2 2) in
  exists st',
    @sweepPixel Scenario.constants Scenario.externals 3 Scenario.key
      Scenario.srs INTERP_BILINEAR None 2 [Scenes.offsetEntry]
      Scenario.firstPixel st = Ok st'
    /\ exists cev oev,
         sw_trace st' = sw_trace st ++ cev ++ oev
         /\ Forall (fun ev => isOffsetEvent ev = false) cev
         /\ Forall (fun ev => isOffsetEvent ev = true) oev
         /\ (contenderWrites cev = []
             \/ exists pre i fallback v,
                  cev = pre ++ [EvWrite false i fallback
                                  (px_c Scenario.firstPixel)
                                  (px_r Scenario.firstPixel) v]
                  /\ contenderWrites pre = [])
         /\ indicesNonNegative st'.
Proof.
  intros st. eexists. split; [vm_compute; reflexivity|].
  eapply (@first_contender_with_data_wins Scenario.constants Scenario.externals
           3 Scenario.key Scenario.srs INTERP_BILINEAR None 2
           [Scenes.offsetEntry] Scenario.firstPixel st _).
  - constructor; [simpl; lia|constructor].
  - vm_compute. reflexivity.
Defined.

Lemma sandwich_collected :
  @collectLayers Scenario.externals Scenes.sandwich (allocate 2 2) Scenario.key
    None = Ok ([Scenes.sandwichBase], Scenes.sandwichOffsets, 0).
Proof. vm_compute. reflexivity. Qed.

Lemma offsets_below_resolved_index_are_skipped_witness :
  let st :=
    initialSweep Scenes.sandwich [Scenes.sandwichBase] Scenes.sandwichOffsets
      (allocate 2 2) in
  exists st',
    @sweepPixel Scenario.constants Scenario.externals 3 Scenario.key
      Scenario.srs INTERP_BILINEAR None 2 Scenes.sandwichOffsets
      Scenario.firstPixel st = Ok st'
    /\ exists cev oev,
         sw_trace st' = sw_trace st ++ cev ++ oev
         /\ Forall (fun ev => isOffsetEvent ev = false) cev
         /\ Forall (fun ev => isOffsetEvent ev = true) oev
         /\ (contenderWrites cev = []
             \/ exists pre i fallback v winner,
                  cev = pre ++ [EvWrite false i fallback
                                  (px_c Scenario.firstPixel)
                                  (px_r Scenario.firstPixel) v]
                  /\ contenderWrites pre = []
                  /\ 0 <= i
                  /\ sw_contenders st !! Z.to_nat i = Some winner
                  /\ Forall (offsetNotBelow Scenes.sandwichOffsets
                               (ld_index winner)) oev).
Proof.
  intros st. eexists. split; [vm_compute; reflexivity|].
  eapply (@offsets_below_resolved_index_are_skipped Scenario.constants
            Scenario.externals 3 Scenario.key Scenario.srs INTERP_BILINEAR None 2
            Scenes.sandwichOffsets Scenario.firstPixel st _).
  - constructor; [simpl; lia|constructor].
  - vm_compute. reflexivity.
Defined.

(** In the sandwich the offset below the base layer is passed over: the
    first pixel takes 100 from the base layer and adds the 7 of the offset
    above it, never the 5. *)
Lemma sandwich_first_pixel :
  exists st',
    @sweepPixel Scenario.constants Scenario.externals 3 Scenario.key
      Scenario.srs INTERP_BILINEAR None 2 Scenes.sandwichOffsets
      Scenario.firstPixel
      (initialSweep Scenes.sandwich [Scenes.sandwichBase]
         Scenes.sandwichOffsets (allocate 2 2)) = Ok st'
    /\ sw_trace st'
       = [EvCreate false 0 Scenario.key true;
          EvSample false 0 false 0 0 (Some (F32.of_Z 100));
          EvWrite false 0 false 0 0 (F32.of_Z 100);
          EvCreate true 0 Scenario.key true;
          EvSample true 0 false 0 0 (Some (F32.of_Z 7));
          EvWrite true 0 false 0 0 (F32.of_Z 7)].
Proof. eexists. split; vm_compute; reflexivity. Qed.
